(** * PokerCalculator: a shallow embedding of [mainscript.py]

    The development follows the script section by section: the linear
    congruential generator and the Fisher-Yates shuffle, the deck helpers,
    the 5-card and 7-card evaluators, and the Monte Carlo estimator.

    Python integers are [Z].  A card is the tuple [(rank, suit)].  A rank
    tuple returned by the evaluators is a [list Z] compared as Python
    compares tuples.  Python exceptions are the [Raise] results.  List
    objects that the script mutates or that a caller can observe live in a
    store, next to the module-level [_seed]. *)

From Stdlib Require Import ZArith QArith Lia.
From stdpp Require Import base option list list_numbers sorting gmap strings pretty.

Local Open Scope Z_scope.

(** ** Python values and exceptions *)

Definition card : Type := Z * Z.
Definition tuple : Type := list Z.

Inductive exn : Type :=
| IndexError
| KeyError
| ValueError
| ZeroDivisionError
| InvalidRef.  (* a reference to no live object: unreachable from Python *)

Inductive result (A : Type) : Type :=
| Ok (a : A)
| Raise (e : exn).
Arguments Ok {A} a.
Arguments Raise {A} e.

#[global] Instance result_ret : MRet result := λ A a, Ok a.
#[global] Instance result_bind : MBind result := λ A B f r,
  match r with
  | Ok a => f a
  | Raise e => Raise e
  end.

Definition is_ok {A} (r : result A) : Prop := ∃ a, r = Ok a.

Definition len {A} (l : list A) : Z := Z.of_nat (length l).

(** [range(lo, hi)] and [range(hi, lo, -1)]. *)
Definition range (lo hi : Z) : list Z := seqZ lo (hi - lo).
Definition range_down (hi lo : Z) : list Z := (λ k, hi - k) <$> seqZ 0 (hi - lo).

(** Subscripts: a negative index counts from the end, anything outside
    the list raises [IndexError]. *)
Definition norm_index (n i : Z) : result nat :=
  if (0 <=? i) && (i <? n) then Ok (Z.to_nat i)
  else if (- n <=? i) && (i <? 0) then Ok (Z.to_nat (i + n))
  else Raise IndexError.

Definition getitem {A} (l : list A) (i : Z) : result A :=
  k ← norm_index (len l) i;
  match l !! k with
  | Some x => Ok x
  | None => Raise IndexError
  end.

(** Slices clamp instead of raising. *)
Definition clamp_index (n i : Z) : nat :=
  Z.to_nat (Z.min n (Z.max 0 (if i <? 0 then i + n else i))).

Definition slice {A} (l : list A) (start stop : Z) : list A :=
  let a := clamp_index (len l) start in
  let b := clamp_index (len l) stop in
  take (b - a)%nat (drop a l).

Definition slice_to {A} (l : list A) (stop : Z) : list A := slice l 0 stop.
Definition slice_from {A} (l : list A) (start : Z) : list A :=
  drop (clamp_index (len l) start) l.

Definition py_in `{EqDecision A} (x : A) (l : list A) : bool := bool_decide (x ∈ l).

Definition list_count (x : Z) (l : list Z) : Z := len (filter (λ y, y = x) l).

(** [sorted(l, key=..., reverse=True)] and [l.sort(reverse=True)]: the
    stable descending sort.  [lt a b] is [key a < key b]; equal keys keep
    their original order. *)
Fixpoint insert_rev {A} (lt : A → A → bool) (x : A) (l : list A) : list A :=
  match l with
  | [] => [x]
  | y :: l' => if lt x y then y :: insert_rev lt x l' else x :: l
  end.

Definition sorted_rev {A} (lt : A → A → bool) (l : list A) : list A :=
  foldr (insert_rev lt) [] l.

(** A loop over a list with the loop-carried locals as accumulator. *)
Fixpoint fold_result {A S} (body : A → S → result S) (l : list A) (s : S) : result S :=
  match l with
  | [] => Ok s
  | x :: l' => s' ← body x s; fold_result body l' s'
  end.

(** Tuple comparison: the first differing position decides, a proper
    prefix is smaller. *)
Fixpoint tuple_ltb (a b : tuple) : bool :=
  match a, b with
  | [], [] => false
  | [], _ :: _ => true
  | _ :: _, [] => false
  | x :: a', y :: b' => if x =? y then tuple_ltb a' b' else x <? y
  end.

Definition tuple_gtb (a b : tuple) : bool := tuple_ltb b a.
Definition tuple_eqb (a b : tuple) : bool := bool_decide (a = b).

Fixpoint tuple_leb (a b : tuple) : bool :=
  match a, b with
  | [], _ => true
  | _ :: _, [] => false
  | x :: a', y :: b' => if x =? y then tuple_leb a' b' else x <? y
  end.

(** ** The store: the global [_seed] and the list objects *)

Definition loc : Type := nat.

Record store : Type := Store { _seed : Z; lists : list (list card) }.

Definition M (A : Type) : Type := store → result A * store.

#[global] Instance M_ret : MRet M := λ A a st, (Ok a, st).
#[global] Instance M_bind : MBind M := λ A B f m st,
  match m st with
  | (Ok a, st') => f a st'
  | (Raise e, st') => (Raise e, st')
  end.

Definition lift {A} (r : result A) : M A := λ st, (r, st).
Definition get_seed : M Z := λ st, (Ok (_seed st), st).
Definition set_seed (s : Z) : M unit := λ st, (Ok (), Store s (lists st)).

(** A list display or a slice copy allocates a new object. *)
Definition new_list (l : list card) : M loc := λ st,
  (Ok (length (lists st)), Store (_seed st) (lists st ++ [l])).

Definition read (r : loc) : M (list card) := λ st,
  match lists st !! r with
  | Some l => (Ok l, st)
  | None => (Raise InvalidRef, st)
  end.

Definition write (r : loc) (l : list card) : M unit := λ st,
  match lists st !! r with
  | Some _ => (Ok (), Store (_seed st) (<[r := l]> (lists st)))
  | None => (Raise InvalidRef, st)
  end.

(** [lst.append(c)] and [lst[i] = c] mutate the object in place. *)
Definition append (r : loc) (c : card) : M unit :=
  l ← read r; write r (l ++ [c]).

Definition setitem (r : loc) (i : Z) (c : card) : M unit :=
  l ← read r;
  k ← lift (norm_index (len l) i);
  write r (<[k := c]> l).

Fixpoint for_each {A} (l : list A) (body : A → M unit) : M unit :=
  match l with
  | [] => mret ()
  | x :: l' => body x;; for_each l' body
  end.

Fixpoint fold_M {A S} (body : A → S → M S) (l : list A) (s : S) : M S :=
  match l with
  | [] => mret s
  | x :: l' => s' ← body x s; fold_M body l' s'
  end.

(** ** 1. Pseudo-random (LCG) *)

Definition py_mod (a b : Z) : result Z :=
  if b =? 0 then Raise ZeroDivisionError else Ok (a mod b).

Definition rand_int (low high : Z) : M Z :=
  s ← get_seed;
  set_seed ((1103515245 * s + 12345) mod 2147483648);;
  s ← get_seed;
  r ← lift (py_mod s (high - low + 1));
  mret (low + r).

(** [lst[i], lst[j] = lst[j], lst[i]]: both reads, then the two stores. *)
Definition shuffle_in_place (lst : loc) : M unit :=
  l ← read lst;
  let n := len l in
  for_each (range_down (n - 1) 0) (λ i,
    j ← rand_int 0 i;
    l ← read lst;
    a ← lift (getitem l j);
    b ← lift (getitem l i);
    setitem lst i a;;
    setitem lst j b).

(** ** 2. Card / deck logic *)

Definition make_deck : M loc :=
  deck ← new_list [];
  for_each (range 2 15) (λ rank,
    for_each (range 0 4) (λ suit, append deck (rank, suit)));;
  mret deck.

(** [d[k]] on a dict with string values: a missing key raises. *)
Definition subscript (d : gmap Z string) (k : Z) : result string :=
  match d !! k with
  | Some v => Ok v
  | None => Raise KeyError
  end.

(** [str(n)] on an integer is the decimal numeral of [n], with a leading
    minus sign when it is negative: stdpp's [pretty] on [Z].  CPython 3.11
    and later refuse the conversion, with [ValueError], when the numeral
    has more digits than [sys.get_int_max_str_digits()], 4300 unless the
    interpreter was told otherwise. *)
Definition int_max_str_digits : Z := 4300.

Definition py_str (n : Z) : result string :=
  if 10 ^ int_max_str_digits <=? Z.abs n then Raise ValueError
  else Ok (pretty n).

Definition card_str (c : card) : result string :=
  let '(rank, suit) := c in
  let rank_map : gmap Z string :=
    {[ 11 := "J"; 12 := "Q"; 13 := "K"; 14 := "A" ]}%string in
  r ← (if rank <=? 9 then py_str rank
       else if rank =? 10 then Ok "T"%string
       else subscript rank_map rank);
  let suit_map : gmap Z string :=
    {[ 0 := "H"; 1 := "D"; 2 := "C"; 3 := "S" ]}%string in
  s ← subscript suit_map suit;
  Ok (r +:+ s).

(** [cards_to_remove] is any iterable; only the cards it yields matter. *)
Definition remove_cards_from_deck (deck : loc) (cards_to_remove : list card) : M loc :=
  new_deck ← new_list [];
  let set_remove : gset card := list_to_set cards_to_remove in
  d ← read deck;
  for_each d (λ c,
    if decide (c ∉ set_remove) then append new_deck c else mret ());;
  mret new_deck.

(** ** 3. Poker hand evaluation *)

(** [rank_counts]: a dict keeps its keys in insertion order. *)
Definition dict : Type := list (Z * Z).

Definition dict_mem (d : dict) (k : Z) : bool := py_in k d.*1.

Fixpoint dict_get (d : dict) (k : Z) : result Z :=
  match d with
  | [] => Raise KeyError
  | (k', v) :: d' => if k' =? k then Ok v else dict_get d' k
  end.

Fixpoint dict_set (d : dict) (k v : Z) : dict :=
  match d with
  | [] => [(k, v)]
  | (k', v') :: d' => if k' =? k then (k', v) :: d' else (k', v') :: dict_set d' k v
  end.

(** One iteration of the counting loop: the key is created at 0 when
    absent, then incremented. *)
Definition count_rank (r : Z) (rank_counts : dict) : result dict :=
  let rank_counts := if dict_mem rank_counts r then rank_counts
                     else dict_set rank_counts r 0 in
  v ← dict_get rank_counts r;
  Ok (dict_set rank_counts r (v + 1)).

Definition count_ranks (ranks : list Z) : result dict :=
  fold_result count_rank ranks [].

Definition distinct (ranks : list Z) : list Z :=
  fold_left (λ acc r, if py_in r acc then acc else acc ++ [r]) ranks [].

(** The window loop with its [break]. *)
Fixpoint find_window (d : list Z) (starts : list Z) : result (bool * Z) :=
  match starts with
  | [] => Ok (false, 0)
  | start_index :: rest =>
      let seq := slice d start_index (start_index + 5) in
      hi ← getitem seq 0;
      lo ← getitem seq 4;
      if hi - lo =? 4 then Ok (true, hi) else find_window d rest
  end.

Definition detect_straight (distinct_ranks_desc : list Z) : result (bool * Z) :=
  if 5 <=? len distinct_ranks_desc then
    '(is_straight, top_straight_rank) ←
      find_window distinct_ranks_desc (range 0 (len distinct_ranks_desc - 4));
    if negb is_straight then
      if py_in 14 distinct_ranks_desc && py_in 5 distinct_ranks_desc &&
         py_in 4 distinct_ranks_desc && py_in 3 distinct_ranks_desc &&
         py_in 2 distinct_ranks_desc
      then Ok (true, 5)
      else Ok (is_straight, top_straight_rank)
    else Ok (is_straight, top_straight_rank)
  else Ok (false, 0).

Definition pair_ltb (a b : Z * Z) : bool :=
  (a.1 <? b.1) || ((a.1 =? b.1) && (a.2 <? b.2)).

(** The kicker loops of the trips and one-pair branches. *)
Definition gather_kickers (count_rank_pairs : list (Z * Z)) : result (list Z) :=
  fold_result (λ i kickers,
    '(cnt, rnk) ← getitem count_rank_pairs i;
    Ok (kickers ++ replicate (Z.to_nat cnt) rnk))
    (range 1 (len count_rank_pairs)) [].

(** [len(counts_only) > 1 and counts_only[1] == 2], evaluated left to right. *)
Definition second_count_is_2 (counts_only : list Z) : result bool :=
  if 1 <? len counts_only then c1 ← getitem counts_only 1; Ok (c1 =? 2)
  else Ok false.

(** [ranks[0], ranks[1], ranks[2], ranks[3], ranks[4]]. *)
Definition first_five (ranks : list Z) : result (list Z) :=
  r0 ← getitem ranks 0;
  r1 ← getitem ranks 1;
  r2 ← getitem ranks 2;
  r3 ← getitem ranks 3;
  r4 ← getitem ranks 4;
  Ok [r0; r1; r2; r3; r4].

(** Step 5 of [rank_5cards]: everything from the straight-flush test on. *)
Definition classify_hand (ranks : list Z) (rank_counts : dict)
    (is_flush is_straight : bool) (top_straight_rank : Z) : result tuple :=
  if is_flush && is_straight then Ok [9; top_straight_rank] else
  let count_rank_pairs :=
    sorted_rev pair_ltb ((λ '(r, cnt), (cnt, r)) <$> rank_counts) in
  let counts_only := count_rank_pairs.*1 in
  c0 ← getitem counts_only 0;
  if c0 =? 4 then
    '(_, four_rank) ← getitem count_rank_pairs 0;
    '(_, kicker) ← getitem count_rank_pairs 1;
    Ok [8; four_rank; kicker]
  else if c0 =? 3 then
    second_is_pair ← second_count_is_2 counts_only;
    if (second_is_pair : bool) then
      '(_, trip_rank) ← getitem count_rank_pairs 0;
      '(_, pair_rank) ← getitem count_rank_pairs 1;
      Ok [7; trip_rank; pair_rank]
    else
      '(_, trip_rank) ← getitem count_rank_pairs 0;
      kickers ← gather_kickers count_rank_pairs;
      Ok ([4; trip_rank] ++ sorted_rev Z.ltb kickers)
  else if c0 =? 2 then
    second_is_pair ← second_count_is_2 counts_only;
    if (second_is_pair : bool) then
      '(_, pair1_rank) ← getitem count_rank_pairs 0;
      '(_, pair2_rank) ← getitem count_rank_pairs 1;
      '(_, kicker) ← getitem count_rank_pairs 2;
      let '(pair1_rank, pair2_rank) :=
        if pair1_rank <? pair2_rank then (pair2_rank, pair1_rank)
        else (pair1_rank, pair2_rank) in
      Ok [3; pair1_rank; pair2_rank; kicker]
    else
      '(_, pair_rank) ← getitem count_rank_pairs 0;
      kickers ← gather_kickers count_rank_pairs;
      let kickers := sorted_rev Z.ltb kickers in
      k0 ← getitem kickers 0;
      k1 ← getitem kickers 1;
      k2 ← getitem kickers 2;
      Ok [2; pair_rank; k0; k1; k2]
  else if is_flush then
    r ← first_five ranks; Ok (6 :: r)
  else if is_straight then Ok [5; top_straight_rank]
  else
    r ← first_five ranks; Ok (1 :: r).

(** The sort key [lambda c: c[0]]. *)
Definition rank_ltb (c1 c2 : card) : bool := c1.1 <? c2.1.

Definition rank_5cards (cards5 : list card) : result tuple :=
  let sorted_cards := sorted_rev rank_ltb cards5 in
  let ranks := sorted_cards.*1 in
  let suits := sorted_cards.*2 in
  rank_counts ← count_ranks ranks;
  s0 ← getitem suits 0;
  let is_flush := list_count s0 suits =? 5 in
  let distinct_ranks_desc := distinct ranks in
  '(is_straight, top_straight_rank) ← detect_straight distinct_ranks_desc;
  classify_hand ranks rank_counts is_flush is_straight top_straight_rank.

(** The five nested index loops [i < j < k < l < m]; [best] is the only
    loop-carried local. *)
Definition rank_7cards (cards7 : list card) : result tuple :=
  let n := len cards7 in
  fold_result (λ i best,
    fold_result (λ j best,
      fold_result (λ k best,
        fold_result (λ l best,
          fold_result (λ m best,
            ci ← getitem cards7 i;
            cj ← getitem cards7 j;
            ck ← getitem cards7 k;
            cl ← getitem cards7 l;
            cm ← getitem cards7 m;
            let combo5 := [ci; cj; ck; cl; cm] in
            r5 ← rank_5cards combo5;
            Ok (if tuple_gtb r5 best then r5 else best))
          (range (l + 1) n) best)
        (range (k + 1) (n - 1)) best)
      (range (j + 1) (n - 2)) best)
    (range (i + 1) (n - 3)) best)
  (range 0 (n - 4)) [0].

(** ** 4. Monte Carlo win probability *)

(** Lines 328-338: [used_cards], then [base_deck].  A [for] loop walks the
    list it was given at loop entry: the bodies below mutate only lists
    allocated in this call. *)
Definition reduced_deck (player_cards known_community deck : loc) : M loc :=
  used_cards ← new_list [];
  pc ← read player_cards;
  for_each pc (λ c, append used_cards c);;
  kc ← read known_community;
  for_each kc (λ c, append used_cards c);;
  base_deck ← new_list [];
  dk ← read deck;
  for_each dk (λ c,
    uc ← read used_cards;
    if negb (py_in c uc) then append base_deck c else mret ());;
  mret base_deck.

(** The opponents' loop: [hole = sim_deck[:2]; sim_deck = sim_deck[2:]]. *)
Definition deal_holes (num_opponents : Z) (sim_deck : list card)
    : list (list card) * list card :=
  fold_left (λ '(opp_holes, sim_deck) _opp,
    let hole := slice_to sim_deck 2 in
    let sim_deck := slice_from sim_deck 2 in
    (opp_holes ++ [hole], sim_deck))
    (range 0 num_opponents) ([], sim_deck).

(** Lines 347-361: the private copy, the shuffle, the board, the holes. *)
Definition deal_trial (known_community base_deck : loc) (num_opponents : Z)
    : M (list card * list (list card)) :=
  bd ← read base_deck;
  sim_deck ← new_list bd;
  shuffle_in_place sim_deck;;
  kc ← read known_community;
  let community_needed := 5 - len kc in
  sd ← read sim_deck;
  let community_rest := slice_to sd community_needed in
  let sim_deck := slice_from sd community_needed in
  kc ← read known_community;
  let full_community := kc ++ community_rest in
  let '(opp_holes, sim_deck) := deal_holes num_opponents sim_deck in
  mret (full_community, opp_holes).

(** The body of [for oh in opp_holes]. *)
Definition compare_opponent (full_community : list card) (player_rank : tuple)
    (oh : list card) (counts : Z * Z) : result (Z * Z) :=
  let '(best_count, same_count) := counts in
  let opp_7 := oh ++ full_community in
  opp_rank ← rank_7cards opp_7;
  if tuple_gtb opp_rank player_rank then Ok (best_count + 1, same_count)
  else if tuple_eqb opp_rank player_rank then Ok (best_count, same_count + 1)
  else Ok (best_count, same_count).

(** Lines 364-376: the hero's rank and the two counters. *)
Definition showdown (player_cards : loc) (full_community : list card)
    (opp_holes : list (list card)) : M (Z * Z) :=
  pc ← read player_cards;
  let player_7 := pc ++ full_community in
  player_rank ← lift (rank_7cards player_7);
  lift (fold_result (compare_opponent full_community player_rank) opp_holes (0, 0)).

Definition trial (player_cards known_community : loc) (num_opponents : Z)
    (base_deck : loc) (counters : Z * Z * Z) : M (Z * Z * Z) :=
  let '(wins, ties, total) := counters in
  '(full_community, opp_holes) ← deal_trial known_community base_deck num_opponents;
  '(best_count, same_count) ← showdown player_cards full_community opp_holes;
  let '(wins, ties) :=
    if best_count =? 0 then
      if same_count =? 0 then (wins + 1, ties) else (wins, ties + 1)
    else (wins, ties) in
  mret (wins, ties, total + 1).

(** Lines 340-386: the three counters and the loop over the trials. *)
Definition run_trials (player_cards known_community : loc)
    (num_opponents : Z) (base_deck : loc) (sims : Z) : M (Z * Z * Z) :=
  fold_M (λ _ counters,
    trial player_cards known_community num_opponents base_deck counters)
    (range 0 sims) (0, 0, 0).

(** The float quotient [float(wins + ties) / float(total)] is represented
    by the rational it rounds (the operands are trial counts, far below
    the float range); a zero [total] raises. *)
Definition simulate_win_probability (player_cards known_community : loc)
    (num_opponents : Z) (deck : loc) (sims : Z) : M Q :=
  base_deck ← reduced_deck player_cards known_community deck;
  '(wins, ties, total) ←
    run_trials player_cards known_community num_opponents base_deck sims;
  if total =? 0 then lift (Raise ZeroDivisionError)
  else mret (Qmake (wins + ties) (Z.to_pos total)).

(** ** Specification-side definitions *)

(** "All 5 suits identical". *)
Definition all_same_suit (cards : list card) : Prop :=
  ∀ c c', c ∈ cards → c' ∈ cards → c.2 = c'.2.

(** The [k]-element sub-selections of a list, positions ascending. *)
Fixpoint combinations {A} (k : nat) (l : list A) : list (list A) :=
  match k, l with
  | O, _ => [[]]
  | S _, [] => []
  | S k', x :: l' => ((x ::.) <$> combinations k' l') ++ combinations k l'
  end.

(** The running maximum over a list of 5-card hands. *)
Definition best_of (combos : list (list card)) (best : tuple) : result tuple :=
  fold_result (λ combo5 best,
    r5 ← rank_5cards combo5;
    Ok (if tuple_gtb r5 best then r5 else best)) combos best.

(** A run of the generator: a sequence of range queries issued one after
    the other, stopping at the first exception. *)
Fixpoint run_queries (qs : list (Z * Z)) : M (list Z) :=
  match qs with
  | [] => mret []
  | (low, high) :: qs' =>
      r ← rand_int low high;
      rs ← run_queries qs';
      mret (r :: rs)
  end.

(** The queries [shuffle_in_place] issues on a list of length [n]. *)
Definition shuffle_queries (n : Z) : list (Z * Z) :=
  (λ i, (0, i)) <$> range_down (n - 1) 0.

(** The 52 cards in the order [make_deck] appends them. *)
Definition full_deck : list card :=
  rank ← range 2 15; (λ suit, (rank, suit)) <$> range 0 4.

Inductive outcome : Type := Win | Tie | Loss.

#[global] Instance outcome_eq_dec : EqDecision outcome.
Proof. solve_decision. Defined.

(** The classification of a trial in the words of the specification. *)
Definition classify_trial_spec (hero : tuple) (opps : list tuple) : outcome :=
  if existsb (λ o, tuple_gtb o hero) opps then Loss
  else if existsb (λ o, tuple_eqb o hero) opps then Tie
  else Win.

Fixpoint map_result {A B} (f : A → result B) (l : list A) : result (list B) :=
  match l with
  | [] => Ok []
  | x :: l' => y ← f x; ys ← map_result f l'; Ok (y :: ys)
  end.

(** One trial as the specification words it: the deal is the code's, the
    verdict is [classify_trial_spec] on the ranks of the seven-card
    hands. *)
Definition trial_spec (player_cards known_community : loc) (num_opponents : Z)
    (base_deck : loc) : M outcome :=
  '(full_community, opp_holes) ← deal_trial known_community base_deck num_opponents;
  pc ← read player_cards;
  hero ← lift (rank_7cards (pc ++ full_community));
  opps ← lift (map_result (λ oh, rank_7cards (oh ++ full_community)) opp_holes);
  mret (classify_trial_spec hero opps).

Fixpoint trials_spec (n : nat) (player_cards known_community : loc)
    (num_opponents : Z) (base_deck : loc) : M (list outcome) :=
  match n with
  | O => mret []
  | S n' =>
      o ← trial_spec player_cards known_community num_opponents base_deck;
      os ← trials_spec n' player_cards known_community num_opponents base_deck;
      mret (o :: os)
  end.

Definition count_outcome (o : outcome) (os : list outcome) : Z :=
  len (filter (λ x, x = o) os).

(** Seven cards holding a royal flush, used as a running example. *)
Definition royal7 : list card :=
  [(14, 0); (13, 0); (12, 0); (11, 0); (10, 0); (2, 2); (3, 2)].

(** ** Definitions used in the proofs *)

(** The index tuples visited by the loops of [rank_7cards], in order, and
    the innermost loop body at one of them. *)
Definition idx5 (n : Z) : list (Z * Z * Z * Z * Z) :=
  i ← range 0 (n - 4);
  j ← range (i + 1) (n - 3);
  k ← range (j + 1) (n - 2);
  l ← range (k + 1) (n - 1);
  m ← range (l + 1) n;
  [(i, j, k, l, m)].

Definition visit (cards7 : list card) (q : Z * Z * Z * Z * Z) (best : tuple)
    : result tuple :=
  let '(i, j, k, l, m) := q in
  ci ← getitem cards7 i;
  cj ← getitem cards7 j;
  ck ← getitem cards7 k;
  cl ← getitem cards7 l;
  cm ← getitem cards7 m;
  let combo5 := [ci; cj; ck; cl; cm] in
  r5 ← rank_5cards combo5;
  Ok (if tuple_gtb r5 best then r5 else best).

(** Descending order, the total of the counts of a dict and of a list of
    (count, rank) pairs, and what the kicker loops append. *)
Definition desc (x y : Z) : Prop := y ≤ x.

Definition sum_counts (d : dict) : Z := foldr (λ kv acc, kv.2 + acc) 0 d.

Definition sum_fst (t : list (Z * Z)) : Z := foldr (λ p acc, p.1 + acc) 0 t.

Definition kick_list (t : list (Z * Z)) : list Z :=
  t ≫= (λ '(cnt, rnk), replicate (Z.to_nat cnt) rnk).

(** The recurrence of the generator, and the shuffle and a run of queries
    as functions of the list and the seed. *)
Definition lcg (s : Z) : Z := (1103515245 * s + 12345) mod 2147483648.

Definition swap_at (l : list card) (i j : Z) : list card :=
  match l !! Z.to_nat j, l !! Z.to_nat i with
  | Some a, Some b => <[Z.to_nat j := b]> (<[Z.to_nat i := a]> l)
  | _, _ => l
  end.

Definition shuffle_steps (idxs : list Z) (l : list card) (s : Z) : list card * Z :=
  fold_left (λ '(l, s) i, (swap_at l i (lcg s mod (i + 1)), lcg s)) idxs (l, s).

Definition shuffled (l : list card) (s : Z) : list card * Z :=
  shuffle_steps (range_down (len l - 1) 0) l s.

Fixpoint draws (qs : list (Z * Z)) (s : Z) : result (list Z) * Z :=
  match qs with
  | [] => (Ok [], s)
  | (low, high) :: qs' =>
      match py_mod (lcg s) (high - low + 1) with
      | Raise e => (Raise e, lcg s)
      | Ok r =>
          match draws qs' (lcg s) with
          | (Ok rs, s') => (Ok ((low + r) :: rs), s')
          | (Raise e, s') => (Raise e, s')
          end
      end
  end.

(** The counters after a trial with verdict [o], and the board and the
    holes dealt from a shuffled deck. *)
Definition bump (o : outcome) (counters : Z * Z * Z) : Z * Z * Z :=
  let '(wins, ties, total) := counters in
  match o with
  | Win => (wins + 1, ties, total + 1)
  | Tie => (wins, ties + 1, total + 1)
  | Loss => (wins, ties, total + 1)
  end.

Definition deal_of (kc sd : list card) (num_opponents : Z)
    : list card * list (list card) :=
  let community_needed := 5 - len kc in
  (kc ++ slice_to sd community_needed,
   (deal_holes num_opponents (slice_from sd community_needed)).1).

(** ** Definitions used for the further properties *)

(** Steps 2 to 5 of [rank_5cards] on the sorted ranks, the flush test
    being given. *)
Definition eval_ranks (ranks : list Z) (is_flush : bool) : result tuple :=
  rank_counts ← count_ranks ranks;
  '(is_straight, top_straight_rank) ← detect_straight (distinct ranks);
  classify_hand ranks rank_counts is_flush is_straight top_straight_rank.

(** The flush test on the cards as given. *)
Definition flush_bit (cards : list card) : bool :=
  match cards.*2 with
  | [] => false
  | s0 :: _ => list_count s0 cards.*2 =? 5
  end.

(** A list of ranks given by its runs: [(r, n)] stands for [n] copies of
    [r]. *)
Definition expand_groups (gs : list (Z * nat)) : list Z :=
  gs ≫= (λ '(r, n), replicate n r).

(** The verdict of a trial on the hero's cards and a deal. *)
Definition trial_verdict (pc : list card)
    (deal : list card * list (list card)) : result outcome :=
  hero ← rank_7cards (pc ++ deal.1);
  opps ← map_result (λ oh, rank_7cards (oh ++ deal.1)) deal.2;
  Ok (classify_trial_spec hero opps).

(** The first [k] pairs of a list. *)
Fixpoint chunks (k : nat) (sd : list card) : list (list card) :=
  match k with
  | O => []
  | S k' => take 2 sd :: chunks k' (drop 2 sd)
  end.

(** The two characters of [card_str], as functions of the rank and of the
    suit. *)
Definition rank_glyph (rank : Z) : result string :=
  if rank <=? 9 then py_str rank
  else if rank =? 10 then Ok "T"%string
  else if rank =? 11 then Ok "J"%string
  else if rank =? 12 then Ok "Q"%string
  else if rank =? 13 then Ok "K"%string
  else if rank =? 14 then Ok "A"%string
  else Raise KeyError.

Definition suit_glyph (suit : Z) : result string :=
  if suit =? 0 then Ok "H"%string
  else if suit =? 1 then Ok "D"%string
  else if suit =? 2 then Ok "C"%string
  else if suit =? 3 then Ok "S"%string
  else Raise KeyError.

(** * Facts about the Python primitives *)

Section primitives.
Context {A : Type}.
Implicit Types l : list A.

Lemma len_nonneg l : 0 ≤ len l.
Proof. unfold len. lia. Qed.

Lemma getitem_nat l (i : nat) x :
  l !! i = Some x → getitem l (Z.of_nat i) = Ok x.
Proof.
  intros Hi. pose proof (lookup_lt_Some _ _ _ Hi) as Hlt.
  unfold getitem, norm_index, len.
  replace (0 <=? Z.of_nat i) with true by (symmetry; apply Z.leb_le; lia).
  replace (Z.of_nat i <? Z.of_nat (length l)) with true
    by (symmetry; apply Z.ltb_lt; lia).
  simpl. rewrite Nat2Z.id, Hi. done.
Qed.

Lemma getitem_in_range l i :
  0 ≤ i < len l → ∃ x, getitem l i = Ok x ∧ l !! Z.to_nat i = Some x.
Proof.
  intros Hi. unfold len in Hi.
  destruct (lookup_lt_is_Some_2 l (Z.to_nat i)) as [x Hx]; [lia|].
  exists x. split; [|done].
  rewrite <- (Z2Nat.id i) by lia. by apply getitem_nat.
Qed.

Lemma len_app l1 l2 : len (l1 ++ l2) = len l1 + len l2.
Proof. unfold len. rewrite length_app. lia. Qed.

Lemma slice_length_exact l i :
  0 ≤ i → i + 5 ≤ len l → length (slice l i (i + 5)) = 5%nat.
Proof.
  unfold slice, clamp_index, len. intros H0 H5.
  replace (i <? 0) with false by (symmetry; apply Z.ltb_ge; lia).
  replace (i + 5 <? 0) with false by (symmetry; apply Z.ltb_ge; lia).
  rewrite length_take, length_drop. lia.
Qed.

End primitives.

Section sorting_facts.
Context {A : Type} (lt : A → A → bool).

Lemma insert_rev_perm x (l : list A) : insert_rev lt x l ≡ₚ x :: l.
Proof.
  induction l as [|y l IH]; simpl; [done|].
  destruct (lt x y); [|done].
  rewrite IH. apply Permutation_swap.
Qed.

Lemma sorted_rev_perm (l : list A) : sorted_rev lt l ≡ₚ l.
Proof.
  induction l as [|x l IH]; simpl; [done|].
  rewrite insert_rev_perm. by f_equiv.
Qed.

Lemma sorted_rev_length (l : list A) : length (sorted_rev lt l) = length l.
Proof. by rewrite sorted_rev_perm. Qed.
End sorting_facts.

(** Sorting by a key and projecting the key is sorting the keys. *)
Lemma insert_rev_fmap {A} (key : A → Z) x (l : list A) :
  key <$> insert_rev (λ a b, key a <? key b) x l
  = insert_rev Z.ltb (key x) (key <$> l).
Proof.
  induction l as [|y l IH]; csimpl; [done|].
  destruct (key x <? key y); csimpl; [by rewrite IH|done].
Qed.

Lemma sorted_rev_fmap {A} (key : A → Z) (l : list A) :
  key <$> sorted_rev (λ a b, key a <? key b) l = sorted_rev Z.ltb (key <$> l).
Proof.
  induction l as [|x l IH]; csimpl; [done|].
  by rewrite insert_rev_fmap, IH.
Qed.

#[local] Instance desc_trans : Transitive desc.
Proof. unfold desc. intros x y z. lia. Qed.
#[local] Instance desc_antisymm : AntiSymm (=) desc.
Proof. unfold desc. intros x y. lia. Qed.

Lemma insert_rev_sorted x (l : list Z) :
  Sorted desc l → Sorted desc (insert_rev Z.ltb x l).
Proof.
  induction 1 as [|y l Hs IH Hhd]; simpl.
  - repeat constructor.
  - destruct (Z.ltb_spec x y).
    + constructor; [done|].
      destruct Hhd as [|z l Hz]; simpl.
      * constructor. unfold desc. lia.
      * destruct (Z.ltb_spec x z); constructor; unfold desc in *; lia.
    + constructor; [by constructor|]. constructor. unfold desc. lia.
Qed.

Lemma sorted_rev_sorted (l : list Z) : Sorted desc (sorted_rev Z.ltb l).
Proof.
  induction l as [|x l IH]; simpl; [constructor|by apply insert_rev_sorted].
Qed.

(** The sorted ranks depend on the multiset of ranks only. *)
Lemma sorted_rev_Z_perm (l1 l2 : list Z) :
  l1 ≡ₚ l2 → sorted_rev Z.ltb l1 = sorted_rev Z.ltb l2.
Proof.
  intros Hp. apply (Sorted_unique desc); try apply sorted_rev_sorted.
  by rewrite !sorted_rev_perm.
Qed.

(** * The order on rank tuples *)

Lemma tuple_ltb_irrefl a : tuple_ltb a a = false.
Proof. induction a as [|x a IH]; simpl; [done|]. by rewrite Z.eqb_refl. Qed.

Lemma tuple_leb_ltb a b : tuple_leb a b = negb (tuple_ltb b a).
Proof.
  revert b. induction a as [|x a IH]; intros [|y b]; simpl; try done.
  rewrite (Z.eqb_sym y x). destruct (Z.eqb_spec x y); [apply IH|].
  destruct (Z.ltb_spec x y), (Z.ltb_spec y x); simpl; try done; lia.
Qed.

Lemma tuple_leb_refl a : tuple_leb a a = true.
Proof. by rewrite tuple_leb_ltb, tuple_ltb_irrefl. Qed.

Lemma tuple_ltb_leb a b : tuple_ltb a b = true → tuple_leb a b = true.
Proof.
  revert b. induction a as [|x a IH]; intros [|y b]; simpl; try done.
  destruct (x =? y); [apply IH|done].
Qed.

Lemma tuple_leb_trans a b c :
  tuple_leb a b = true → tuple_leb b c = true → tuple_leb a c = true.
Proof.
  revert b c. induction a as [|x a IH]; intros [|y b] [|z c]; simpl; try done.
  destruct (Z.eqb_spec x y), (Z.eqb_spec y z), (Z.eqb_spec x z);
    subst; try lia; eauto; rewrite ?Z.ltb_lt; try lia; try done.
Qed.

Lemma tuple_leb_antisym a b :
  tuple_leb a b = true → tuple_leb b a = true → a = b.
Proof.
  revert b. induction a as [|x a IH]; intros [|y b]; simpl; try done.
  rewrite (Z.eqb_sym y x). destruct (Z.eqb_spec x y).
  - intros. subst. f_equal. auto.
  - rewrite !Z.ltb_lt. lia.
Qed.

Lemma tuple_leb_total a b : tuple_leb a b = true ∨ tuple_leb b a = true.
Proof.
  rewrite (tuple_leb_ltb a b). destruct (tuple_ltb b a) eqn:E; [|by left].
  right. by apply tuple_ltb_leb.
Qed.

(** [<=] is [<] or [==]. *)
Lemma tuple_leb_spec a b :
  tuple_leb a b = true ↔ tuple_ltb a b = true ∨ a = b.
Proof.
  split.
  - intros Hle. destruct (tuple_ltb a b) eqn:Hlt; [by left|right].
    apply tuple_leb_antisym; [done|]. by rewrite tuple_leb_ltb, Hlt.
  - intros [Hlt| ->]; [by apply tuple_ltb_leb|apply tuple_leb_refl].
Qed.

Lemma tuple_eqb_eq a b : tuple_eqb a b = true ↔ a = b.
Proof. unfold tuple_eqb. by rewrite bool_decide_eq_true. Qed.

(** * Loops in the [result] monad *)

Lemma result_bind_ret {A} (r : result A) : (x ← r; Ok x) = r.
Proof. by destruct r. Qed.

Lemma fold_result_app {A S} (body : A → S → result S) l1 l2 s :
  fold_result body (l1 ++ l2) s = s' ← fold_result body l1 s; fold_result body l2 s'.
Proof.
  revert s. induction l1 as [|x l1 IH]; intros s; simpl; [done|].
  destruct (body x s); simpl; [apply IH|done].
Qed.

Lemma fold_result_ext {A S} (f g : A → S → result S) l s :
  (∀ x s, x ∈ l → f x s = g x s) → fold_result f l s = fold_result g l s.
Proof.
  revert s. induction l as [|x l IH]; intros s Hfg; simpl; [done|].
  rewrite Hfg by left. destruct (g x s); simpl; [|done].
  apply IH. intros. apply Hfg. by right.
Qed.

Lemma fold_result_bind {A B S} (body : B → S → result S) (f : A → list B) l s :
  fold_result body (x ← l; f x) s
  = fold_result (λ x s, fold_result body (f x) s) l s.
Proof.
  revert s. induction l as [|x l IH]; intros s; csimpl; [done|].
  rewrite fold_result_app. destruct (fold_result body (f x) s); simpl; [apply IH|done].
Qed.

(** An invariant that every iteration re-establishes survives the loop. *)
Lemma fold_result_inv {A S} (P : S → Prop) (body : A → S → result S) l s :
  P s →
  (∀ x s, x ∈ l → P s → ∃ s', body x s = Ok s' ∧ P s') →
  ∃ s', fold_result body l s = Ok s' ∧ P s'.
Proof.
  revert s. induction l as [|x l IH]; intros s Hs Hbody; simpl; [eauto|].
  destruct (Hbody x s) as (s' & -> & Hs'); [by left|done|]. simpl.
  apply IH; [done|]. intros. apply Hbody; [by right|done].
Qed.

(** * The rank-count dict *)

Lemma dict_mem_nil k : dict_mem [] k = false.
Proof. apply bool_decide_eq_false. apply not_elem_of_nil. Qed.

Lemma dict_mem_cons k' v' d k :
  dict_mem ((k', v') :: d) k = (k' =? k) || dict_mem d k.
Proof.
  unfold dict_mem, py_in. csimpl.
  destruct (Z.eqb_spec k' k) as [->|Hne]; simpl.
  - apply bool_decide_eq_true. by left.
  - apply bool_decide_ext. rewrite elem_of_cons.
    split; [intros [?|?]; [congruence|done]|by right].
Qed.

Lemma count_rank_spec d r :
  ∃ d', count_rank r d = Ok d' ∧ sum_counts d' = sum_counts d + 1 ∧
        (Forall (λ kv, 1 ≤ kv.2) d → Forall (λ kv, 1 ≤ kv.2) d').
Proof.
  unfold count_rank.
  induction d as [|[k' v'] d IH]; cbv zeta.
  - rewrite dict_mem_nil. simpl. rewrite Z.eqb_refl. simpl.
    eexists. split_and!; [done|simpl; lia|].
    intros _. repeat constructor. simpl. lia.
  - rewrite dict_mem_cons. destruct (Z.eqb_spec k' r) as [->|Hne]; simpl.
    + rewrite Z.eqb_refl. simpl.
      eexists. split_and!; [done|simpl; lia|].
      intros [H1 H2]%Forall_cons. constructor; [simpl in *; lia|done].
    + destruct IH as (d' & Hget & Hsum & Hpos).
      assert ((k' =? r) = false) as Hf by (by apply Z.eqb_neq).
      cbv zeta in Hget.
      destruct (dict_mem d r); simpl; rewrite ?Hf; simpl in *;
        (destruct (dict_get _ r) as [v|]; [|done]); simpl in *; rewrite ?Hf;
        injection Hget as <-;
        (eexists; split_and!; [done|simpl; lia|]);
        intros [H1 H2]%Forall_cons; constructor; auto.
Qed.

Lemma count_ranks_from ranks d0 :
  Forall (λ kv, 1 ≤ kv.2) d0 →
  ∃ d, fold_result count_rank ranks d0 = Ok d ∧
       sum_counts d = sum_counts d0 + len ranks ∧ Forall (λ kv, 1 ≤ kv.2) d.
Proof.
  revert d0. induction ranks as [|r ranks IH]; intros d0 Hd0; simpl.
  - exists d0. split_and!; try done. unfold len. simpl. lia.
  - destruct (count_rank_spec d0 r) as (d' & -> & Hsum & Hpos). simpl.
    destruct (IH _ (Hpos Hd0)) as (d & -> & Hs & Hp).
    exists d. split_and!; try done. unfold len in *. simpl length. lia.
Qed.

Lemma count_ranks_spec ranks :
  ∃ d, count_ranks ranks = Ok d ∧ sum_counts d = len ranks ∧
       Forall (λ kv, 1 ≤ kv.2) d.
Proof.
  destruct (count_ranks_from ranks []) as (d & ? & ? & ?); [constructor|].
  exists d. split_and!; try done; simpl in *; lia.
Qed.

(** * Subscripts at fixed positions *)

Section getitem_cons.
Context {A : Type}.
Implicit Types l : list A.

Lemma getitem_0 x l : getitem (x :: l) 0 = Ok x.
Proof. by apply (getitem_nat _ 0%nat). Qed.
Lemma getitem_1 x0 x l : getitem (x0 :: x :: l) 1 = Ok x.
Proof. by apply (getitem_nat _ 1%nat). Qed.
Lemma getitem_2 x0 x1 x l : getitem (x0 :: x1 :: x :: l) 2 = Ok x.
Proof. by apply (getitem_nat _ 2%nat). Qed.
Lemma getitem_3 x0 x1 x2 x l : getitem (x0 :: x1 :: x2 :: x :: l) 3 = Ok x.
Proof. by apply (getitem_nat _ 3%nat). Qed.
Lemma getitem_4 x0 x1 x2 x3 x l :
  getitem (x0 :: x1 :: x2 :: x3 :: x :: l) 4 = Ok x.
Proof. by apply (getitem_nat _ 4%nat). Qed.

Lemma getitem_nil i : getitem (@nil A) i = Raise IndexError.
Proof.
  unfold getitem, norm_index.
  repeat case_match; simpl; by rewrite ?lookup_nil.
Qed.

(** A loop over [range(a, len(l))] that subscripts [l] walks [l[a:]]. *)
Lemma fold_result_range_getitem {St} (f : A → St → result St) l (a : nat) s :
  fold_result (λ i s, x ← getitem l i; f x s) (range (Z.of_nat a) (len l)) s
  = fold_result f (drop a l) s.
Proof.
  remember (drop a l) as t eqn:Ht. revert a s Ht.
  induction t as [|x t IH]; intros a s Ht.
  - unfold range. rewrite seqZ_nil; [done|].
    symmetry in Ht. apply drop_nil_inv in Ht. unfold len. lia.
  - assert (l !! a = Some x) as Hx.
    { rewrite <- (Nat.add_0_r a), <- lookup_drop, <- Ht. done. }
    pose proof (lookup_lt_Some _ _ _ Hx) as Hlt.
    unfold range. rewrite seqZ_cons by (unfold len; lia). simpl.
    rewrite (getitem_nat _ _ _ Hx). simpl. destruct (f x s) as [s'|]; simpl; [|done].
    specialize (IH (S a) s').
    unfold range in IH.
    replace (Z.succ (Z.of_nat a)) with (Z.of_nat (S a)) by lia.
    replace (Z.pred (len l - Z.of_nat a)) with (len l - Z.of_nat (S a)) by lia.
    apply IH. rewrite (drop_S _ _ _ Hx) in Ht. by injection Ht.
Qed.
End getitem_cons.

(** * The 5-card evaluator returns on every 5-card list *)

Lemma find_window_ok d starts :
  Forall (λ i, 0 ≤ i ∧ i + 5 ≤ len d) starts →
  ∃ b t, find_window d starts = Ok (b, t).
Proof.
  induction 1 as [|i starts [Hi0 Hi5] _ IH]; simpl; [eauto|].
  pose proof (slice_length_exact d i Hi0 Hi5) as Hlen.
  destruct (slice d i (i + 5)) as [|x0 [|x1 [|x2 [|x3 [|x4 [|]]]]]]; try done.
  rewrite getitem_0, getitem_4. simpl.
  destruct (x0 - x4 =? 4); eauto.
Qed.

Lemma detect_straight_ok d : ∃ b t, detect_straight d = Ok (b, t).
Proof.
  unfold detect_straight. destruct (Z.leb_spec 5 (len d)); [|eauto].
  destruct (find_window_ok d (range 0 (len d - 4))) as (b & t & ->).
  { apply Forall_forall. intros i Hi. apply elem_of_seqZ in Hi. lia. }
  simpl. destruct b; simpl; [eauto|]. case_match; eauto.
Qed.

Lemma gather_kickers_spec crp : gather_kickers crp = Ok (kick_list (drop 1 crp)).
Proof.
  unfold gather_kickers.
  pose proof (fold_result_range_getitem
    (λ '(cnt, rnk) kickers, Ok (kickers ++ replicate (Z.to_nat cnt) rnk))
    crp 1 []) as H.
  etrans; [etrans; [|exact H]|].
  { apply fold_result_ext. intros i s _. by destruct (getitem crp i) as [[??]|]. }
  generalize (drop 1 crp) as t. intros t.
  change (kick_list t) with ([] ++ kick_list t). generalize (@nil Z) as acc.
  induction t as [|[cnt rnk] t IH]; intros acc; simpl.
  - by rewrite app_nil_r.
  - rewrite IH. unfold kick_list. csimpl. by rewrite app_assoc.
Qed.

Lemma kick_list_length t :
  Forall (λ p, 1 ≤ p.1) t → len (kick_list t) = sum_fst t.
Proof.
  induction 1 as [|[cnt rnk] t Hc _ IH]; [done|].
  unfold kick_list in *. csimpl. rewrite len_app, IH.
  unfold len. rewrite length_replicate. simpl in *. lia.
Qed.

Lemma sum_fst_perm t t' : t ≡ₚ t' → sum_fst t = sum_fst t'.
Proof. induction 1; simpl; lia. Qed.

Lemma sum_fst_swap (d : dict) :
  sum_fst ((λ '(r, cnt), (cnt, r)) <$> d) = sum_counts d.
Proof. induction d as [|[r cnt] d IH]; csimpl; [done|]. simpl. lia. Qed.

Lemma sum_fst_nonneg t : Forall (λ p, 1 ≤ p.1) t → 0 ≤ sum_fst t.
Proof. induction 1; simpl; lia. Qed.

Lemma len_cons {A} (x : A) l : len (x :: l) = 1 + len l.
Proof. unfold len. simpl length. lia. Qed.

Lemma first_five_ok (ranks : list Z) :
  length ranks = 5%nat → ∃ r, first_five ranks = Ok r.
Proof.
  intros Hlen.
  destruct ranks as [|x0 [|x1 [|x2 [|x3 [|x4 [|]]]]]]; try done.
  unfold first_five.
  rewrite getitem_0, getitem_1, getitem_2, getitem_3, getitem_4. simpl. eauto.
Qed.

Ltac rsimpl := cbn [mbind result_bind mret result_ret fst snd].

Lemma second_count_is_2_cons c0 c1 (rest : list Z) :
  second_count_is_2 (c0 :: c1 :: rest) = Ok (c1 =? 2).
Proof.
  unfold second_count_is_2. rewrite !len_cons, getitem_1.
  replace (1 <? 1 + (1 + len rest)) with true; [done|].
  symmetry. apply Z.ltb_lt. pose proof (len_nonneg rest). lia.
Qed.

Lemma classify_hand_ok ranks (d : dict) is_flush is_straight top :
  length ranks = 5%nat → sum_counts d = 5 → Forall (λ kv, 1 ≤ kv.2) d →
  ∃ c t, classify_hand ranks d is_flush is_straight top = Ok (c :: t) ∧ 1 ≤ c ≤ 9.
Proof.
  intros Hlen Hsum Hpos. unfold classify_hand.
  destruct (is_flush && is_straight); [eexists _, _; split; [done|lia]|].
  cbv zeta.
  set (crp := sorted_rev pair_ltb _).
  assert (sum_fst crp = 5) as Hs.
  { unfold crp. rewrite (sum_fst_perm _ _ (sorted_rev_perm _ _)).
    by rewrite sum_fst_swap. }
  assert (Forall (λ p, 1 ≤ p.1) crp) as Hp.
  { unfold crp. rewrite sorted_rev_perm. apply Forall_fmap.
    eapply Forall_impl; [exact Hpos|]. by intros [??]. }
  clearbody crp.
  destruct (first_five_ok ranks Hlen) as [r5 Hr5].
  destruct crp as [|[c0 r0] rest]; [done|].
  apply Forall_cons in Hp as [Hc0 Hp]. simpl in Hc0, Hs.
  rewrite fmap_cons, !getitem_0. rsimpl.
  destruct (Z.eqb_spec c0 4) as [->|_].
  { destruct rest as [|[c1 r1] rest]; [simpl in Hs; lia|].
    rewrite getitem_1. rsimpl. eexists _, _; split; [done|lia]. }
  destruct (Z.eqb_spec c0 3) as [->|_].
  { rewrite gather_kickers_spec. rsimpl.
    change (drop 1 ((3, r0) :: rest)) with rest.
    generalize (sorted_rev Z.ltb (kick_list rest)). intros kickers.
    destruct rest as [|[c1 r1] rest].
    - eexists _, _; split; [done|lia].
    - rewrite fmap_cons, second_count_is_2_cons, getitem_1. rsimpl.
      destruct (c1 =? 2); eexists _, _; (split; [done|lia]). }
  destruct (Z.eqb_spec c0 2) as [->|_].
  { rewrite gather_kickers_spec. rsimpl.
    change (drop 1 ((2, r0) :: rest)) with rest.
    assert (length (sorted_rev Z.ltb (kick_list rest)) = 3%nat) as Hk3.
    { rewrite sorted_rev_length.
      pose proof (kick_list_length rest Hp) as Hk. unfold len in Hk. lia. }
    destruct (sorted_rev Z.ltb (kick_list rest)) as [|k0 [|k1 [|k2 [|]]]];
      try done.
    destruct rest as [|[c1 r1] rest]; [simpl in Hs; lia|].
    rewrite fmap_cons, second_count_is_2_cons, getitem_1. rsimpl.
    destruct (Z.eqb_spec c1 2) as [->|_].
    - apply Forall_cons in Hp as [_ Hp]. pose proof (sum_fst_nonneg _ Hp).
      destruct rest as [|[c2 r2] rest]; [simpl in Hs; lia|].
      rewrite getitem_2. rsimpl. destruct (r0 <? r1); eexists _, _; (split; [done|lia]).
    - rewrite getitem_0, getitem_1, getitem_2. rsimpl.
      eexists _, _; split; [done|lia]. }
  rewrite Hr5. rsimpl. destruct is_flush; [|destruct is_straight];
    eexists _, _; (split; [done|lia]).
Qed.

Lemma rank_5cards_ok cards5 :
  length cards5 = 5%nat → ∃ c t, rank_5cards cards5 = Ok (c :: t) ∧ 1 ≤ c ≤ 9.
Proof.
  intros Hlen. unfold rank_5cards. cbv zeta.
  pose proof (sorted_rev_length rank_ltb cards5) as Hs.
  rewrite Hlen in Hs.
  revert Hs. generalize (sorted_rev rank_ltb cards5).
  intros sorted_cards Hs.
  destruct (count_ranks_spec sorted_cards.*1) as (d & -> & Hsum & Hpos). simpl.
  destruct sorted_cards as [|[r0 s0] rest] eqn:E; [done|]. rewrite <- E in *.
  assert (getitem sorted_cards.*2 0 = Ok s0) as -> by (rewrite E; apply getitem_0).
  simpl.
  destruct (detect_straight_ok (distinct sorted_cards.*1)) as (b & t & ->). simpl.
  apply classify_hand_ok; [by rewrite length_fmap| |done].
  rewrite Hsum. unfold len. rewrite length_fmap.
  exact (f_equal Z.of_nat Hs).
Qed.

(** * The evaluator sees the multiset of cards only *)

Lemma sorted_ranks (cards : list card) :
  (sorted_rev rank_ltb cards).*1 = sorted_rev Z.ltb cards.*1.
Proof. exact (sorted_rev_fmap fst cards). Qed.

Lemma sorted_ranks_perm (c c' : list card) :
  c ≡ₚ c' → (sorted_rev rank_ltb c).*1 = (sorted_rev rank_ltb c').*1.
Proof.
  intros Hp. rewrite !sorted_ranks. apply sorted_rev_Z_perm. by rewrite Hp.
Qed.

Lemma list_count_perm x (s s' : list Z) :
  s ≡ₚ s' → list_count x s = list_count x s'.
Proof. intros Hp. unfold list_count, len. by rewrite Hp. Qed.

Lemma list_count_full x (s : list Z) :
  list_count x s = len s → Forall (λ y, y = x) s.
Proof.
  unfold list_count, len. induction s as [|y s IH]; [constructor|].
  rewrite filter_cons. pose proof (length_filter (λ y, y = x) s).
  destruct (decide (y = x)); simpl length; intros Hl.
  - constructor; [done|]. apply IH. lia.
  - lia.
Qed.

Lemma flush_bit_perm (s s' : list Z) x y :
  s ≡ₚ s' → length s = 5%nat → x ∈ s → y ∈ s' →
  (list_count x s =? 5) = (list_count y s' =? 5).
Proof.
  intros Hp Hlen Hx Hy.
  assert (length s' = 5%nat) as Hlen' by (by rewrite <- Hp).
  apply eq_true_iff_eq. rewrite !Z.eqb_eq. split; intros H5.
  - assert (Forall (λ z, z = x) s) as Hall.
    { apply list_count_full. unfold len. lia. }
    rewrite Hp in Hall. rewrite Forall_forall in Hall.
    rewrite (Hall y Hy). rewrite <- (list_count_perm x s s' Hp). done.
  - assert (Forall (λ z, z = y) s') as Hall.
    { apply list_count_full. unfold len. lia. }
    rewrite <- Hp in Hall. rewrite Forall_forall in Hall.
    rewrite (Hall x Hx). rewrite (list_count_perm y s s' Hp). done.
Qed.

Lemma rank_5cards_perm (c c' : list card) :
  length c = 5%nat → c ≡ₚ c' → rank_5cards c = rank_5cards c'.
Proof.
  intros Hlen Hp. unfold rank_5cards. cbv zeta.
  rewrite (sorted_ranks_perm c c' Hp).
  destruct (count_ranks _) as [d|]; [|done]. rsimpl.
  assert ((sorted_rev rank_ltb c).*2 ≡ₚ (sorted_rev rank_ltb c').*2) as Hs.
  { by rewrite !sorted_rev_perm, Hp. }
  assert (length (sorted_rev rank_ltb c).*2 = 5%nat) as Hl.
  { by rewrite length_fmap, sorted_rev_length. }
  revert Hs Hl.
  generalize (sorted_rev rank_ltb c).*2 (sorted_rev rank_ltb c').*2.
  intros s s' Hs Hl.
  assert (length s' = 5%nat) as Hl' by (by rewrite <- Hs).
  destruct s as [|x s]; [done|]. destruct s' as [|y s']; [done|].
  rewrite !getitem_0. rsimpl.
  rewrite (flush_bit_perm (x :: s) (y :: s') x y Hs Hl); [done| |]; by left.
Qed.

(** * The 7-card evaluator *)

(** One hand per category, and the royal flush of the running example. *)
Example rank_5cards_categories :
  rank_5cards [(14, 0); (13, 0); (12, 0); (11, 0); (10, 0)] = Ok [9; 14] ∧
  rank_5cards [(9, 0); (9, 1); (3, 2); (9, 2); (9, 3)] = Ok [8; 9; 3] ∧
  rank_5cards [(3, 0); (13, 0); (3, 1); (3, 2); (13, 1)] = Ok [7; 3; 13] ∧
  rank_5cards [(2, 1); (9, 1); (4, 1); (12, 1); (7, 1)] = Ok [6; 12; 9; 7; 4; 2] ∧
  rank_5cards [(8, 0); (7, 1); (6, 2); (5, 2); (4, 3)] = Ok [5; 8] ∧
  rank_5cards [(3, 0); (13, 0); (3, 1); (3, 2); (10, 0)] = Ok [4; 3; 13; 10] ∧
  rank_5cards [(3, 0); (13, 0); (3, 1); (13, 2); (10, 0)] = Ok [3; 13; 3; 10] ∧
  rank_5cards [(3, 0); (13, 0); (3, 1); (12, 2); (10, 0)] = Ok [2; 3; 13; 12; 10] ∧
  rank_5cards [(2, 0); (13, 0); (3, 1); (12, 2); (10, 0)] = Ok [1; 13; 12; 10; 3; 2].
Proof. split_and!; vm_compute; reflexivity. Qed.

Example rank_7cards_royal : rank_7cards royal7 = Ok [9; 14].
Proof. vm_compute. reflexivity. Qed.

Lemma rank_7cards_flat cards7 :
  rank_7cards cards7 = fold_result (visit cards7) (idx5 (len cards7)) [0].
Proof.
  unfold rank_7cards, idx5. cbv zeta. symmetry.
  rewrite fold_result_bind. apply fold_result_ext. intros i b0 _.
  rewrite fold_result_bind. apply fold_result_ext. intros j b1 _.
  rewrite fold_result_bind. apply fold_result_ext. intros k b2 _.
  rewrite fold_result_bind. apply fold_result_ext. intros l b3 _.
  rewrite fold_result_bind. apply fold_result_ext. intros m b4 _.
  simpl fold_result. apply result_bind_ret.
Qed.

Lemma idx5_bounds n i j k l m :
  (i, j, k, l, m) ∈ idx5 n → 0 ≤ i < j ∧ j < k ∧ k < l ∧ l < m ∧ m < n.
Proof.
  unfold idx5, range. intros H.
  apply list_elem_of_bind in H as (i' & H & Hi%elem_of_seqZ).
  apply list_elem_of_bind in H as (j' & H & Hj%elem_of_seqZ).
  apply list_elem_of_bind in H as (k' & H & Hk%elem_of_seqZ).
  apply list_elem_of_bind in H as (l' & H & Hl%elem_of_seqZ).
  apply list_elem_of_bind in H as (m' & H & Hm%elem_of_seqZ).
  apply list_elem_of_singleton in H. injection H as -> -> -> -> ->. lia.
Qed.

Lemma idx5_short n : n < 5 → idx5 n = [].
Proof. intros Hn. unfold idx5, range. by rewrite seqZ_nil by lia. Qed.

Lemma visit_ok cards7 q best :
  q ∈ idx5 (len cards7) → is_ok (visit cards7 q best).
Proof.
  destruct q as [[[[i j] k] l] m]. intros Hq%idx5_bounds. unfold visit.
  destruct (getitem_in_range cards7 i) as (ci & -> & _); [lia|].
  destruct (getitem_in_range cards7 j) as (cj & -> & _); [lia|].
  destruct (getitem_in_range cards7 k) as (ck & -> & _); [lia|].
  destruct (getitem_in_range cards7 l) as (cl & -> & _); [lia|].
  destruct (getitem_in_range cards7 m) as (cm & -> & _); [lia|].
  rsimpl. destruct (rank_5cards_ok [ci; cj; ck; cl; cm]) as (c & t & -> & _);
    [done|].
  rsimpl. by eexists.
Qed.

(** [rank_7cards] returns on every list, whatever its length. *)
Lemma rank_7cards_ok cards7 : is_ok (rank_7cards cards7).
Proof.
  rewrite rank_7cards_flat.
  destruct (fold_result_inv (λ _, True) (visit cards7) (idx5 (len cards7)) [0])
    as (best & -> & _); [done| |by eexists].
  intros q b Hq _. destruct (visit_ok cards7 q b Hq) as [b' ->]. eauto.
Qed.

Lemma rank_7cards_short cards7 : len cards7 < 5 → rank_7cards cards7 = Ok [0].
Proof. intros Hn. by rewrite rank_7cards_flat, idx5_short. Qed.

(** On seven cards the loops visit the 21 sub-selections in order. *)
Lemma rank_7cards_seven a b c d e f g :
  rank_7cards [a; b; c; d; e; f; g]
  = best_of (combinations 5 [a; b; c; d; e; f; g]) [0].
Proof.
  rewrite rank_7cards_flat.
  cbv -[rank_5cards tuple_gtb]. reflexivity.
Qed.

Lemma elem_of_combinations {A} (k : nat) (l s : list A) :
  s ∈ combinations k l ↔ s `sublist_of` l ∧ length s = k.
Proof.
  revert k s. induction l as [|x l IH]; intros [|k] s; simpl.
  - rewrite list_elem_of_singleton. split; [by intros ->|].
    intros [_ Hl]. by apply nil_length_inv.
  - rewrite elem_of_nil. split; [done|]. intros [Hs Hl].
    apply sublist_nil_r in Hs. by subst.
  - rewrite list_elem_of_singleton. split.
    + intros ->. split; [apply sublist_nil_l|done].
    + intros [_ Hl]. by apply nil_length_inv.
  - rewrite elem_of_app, list_elem_of_fmap. split.
    + intros [(s' & -> & Hs')|Hs].
      * apply IH in Hs' as [Hsub <-]. split; [by apply sublist_skip|done].
      * apply IH in Hs as [Hsub Hl]. split; [by apply sublist_cons|done].
    + intros [Hsub Hl]. apply sublist_cons_r in Hsub as [Hsub|(s' & -> & Hsub)].
      * right. apply IH. done.
      * left. exists s'. split; [done|]. apply IH. split; [done|].
        simpl in Hl. lia.
Qed.

Lemma best_of_spec combos best0 :
  Forall (λ c, length c = 5%nat) combos →
  ∃ best, best_of combos best0 = Ok best ∧
    tuple_leb best0 best = true ∧
    (∀ c, c ∈ combos → ∃ r, rank_5cards c = Ok r ∧ tuple_leb r best = true) ∧
    (best = best0 ∨ ∃ c, c ∈ combos ∧ rank_5cards c = Ok best).
Proof.
  unfold best_of. intros Hall. revert best0.
  induction Hall as [|c combos Hc _ IH]; intros best0; simpl.
  - exists best0. split_and!; [done|apply tuple_leb_refl| |by left].
    intros c Hc. by apply elem_of_nil in Hc.
  - destruct (rank_5cards_ok c Hc) as (cat & t & Hr & _). rewrite Hr. rsimpl.
    set (b1 := if tuple_gtb (cat :: t) best0 then cat :: t else best0).
    assert (tuple_leb best0 b1 = true ∧ tuple_leb (cat :: t) b1 = true) as [H0 H1].
    { unfold b1, tuple_gtb. destruct (tuple_ltb best0 (cat :: t)) eqn:E.
      - split; [by apply tuple_ltb_leb|apply tuple_leb_refl].
      - split; [apply tuple_leb_refl|]. by rewrite tuple_leb_ltb, E. }
    destruct (IH b1) as (best & Hbest & Hb1 & Hub & Hwit).
    exists best. split_and!; [exact Hbest|by eapply tuple_leb_trans| |].
    + intros c' [->|Hc']%elem_of_cons; [|by apply Hub].
      exists (cat :: t). split; [done|]. by eapply tuple_leb_trans.
    + destruct Hwit as [->|(c' & Hc' & Hr')].
      * unfold b1. destruct (tuple_gtb (cat :: t) best0); [|by left].
        right. exists c. split; [by left|done].
      * right. exists c'. split; [by right|done].
Qed.

Lemma rank_5cards_no_flush (h : list card) :
  length h = 5%nat → ¬ all_same_suit h →
  rank_5cards h =
    (let ranks := sorted_rev Z.ltb h.*1 in
     rank_counts ← count_ranks ranks;
     '(is_straight, top_straight_rank) ← detect_straight (distinct ranks);
     classify_hand ranks rank_counts false is_straight top_straight_rank).
Proof.
  intros Hlen Hns. unfold rank_5cards. cbv zeta. rewrite sorted_ranks.
  destruct (count_ranks _) as [d|]; [|done]. rsimpl.
  assert ((sorted_rev rank_ltb h).*2 ≡ₚ h.*2) as Hs by (by rewrite sorted_rev_perm).
  assert (length (sorted_rev rank_ltb h).*2 = 5%nat) as Hl.
  { by rewrite length_fmap, sorted_rev_length. }
  revert Hs Hl. generalize (sorted_rev rank_ltb h).*2. intros s Hs Hl.
  destruct s as [|x s]; [done|]. rewrite getitem_0. rsimpl.
  replace (list_count x (x :: s) =? 5) with false; [done|].
  symmetry. apply Z.eqb_neq. intros H5. apply Hns.
  assert (Forall (λ y, y = x) h.*2) as Hall.
  { rewrite <- Hs. apply list_count_full. unfold len. lia. }
  rewrite Forall_forall in Hall. intros c c' Hc Hc'.
  rewrite (Hall c.2), (Hall c'.2); [done| |]; by apply list_elem_of_fmap_2.
Qed.

(** * The claims about the evaluators *)

(** C9: [rank_5cards] returns the same tuple on every reordering of a
    5-card hand.  Only the length is used, so every valid hand is
    covered. *)
Theorem rank_5cards_permutation_invariant (cards5 cards5' : list card) :
  length cards5 = 5%nat → cards5 ≡ₚ cards5' →
  ∃ r, rank_5cards cards5 = Ok r ∧ rank_5cards cards5' = Ok r.
Proof.
  intros Hlen Hp. destruct (rank_5cards_ok cards5 Hlen) as (c & t & Hr & _).
  exists (c :: t). split; [done|]. by rewrite <- (rank_5cards_perm _ _ Hlen Hp).
Qed.

Lemma rank_5cards_permutation_invariant_witness :
  ∃ r, rank_5cards [(14, 0); (3, 1); (4, 2); (5, 2); (2, 3)] = Ok r ∧
       rank_5cards [(2, 3); (5, 2); (14, 0); (4, 2); (3, 1)] = Ok r.
Proof.
  apply rank_5cards_permutation_invariant; [reflexivity|].
  apply (bool_decide_unpack _). vm_compute. exact I.
Defined.

(** C6: a non-flush hand with ranks 14, 5, 4, 3, 2 is the straight
    (5, 5), strictly below the (5, 6) of any non-flush 6, 5, 4, 3, 2. *)
Theorem wheel_is_five_high_straight (wheel six_high : list card) :
  wheel.*1 ≡ₚ [14; 5; 4; 3; 2] → ¬ all_same_suit wheel →
  six_high.*1 ≡ₚ [6; 5; 4; 3; 2] → ¬ all_same_suit six_high →
  rank_5cards wheel = Ok [5; 5] ∧
  rank_5cards six_high = Ok [5; 6] ∧
  tuple_ltb [5; 5] [5; 6] = true.
Proof.
  intros Hw Hwf Hs Hsf.
  assert (length wheel = 5%nat) as Hlw.
  { pose proof (Permutation_length Hw) as H. by rewrite length_fmap in H. }
  assert (length six_high = 5%nat) as Hls.
  { pose proof (Permutation_length Hs) as H. by rewrite length_fmap in H. }
  rewrite (rank_5cards_no_flush wheel Hlw Hwf).
  rewrite (rank_5cards_no_flush six_high Hls Hsf).
  rewrite (sorted_rev_Z_perm _ _ Hw), (sorted_rev_Z_perm _ _ Hs).
  split_and!; vm_compute; reflexivity.
Qed.

Lemma wheel_is_five_high_straight_witness :
  rank_5cards [(14, 0); (3, 1); (4, 2); (5, 2); (2, 3)] = Ok [5; 5] ∧
  rank_5cards [(6, 1); (5, 1); (4, 1); (3, 1); (2, 0)] = Ok [5; 6] ∧
  tuple_ltb [5; 5] [5; 6] = true.
Proof.
  apply wheel_is_five_high_straight.
  - apply (bool_decide_unpack _). vm_compute. exact I.
  - intros H. specialize (H (14, 0) (3, 1)). simpl in H.
    assert (0 = 1) as Hbad; [|discriminate Hbad].
    apply H; apply (bool_decide_unpack _); vm_compute; exact I.
  - apply (bool_decide_unpack _). vm_compute. exact I.
  - intros H. specialize (H (6, 1) (2, 0)). simpl in H.
    assert (1 = 0) as Hbad; [|discriminate Hbad].
    apply H; apply (bool_decide_unpack _); vm_compute; exact I.
Defined.

(** C1: on 7 distinct cards [rank_7cards] returns the maximum of
    [rank_5cards] over the 21 five-card sub-selections: it is at least
    the rank of every 5-subset and it is the rank of one of them. *)
Theorem rank_7cards_is_max (cards7 : list card) :
  length cards7 = 7%nat → NoDup cards7 →
  ∃ best, rank_7cards cards7 = Ok best ∧
    rank_7cards cards7 = best_of (combinations 5 cards7) [0] ∧
    length (combinations 5 cards7) = 21%nat ∧
    (∀ combo5, NoDup combo5 → combo5 ⊆ cards7 → length combo5 = 5%nat →
       ∃ r5, rank_5cards combo5 = Ok r5 ∧ tuple_leb r5 best = true) ∧
    (∃ combo5, combo5 `sublist_of` cards7 ∧ length combo5 = 5%nat ∧
       rank_5cards combo5 = Ok best).
Proof.
  intros Hlen Hnd.
  destruct cards7 as [|a [|b [|c [|d [|e [|f [|g [|]]]]]]]]; try done.
  rewrite rank_7cards_seven.
  set (cards7 := [a; b; c; d; e; f; g]) in *.
  destruct (best_of_spec (combinations 5 cards7) [0])
    as (best & Hbest & _ & Hub & Hwit).
  { apply Forall_forall. by intros s [_ ?]%elem_of_combinations. }
  exists best. split_and!; [done|done|done| |].
  - intros combo5 Hnd5 Hsub Hl5.
    apply NoDup_submseteq in Hsub; [|done].
    apply submseteq_sublist_r in Hsub as (s & Hp & Hs).
    destruct (Hub s) as (r & Hr & Hle).
    { apply elem_of_combinations. split; [done|]. by rewrite <- Hp. }
    exists r. split; [|done]. by rewrite (rank_5cards_perm _ _ Hl5 Hp).
  - destruct Hwit as [->|(s & Hs & Hr)].
    + destruct (Hub [a; b; c; d; e]) as (r & Hr & Hle).
      { apply elem_of_combinations. split; [|done].
        do 5 apply sublist_skip. apply sublist_nil_l. }
      destruct (rank_5cards_ok [a; b; c; d; e]) as (cat & t & Hr' & Hcat); [done|].
      rewrite Hr in Hr'. injection Hr' as ->. simpl in Hle.
      destruct (Z.eqb_spec cat 0); [lia|]. apply Z.ltb_lt in Hle. lia.
    + apply elem_of_combinations in Hs as [Hs Hl]. eauto.
Qed.

Lemma rank_7cards_is_max_witness :
  ∃ best, rank_7cards royal7 = Ok best ∧
    rank_7cards royal7 = best_of (combinations 5 royal7) [0] ∧
    length (combinations 5 royal7) = 21%nat ∧
    (∀ combo5, NoDup combo5 → combo5 ⊆ royal7 → length combo5 = 5%nat →
       ∃ r5, rank_5cards combo5 = Ok r5 ∧ tuple_leb r5 best = true) ∧
    (∃ combo5, combo5 `sublist_of` royal7 ∧ length combo5 = 5%nat ∧
       rank_5cards combo5 = Ok best).
Proof.
  apply rank_7cards_is_max; [reflexivity|].
  apply (bool_decide_unpack _). vm_compute. exact I.
Defined.

(** * The store *)

Lemma bind_run {A B} (m : M A) (f : A → M B) st r st' :
  m st = (r, st') →
  (m ≫= f) st = match r with Ok a => f a st' | Raise e => (Raise e, st') end.
Proof. intros H. unfold mbind, M_bind. by rewrite H. Qed.

Lemma read_run r s (H : list (list card)) l :
  H !! r = Some l → read r (Store s H) = (Ok l, Store s H).
Proof. intros Hr. unfold read. simpl. by rewrite Hr. Qed.

Lemma write_run r s (H : list (list card)) l l' :
  H !! r = Some l → write r l' (Store s H) = (Ok (), Store s (<[r := l']> H)).
Proof. intros Hr. unfold write. simpl. by rewrite Hr. Qed.

Lemma new_list_run l s (H : list (list card)) :
  new_list l (Store s H) = (Ok (length H), Store s (H ++ [l])).
Proof. done. Qed.

Lemma append_run r c s (H : list (list card)) l :
  H !! r = Some l →
  append r c (Store s H) = (Ok (), Store s (<[r := l ++ [c]]> H)).
Proof.
  intros Hr. unfold append.
  rewrite (bind_run _ _ _ _ _ (read_run _ _ _ _ Hr)).
  by eapply write_run.
Qed.

Lemma lookup_last (H : list (list card)) l : (H ++ [l]) !! length H = Some l.
Proof. by rewrite lookup_app_r, Nat.sub_diag. Qed.

Lemma insert_last (H : list (list card)) l l' :
  <[length H := l']> (H ++ [l]) = H ++ [l'].
Proof.
  rewrite insert_app_r_alt by done. by rewrite Nat.sub_diag.
Qed.

Lemma norm_index_in_range n i : 0 ≤ i < n → norm_index n i = Ok (Z.to_nat i).
Proof.
  intros Hi. unfold norm_index.
  replace (0 <=? i) with true by (symmetry; apply Z.leb_le; lia).
  by replace (i <? n) with true by (symmetry; apply Z.ltb_lt; lia).
Qed.

Lemma setitem_run r i c s (H : list (list card)) l :
  H !! r = Some l → 0 ≤ i < len l →
  setitem r i c (Store s H) = (Ok (), Store s (<[r := <[Z.to_nat i := c]> l]> H)).
Proof.
  intros Hr Hi. unfold setitem.
  rewrite (bind_run _ _ _ _ _ (read_run _ _ _ _ Hr)).
  unfold lift at 1. unfold mbind at 1, M_bind at 1.
  rewrite norm_index_in_range by done.
  by eapply write_run.
Qed.

(** * 1. The generator *)

Lemma rand_int_run low high s (H : list (list card)) :
  rand_int low high (Store s H)
  = (r ← py_mod (lcg s) (high - low + 1); Ok (low + r), Store (lcg s) H).
Proof.
  unfold rand_int, get_seed, set_seed, lift, mbind, M_bind. simpl _seed. simpl lists.
  fold (lcg s). by destruct (py_mod _ _).
Qed.

Lemma swap_at_length l i j : length (swap_at l i j) = length l.
Proof.
  unfold swap_at. repeat case_match; by rewrite ?length_insert.
Qed.

Lemma shuffle_body_run lst i s (H : list (list card)) l :
  H !! lst = Some l → 0 ≤ i < len l →
  (j ← rand_int 0 i;
   l ← read lst;
   a ← lift (getitem l j);
   b ← lift (getitem l i);
   setitem lst i a;;
   setitem lst j b) (Store s H)
  = (Ok (), Store (lcg s) (<[lst := swap_at l i (lcg s mod (i + 1))]> H)).
Proof.
  intros Hl Hi.
  rewrite (bind_run _ _ _ _ _ (rand_int_run 0 i s H)).
  unfold py_mod. replace (i - 0 + 1) with (i + 1) by lia.
  replace (i + 1 =? 0) with false by (symmetry; apply Z.eqb_neq; lia).
  rsimpl.
  assert (0 ≤ lcg s mod (i + 1) < i + 1) as Hj by (apply Z.mod_pos_bound; lia).
  set (j := lcg s mod (i + 1)) in *.
  rewrite (bind_run _ _ _ _ _ (read_run _ _ _ _ Hl)).
  destruct (getitem_in_range l (0 + j)) as (a & Ha & Hla); [lia|].
  destruct (getitem_in_range l i) as (b & Hb & Hlb); [lia|].
  unfold lift at 1. unfold mbind at 1, M_bind at 1. rewrite Ha.
  unfold lift at 1. unfold mbind at 1, M_bind at 1. rewrite Hb.
  rewrite (bind_run _ _ _ _ _ (setitem_run _ _ _ _ _ _ Hl Hi)).
  pose proof (lookup_lt_Some _ _ _ Hl) as Hlt.
  erewrite setitem_run; [| by apply list_lookup_insert_eq |].
  2:{ unfold len. rewrite length_insert. unfold len in Hi. lia. }
  rewrite list_insert_insert_eq. unfold swap_at.
  replace (0 + j) with j in * by lia. by rewrite Hla, Hlb.
Qed.

Lemma shuffle_loop_run lst idxs s (H : list (list card)) l :
  H !! lst = Some l → Forall (λ i, 0 ≤ i < len l) idxs →
  for_each idxs (λ i,
    j ← rand_int 0 i;
    l ← read lst;
    a ← lift (getitem l j);
    b ← lift (getitem l i);
    setitem lst i a;;
    setitem lst j b) (Store s H)
  = (Ok (), Store (shuffle_steps idxs l s).2 (<[lst := (shuffle_steps idxs l s).1]> H)).
Proof.
  intros Hl Hall. revert s H l Hl Hall.
  induction idxs as [|i idxs IH]; intros s H l Hl Hall.
  - simpl. by rewrite list_insert_id.
  - apply Forall_cons in Hall as [Hi Hall].
    cbn [for_each].
    rewrite (bind_run _ _ _ _ _ (shuffle_body_run lst i s H l Hl Hi)).
    pose proof (lookup_lt_Some _ _ _ Hl) as Hlt.
    rewrite (IH _ _ (swap_at l i (lcg s mod (i + 1)))).
    + by rewrite list_insert_insert_eq.
    + by apply list_lookup_insert_eq.
    + unfold len in *. by rewrite swap_at_length.
Qed.

Lemma shuffle_in_place_run lst s (H : list (list card)) l :
  H !! lst = Some l →
  shuffle_in_place lst (Store s H)
  = (Ok (), Store (shuffled l s).2 (<[lst := (shuffled l s).1]> H)).
Proof.
  intros Hl. unfold shuffle_in_place.
  rewrite (bind_run _ _ _ _ _ (read_run _ _ _ _ Hl)).
  apply shuffle_loop_run; [done|].
  apply Forall_forall. intros i Hi. unfold range_down in Hi.
  apply list_elem_of_fmap in Hi as (k & -> & Hk%elem_of_seqZ). lia.
Qed.

Lemma run_queries_run qs s (H : list (list card)) :
  run_queries qs (Store s H) = ((draws qs s).1, Store (draws qs s).2 H).
Proof.
  revert s. induction qs as [|[low high] qs IH]; intros s; [done|].
  cbn [run_queries draws].
  rewrite (bind_run _ _ _ _ _ (rand_int_run low high s H)).
  destruct (py_mod (lcg s) (high - low + 1)) as [r|e]; rsimpl; [|done].
  rewrite (bind_run _ _ _ _ _ (IH (lcg s))).
  by destruct (draws qs (lcg s)) as [[rs|e] s'].
Qed.

Lemma shuffle_steps_seed idxs l s :
  Forall (λ i, 0 ≤ i) idxs →
  (shuffle_steps idxs l s).2 = (draws ((λ i, (0, i)) <$> idxs) s).2.
Proof.
  unfold shuffle_steps. intros Hall. revert l s.
  induction Hall as [|i idxs Hi _ IH]; intros l s; [done|].
  cbn [fold_left]. rewrite IH. rewrite fmap_cons. cbn [draws].
  unfold py_mod. replace (i - 0 + 1 =? 0) with false
    by (symmetry; apply Z.eqb_neq; lia).
  by destruct (draws _ (lcg s)) as [[rs|e] s'].
Qed.

Lemma shuffled_seed l s :
  (shuffled l s).2 = (draws (shuffle_queries (len l)) s).2.
Proof.
  unfold shuffled, shuffle_queries. apply shuffle_steps_seed.
  apply Forall_forall. intros i Hi. unfold range_down in Hi.
  apply list_elem_of_fmap in Hi as (k & -> & Hk%elem_of_seqZ). lia.
Qed.

(** C3: for [low <= high], [rand_int] returns
    [low + new_state mod (high - low + 1)], a value of [[low, high]], and
    its only effect on the store is the new [_seed]. *)
Theorem rand_int_spec (low high : Z) (st : store) :
  low ≤ high →
  let new_state := (1103515245 * _seed st + 12345) mod 2147483648 in
  rand_int low high st
  = (Ok (low + new_state mod (high - low + 1)), Store new_state (lists st)) ∧
  low ≤ low + new_state mod (high - low + 1) ≤ high.
Proof.
  intros Hle new_state. destruct st as [s H]. split.
  - rewrite rand_int_run. unfold py_mod.
    by replace (high - low + 1 =? 0) with false
      by (symmetry; apply Z.eqb_neq; lia).
  - pose proof (Z.mod_pos_bound new_state (high - low + 1)). lia.
Qed.

Lemma rand_int_spec_witness :
  rand_int 0 51 (Store 5674832 [])
  = (Ok (0 + ((1103515245 * 5674832 + 12345) mod 2147483648) mod (51 - 0 + 1)),
     Store ((1103515245 * 5674832 + 12345) mod 2147483648) []) ∧
  0 ≤ 0 + ((1103515245 * 5674832 + 12345) mod 2147483648) mod (51 - 0 + 1) ≤ 51.
Proof. apply (rand_int_spec 0 51 (Store 5674832 [])). lia. Defined.

(** C4, as the code has it: with [low > high] the call raises only when
    [high = low - 1] (the modulus is zero); otherwise it returns
    [low + new_state mod (high - low + 1)], a value of
    [[high + 2, low]].  The seed is advanced in both cases. *)
Theorem rand_int_low_above_high (low high : Z) (st : store) :
  high < low →
  let new_state := (1103515245 * _seed st + 12345) mod 2147483648 in
  rand_int low high st
  = (if high =? low - 1 then Raise ZeroDivisionError
     else Ok (low + new_state mod (high - low + 1)),
     Store new_state (lists st)) ∧
  (high < low - 1 → high + 2 ≤ low + new_state mod (high - low + 1) ≤ low).
Proof.
  intros Hlt new_state. destruct st as [s H]. split.
  - rewrite rand_int_run. unfold py_mod.
    destruct (Z.eqb_spec high (low - 1)) as [->|Hne].
    + by replace (low - 1 - low + 1) with 0 by lia.
    + by replace (high - low + 1 =? 0) with false
        by (symmetry; apply Z.eqb_neq; lia).
  - intros Hlt'.
    pose proof (Z.mod_neg_bound new_state (high - low + 1)). lia.
Qed.

Lemma rand_int_low_above_high_witness :
  rand_int 5 3 (Store 5674832 [])
  = (if 3 =? 5 - 1 then Raise ZeroDivisionError
     else Ok (5 + ((1103515245 * 5674832 + 12345) mod 2147483648) mod (3 - 5 + 1)),
     Store ((1103515245 * 5674832 + 12345) mod 2147483648) []) ∧
  (3 < 5 - 1 →
   3 + 2 ≤ 5 + ((1103515245 * 5674832 + 12345) mod 2147483648) mod (3 - 5 + 1) ≤ 5).
Proof. apply (rand_int_low_above_high 5 3 (Store 5674832 [])). lia. Defined.

(** C4 as stated fails: [rand_int(5, 3)] returns 5. *)
Lemma reversed_bounds_return :
  3 < 5 ∧ (rand_int 5 3 (Store 5674832 [])).1 = Ok 5.
Proof. split; [lia|]. vm_compute. reflexivity. Qed.

(** C7: the outputs and the final seed of a run are determined by the
    first seed and the sequence of range queries; the same holds for the
    queries made inside [shuffle_in_place], which depend on the length of
    the list only and leave equal lists equal. *)
Theorem generator_deterministic (qs : list (Z * Z)) (st1 st2 : store) :
  _seed st1 = _seed st2 →
  (run_queries qs st1).1 = (run_queries qs st2).1 ∧
  _seed (run_queries qs st1).2 = _seed (run_queries qs st2).2 ∧
  (∀ lst1 lst2 l,
     lists st1 !! lst1 = Some l → lists st2 !! lst2 = Some l →
     (shuffle_in_place lst1 st1).1 = Ok () ∧
     (shuffle_in_place lst2 st2).1 = Ok () ∧
     _seed (shuffle_in_place lst1 st1).2 = _seed (shuffle_in_place lst2 st2).2 ∧
     lists (shuffle_in_place lst1 st1).2 !! lst1
       = lists (shuffle_in_place lst2 st2).2 !! lst2 ∧
     _seed (shuffle_in_place lst1 st1).2
       = _seed (run_queries (shuffle_queries (len l)) st1).2).
Proof.
  destruct st1 as [s H1], st2 as [s2 H2]. simpl. intros <-.
  rewrite !run_queries_run. split_and!; [done|done|].
  intros lst1 lst2 l Hl1 Hl2.
  rewrite (shuffle_in_place_run _ _ _ _ Hl1), (shuffle_in_place_run _ _ _ _ Hl2).
  rewrite run_queries_run. simpl.
  pose proof (lookup_lt_Some _ _ _ Hl1). pose proof (lookup_lt_Some _ _ _ Hl2).
  rewrite !list_lookup_insert_eq by done.
  split_and!; try done. apply shuffled_seed.
Qed.

Lemma generator_deterministic_witness :
  (run_queries [(0, 51); (1, 6)] (Store 5674832 [royal7])).1
  = (run_queries [(0, 51); (1, 6)] (Store 5674832 [[]; royal7])).1 ∧
  _seed (run_queries [(0, 51); (1, 6)] (Store 5674832 [royal7])).2
  = _seed (run_queries [(0, 51); (1, 6)] (Store 5674832 [[]; royal7])).2 ∧
  (∀ lst1 lst2 l,
     [royal7] !! lst1 = Some l → [[]; royal7] !! lst2 = Some l →
     (shuffle_in_place lst1 (Store 5674832 [royal7])).1 = Ok () ∧
     (shuffle_in_place lst2 (Store 5674832 [[]; royal7])).1 = Ok () ∧
     _seed (shuffle_in_place lst1 (Store 5674832 [royal7])).2
       = _seed (shuffle_in_place lst2 (Store 5674832 [[]; royal7])).2 ∧
     lists (shuffle_in_place lst1 (Store 5674832 [royal7])).2 !! lst1
       = lists (shuffle_in_place lst2 (Store 5674832 [[]; royal7])).2 !! lst2 ∧
     _seed (shuffle_in_place lst1 (Store 5674832 [royal7])).2
       = _seed (run_queries (shuffle_queries (len l)) (Store 5674832 [royal7])).2).
Proof.
  apply (generator_deterministic [(0, 51); (1, 6)]
           (Store 5674832 [royal7]) (Store 5674832 [[]; royal7])).
  reflexivity.
Defined.

(** * 2. The deck helpers *)

(** A loop whose body appends to the newest list object or leaves the
    store alone collects the kept elements in order. *)
Lemma for_each_collect (body : card → M unit) (keep : card → bool)
    s (H : list (list card)) :
  (∀ c u, body c (Store s (H ++ [u]))
          = (Ok (), Store s (H ++ [if keep c then u ++ [c] else u]))) →
  ∀ cs u, for_each cs body (Store s (H ++ [u]))
          = (Ok (), Store s (H ++ [u ++ filter (λ c, keep c) cs])).
Proof.
  intros Hbody. induction cs as [|c cs IH]; intros u.
  - simpl. by rewrite app_nil_r.
  - cbn [for_each]. rewrite (bind_run _ _ _ _ _ (Hbody c u)). rewrite IH.
    rewrite filter_cons. destruct (keep c); simpl.
    + by rewrite <- app_assoc.
    + done.
Qed.

Lemma append_last_run c s (H : list (list card)) u :
  append (length H) c (Store s (H ++ [u])) = (Ok (), Store s (H ++ [u ++ [c]])).
Proof.
  rewrite (append_run _ _ _ _ u) by apply lookup_last. by rewrite insert_last.
Qed.

Lemma for_each_append_fmap {A} (f : A → card) xs s (H : list (list card)) u :
  for_each xs (λ x, append (length H) (f x)) (Store s (H ++ [u]))
  = (Ok (), Store s (H ++ [u ++ (f <$> xs)])).
Proof.
  revert u. induction xs as [|x xs IH]; intros u.
  - simpl. by rewrite app_nil_r.
  - cbn [for_each]. rewrite (bind_run _ _ _ _ _ (append_last_run _ _ _ _)).
    rewrite IH, fmap_cons. by rewrite <- app_assoc.
Qed.

Lemma make_deck_run s (H : list (list card)) :
  make_deck (Store s H) = (Ok (length H), Store s (H ++ [full_deck])).
Proof.
  unfold make_deck.
  rewrite (bind_run _ _ _ _ _ (new_list_run [] s H)).
  assert (∀ rs u,
    for_each rs (λ rank,
      for_each (range 0 4) (λ suit, append (length H) (rank, suit)))
      (Store s (H ++ [u]))
    = (Ok (), Store s (H ++ [u ++ (rank ← rs; (λ suit, (rank, suit)) <$> range 0 4)])))
    as Hloop.
  { induction rs as [|r rs IH]; intros u.
    - simpl. by rewrite app_nil_r.
    - cbn [for_each].
      rewrite (bind_run _ _ _ _ _
        (for_each_append_fmap (λ suit, (r, suit)) (range 0 4) s H u)).
      rewrite IH. rewrite bind_cons. by rewrite <- app_assoc. }
  rewrite (bind_run _ _ _ _ _ (Hloop (range 2 15) [])). done.
Qed.

Lemma full_deck_NoDup : NoDup full_deck.
Proof. apply (bool_decide_unpack _). vm_compute. exact I. Qed.

Lemma remove_cards_from_deck_run deck cards_to_remove s (H : list (list card)) d :
  H !! deck = Some d →
  remove_cards_from_deck deck cards_to_remove (Store s H)
  = (Ok (length H), Store s (H ++ [filter (λ c, c ∉ cards_to_remove) d])).
Proof.
  intros Hd. unfold remove_cards_from_deck.
  rewrite (bind_run _ _ _ _ _ (new_list_run [] s H)).
  cbv zeta.
  rewrite (bind_run _ _ _ _ _
    (read_run deck s (H ++ [[]]) d (lookup_app_l_Some _ _ _ _ Hd))).
  assert (∀ c u,
    (if decide (c ∉ (list_to_set cards_to_remove : gset card))
     then append (length H) c else mret ()) (Store s (H ++ [u]))
    = (Ok (), Store s (H ++ [if bool_decide (c ∉ cards_to_remove)
                             then u ++ [c] else u]))) as Hbody.
  { intros c u. destruct (decide (c ∉ list_to_set cards_to_remove)) as [Hc|Hc];
      rewrite elem_of_list_to_set in Hc.
    + rewrite bool_decide_eq_true_2 by done. apply append_last_run.
    + by rewrite bool_decide_eq_false_2 by done. }
  rewrite (bind_run _ _ _ _ _
    (for_each_collect _ (λ c, bool_decide (c ∉ cards_to_remove)) s H Hbody d [])).
  simpl. do 4 f_equal. apply list_filter_iff. intros c.
  by rewrite bool_decide_spec.
Qed.

Lemma filter_iff_elem_of (P Q : card → Prop)
    `{!∀ c, Decision (P c), !∀ c, Decision (Q c)} (l : list card) :
  (∀ c, c ∈ l → P c ↔ Q c) → filter P l = filter Q l.
Proof.
  induction l as [|c l IH]; intros HPQ; [done|].
  rewrite !filter_cons.
  rewrite IH by (intros; apply HPQ; by right).
  destruct (decide (P c)) as [Hp|Hp], (decide (Q c)) as [Hq|Hq]; try done;
    exfalso; apply (HPQ c) in Hp || apply (HPQ c) in Hq; try done; by left.
Qed.

Lemma filter_not_in_length (cards deck : list card) :
  NoDup deck → NoDup cards → cards ⊆ deck →
  (length (filter (λ c, c ∉ cards) deck) + length cards = length deck)%nat.
Proof.
  intros Hd Hc Hsub.
  rewrite <- (filter_app_complement (λ c, c ∉ cards) deck) at 2.
  rewrite length_app. f_equal. apply Permutation_length.
  apply NoDup_Permutation; [done|by apply NoDup_filter|].
  intros c. rewrite list_elem_of_filter. split.
  - intros Hin. split; [by intros Hn|by apply Hsub].
  - intros [Hnn _]. by destruct (decide (c ∈ cards)).
Qed.

(** C8: [remove_cards_from_deck] allocates a new list holding the cards
    of the deck that are not in the removal collection, in deck order,
    and leaves the deck alone; removal cards absent from the deck change
    nothing; on the deck built by [make_deck] and [n] distinct cards of
    it, the result has [52 - n] distinct cards, none of them removed. *)
Theorem remove_cards_from_deck_spec (deck : loc) (cards_to_remove d : list card)
    (st : store) :
  lists st !! deck = Some d →
  let kept := filter (λ c, c ∉ cards_to_remove) d in
  remove_cards_from_deck deck cards_to_remove st
  = (Ok (length (lists st)), Store (_seed st) (lists st ++ [kept])) ∧
  (lists st ++ [kept]) !! deck = Some d ∧
  (∀ c, c ∈ kept ↔ c ∈ d ∧ c ∉ cards_to_remove) ∧
  kept `sublist_of` d ∧
  (∀ x, x ∉ d → filter (λ c, c ∉ x :: cards_to_remove) d = kept) ∧
  (NoDup cards_to_remove → cards_to_remove ⊆ full_deck →
   let kept52 := filter (λ c, c ∉ cards_to_remove) full_deck in
   (new ← make_deck; remove_cards_from_deck new cards_to_remove) st
   = (Ok (S (length (lists st))),
      Store (_seed st) (lists st ++ [full_deck; kept52])) ∧
   length kept52 = (52 - length cards_to_remove)%nat ∧
   NoDup kept52 ∧
   ∀ c, c ∈ cards_to_remove → c ∉ kept52).
Proof.
  intros Hd kept. destruct st as [s H]. simpl in *. split_and!.
  - by apply remove_cards_from_deck_run.
  - by apply lookup_app_l_Some.
  - intros c. unfold kept. rewrite list_elem_of_filter. tauto.
  - apply sublist_filter.
  - intros x Hx. unfold kept. apply filter_iff_elem_of.
    intros c Hc. rewrite not_elem_of_cons. split; [tauto|].
    intros Hn. split; [|done]. by intros ->.
  - intros Hnd Hsub.
    set (kept52 := filter (λ c, c ∉ cards_to_remove) full_deck).
    split_and!.
    + rewrite (bind_run _ _ _ _ _ (make_deck_run s H)).
      rewrite (remove_cards_from_deck_run _ _ _ _ full_deck) by apply lookup_last.
      rewrite length_app, <- app_assoc. simpl. by rewrite Nat.add_1_r.
    + pose proof (filter_not_in_length cards_to_remove full_deck
                    full_deck_NoDup Hnd Hsub) as Hl.
      change (length full_deck) with 52%nat in Hl. unfold kept52. lia.
    + apply NoDup_filter, full_deck_NoDup.
    + intros c Hc Hin. unfold kept52 in Hin.
      apply list_elem_of_filter in Hin as [Hn _]. done.
Qed.

Lemma remove_cards_from_deck_spec_witness :
  let st := Store 5674832 [[(14, 0); (13, 0); (2, 1)]] in
  let cards_to_remove := [(13, 0); (9, 3)] in
  let d := [(14, 0); (13, 0); (2, 1)] in
  let kept := filter (λ c, c ∉ cards_to_remove) d in
  remove_cards_from_deck 0%nat cards_to_remove st
  = (Ok (length (lists st)), Store (_seed st) (lists st ++ [kept])) ∧
  (lists st ++ [kept]) !! 0%nat = Some d ∧
  (∀ c, c ∈ kept ↔ c ∈ d ∧ c ∉ cards_to_remove) ∧
  kept `sublist_of` d ∧
  (∀ x, x ∉ d → filter (λ c, c ∉ x :: cards_to_remove) d = kept) ∧
  (NoDup cards_to_remove → cards_to_remove ⊆ full_deck →
   let kept52 := filter (λ c, c ∉ cards_to_remove) full_deck in
   (new ← make_deck; remove_cards_from_deck new cards_to_remove) st
   = (Ok (S (length (lists st))),
      Store (_seed st) (lists st ++ [full_deck; kept52])) ∧
   length kept52 = (52 - length cards_to_remove)%nat ∧
   NoDup kept52 ∧
   ∀ c, c ∈ cards_to_remove → c ∉ kept52).
Proof.
  intros st cards_to_remove d.
  apply (remove_cards_from_deck_spec 0%nat cards_to_remove d st).
  reflexivity.
Defined.

(** * 4. The Monte Carlo estimator *)

Lemma for_each_append_all cs s (H : list (list card)) u :
  for_each cs (λ c, append (length H) c) (Store s (H ++ [u]))
  = (Ok (), Store s (H ++ [u ++ cs])).
Proof.
  rewrite (for_each_append_fmap (λ c, c)). by rewrite list_fmap_id.
Qed.

Lemma reduced_deck_run pl kl dl s (H : list (list card)) pc kc dk :
  H !! pl = Some pc → H !! kl = Some kc → H !! dl = Some dk →
  reduced_deck pl kl dl (Store s H)
  = (Ok (S (length H)),
     Store s (H ++ [pc ++ kc;
                    filter (λ c, negb (py_in c (pc ++ kc))) dk])).
Proof.
  intros Hp Hk Hd. unfold reduced_deck.
  rewrite (bind_run _ _ _ _ _ (new_list_run [] s H)).
  rewrite (bind_run _ _ _ _ _
    (read_run pl s (H ++ [[]]) pc (lookup_app_l_Some _ _ _ _ Hp))).
  rewrite (bind_run _ _ _ _ _ (for_each_append_all pc s H [])).
  rewrite (bind_run _ _ _ _ _
    (read_run kl s (H ++ [[] ++ pc]) kc (lookup_app_l_Some _ _ _ _ Hk))).
  rewrite (bind_run _ _ _ _ _ (for_each_append_all kc s H ([] ++ pc))).
  simpl app at 2.
  rewrite (bind_run _ _ _ _ _ (new_list_run [] s (H ++ [pc ++ kc]))).
  rewrite (bind_run _ _ _ _ _
    (read_run dl s ((H ++ [pc ++ kc]) ++ [[]]) dk
       (lookup_app_l_Some _ _ _ _ (lookup_app_l_Some _ _ _ _ Hd)))).
  assert (∀ c u,
    (uc ← read (length H);
     if negb (py_in c uc) then append (length (H ++ [pc ++ kc])) c else mret ())
      (Store s ((H ++ [pc ++ kc]) ++ [u]))
    = (Ok (), Store s ((H ++ [pc ++ kc]) ++
                       [if negb (py_in c (pc ++ kc)) then u ++ [c] else u])))
    as Hbody.
  { intros c u.
    rewrite (bind_run _ _ _ _ _
      (read_run (length H) s _ (pc ++ kc)
         (lookup_app_l_Some _ _ _ _ (lookup_last H (pc ++ kc))))).
    destruct (negb (py_in c (pc ++ kc))); [apply append_last_run|done]. }
  rewrite (bind_run _ _ _ _ _
    (for_each_collect _ (λ c, negb (py_in c (pc ++ kc))) s _ Hbody dk [])).
  simpl. rewrite length_app, <- app_assoc. simpl. by rewrite Nat.add_1_r.
Qed.

Lemma deal_trial_run kl bdl n s (H : list (list card)) kc bd :
  H !! kl = Some kc → H !! bdl = Some bd →
  deal_trial kl bdl n (Store s H)
  = (Ok (deal_of kc (shuffled bd s).1 n),
     Store (shuffled bd s).2 (H ++ [(shuffled bd s).1])).
Proof.
  intros Hk Hb. unfold deal_trial.
  rewrite (bind_run _ _ _ _ _ (read_run _ _ _ _ Hb)).
  rewrite (bind_run _ _ _ _ _ (new_list_run bd s H)).
  rewrite (bind_run _ _ _ _ _
    (shuffle_in_place_run (length H) s (H ++ [bd]) bd (lookup_last H bd))).
  rewrite insert_last.
  set (s' := (shuffled bd s).2). set (sd := (shuffled bd s).1).
  rewrite (bind_run _ _ _ _ _
    (read_run kl s' (H ++ [sd]) kc (lookup_app_l_Some _ _ _ _ Hk))).
  rewrite (bind_run _ _ _ _ _
    (read_run (length H) s' (H ++ [sd]) sd (lookup_last H sd))).
  rewrite (bind_run _ _ _ _ _
    (read_run kl s' (H ++ [sd]) kc (lookup_app_l_Some _ _ _ _ Hk))).
  unfold deal_of. cbv zeta.
  by destruct (deal_holes n (slice_from sd (5 - len kc))) as [opp_holes rest].
Qed.

Lemma compare_opponent_run full hero oh b0 s0 o :
  rank_7cards (oh ++ full) = Ok o →
  compare_opponent full hero oh (b0, s0)
  = Ok (if tuple_gtb o hero then (b0 + 1, s0)
        else if tuple_eqb o hero then (b0, s0 + 1) else (b0, s0)).
Proof.
  intros Ho. unfold compare_opponent. rewrite Ho. rsimpl.
  by repeat case_match.
Qed.

(** The two counters against the verdict of the specification. *)
Lemma compare_opponents_tally full hero opp_holes b0 s0 :
  ∃ opps b s,
    map_result (λ oh, rank_7cards (oh ++ full)) opp_holes = Ok opps ∧
    fold_result (compare_opponent full hero) opp_holes (b0, s0) = Ok (b, s) ∧
    b0 ≤ b ∧ s0 ≤ s ∧
    (b = b0 ↔ existsb (λ o, tuple_gtb o hero) opps = false) ∧
    (s = s0 ↔ existsb (λ o, negb (tuple_gtb o hero) && tuple_eqb o hero) opps
              = false).
Proof.
  revert b0 s0. induction opp_holes as [|oh opp_holes IH]; intros b0 s0.
  - exists [], b0, s0. simpl. split_and!; done.
  - cbn [map_result fold_result].
    destruct (rank_7cards_ok (oh ++ full)) as [o Ho].
    rewrite (compare_opponent_run _ _ _ _ _ _ Ho), Ho. rsimpl.
    destruct (tuple_gtb o hero) eqn:Egt; [|destruct (tuple_eqb o hero) eqn:Eeq].
    + destruct (IH (b0 + 1) s0) as (opps & b & s & -> & -> & Hb & Hs & Hbi & Hsi).
      exists (o :: opps), b, s. rsimpl. cbn [existsb]. rewrite Egt. simpl.
      split_and!; try done; try lia.
    + destruct (IH b0 (s0 + 1)) as (opps & b & s & -> & -> & Hb & Hs & Hbi & Hsi).
      exists (o :: opps), b, s. rsimpl. cbn [existsb]. rewrite Egt, Eeq. simpl.
      split_and!; try done; try lia.
    + destruct (IH b0 s0) as (opps & b & s & -> & -> & Hb & Hs & Hbi & Hsi).
      exists (o :: opps), b, s. rsimpl. cbn [existsb]. rewrite Egt, Eeq. simpl.
      split_and!; done.
Qed.

Lemma existsb_eq_no_gt hero (opps : list tuple) :
  existsb (λ o, tuple_gtb o hero) opps = false →
  existsb (λ o, negb (tuple_gtb o hero) && tuple_eqb o hero) opps
  = existsb (λ o, tuple_eqb o hero) opps.
Proof.
  induction opps as [|o opps IH]; simpl; [done|].
  intros [-> Hr]%orb_false_elim. simpl. by rewrite IH.
Qed.

Lemma trial_run pl kl n bdl s (H : list (list card)) pc kc bd :
  H !! pl = Some pc → H !! kl = Some kc → H !! bdl = Some bd →
  ∃ o s' x,
    trial_spec pl kl n bdl (Store s H) = (Ok o, Store s' (H ++ [x])) ∧
    ∀ counters,
      trial pl kl n bdl counters (Store s H)
      = (Ok (bump o counters), Store s' (H ++ [x])).
Proof.
  intros Hp Hk Hb.
  pose proof (deal_trial_run kl bdl n s H kc bd Hk Hb) as Hdeal.
  destruct (deal_of kc (shuffled bd s).1 n) as [full opp_holes].
  set (s' := (shuffled bd s).2) in *. set (x := (shuffled bd s).1) in *.
  pose proof (read_run pl s' (H ++ [x]) pc (lookup_app_l_Some _ _ _ _ Hp)) as Hread.
  destruct (rank_7cards_ok (pc ++ full)) as [hero Hhero].
  destruct (compare_opponents_tally full hero opp_holes 0 0)
    as (opps & b & sc & Hopps & Hfold & Hb0 & Hs0 & Hbi & Hsi).
  exists (classify_trial_spec hero opps), s', x. split.
  - unfold trial_spec. rewrite (bind_run _ _ _ _ _ Hdeal).
    rewrite (bind_run _ _ _ _ _ Hread).
    unfold lift, mbind, M_bind. by rewrite Hhero, Hopps.
  - intros [[wins ties] total]. unfold trial.
    rewrite (bind_run _ _ _ _ _ Hdeal).
    assert (showdown pl full opp_holes (Store s' (H ++ [x]))
            = (Ok (b, sc), Store s' (H ++ [x]))) as Hshow.
    { unfold showdown. rewrite (bind_run _ _ _ _ _ Hread).
      unfold lift, mbind, M_bind. by rewrite Hhero, Hfold. }
    rewrite (bind_run _ _ _ _ _ Hshow).
    unfold classify_trial_spec, bump.
    destruct (existsb (λ o, tuple_gtb o hero) opps) eqn:Egt.
    + replace (b =? 0) with false; [done|].
      symmetry. apply Z.eqb_neq. intros Hz. by apply Hbi in Hz.
    + destruct Hbi as [_ ->]; [|done]. simpl.
      rewrite existsb_eq_no_gt in Hsi by done.
      destruct (existsb (λ o, tuple_eqb o hero) opps) eqn:Eeq.
      * replace (sc =? 0) with false; [done|].
        symmetry. apply Z.eqb_neq. intros Hz. by apply Hsi in Hz.
      * by destruct Hsi as [_ ->].
Qed.

Lemma count_outcome_cons o o' os :
  count_outcome o (o' :: os)
  = (if decide (o' = o) then 1 else 0) + count_outcome o os.
Proof.
  unfold count_outcome, len. rewrite filter_cons.
  destruct (decide (o' = o)); simpl length; lia.
Qed.

Lemma count_outcome_bounds os :
  0 ≤ count_outcome Win os ∧ 0 ≤ count_outcome Tie os ∧
  count_outcome Win os + count_outcome Tie os ≤ len os.
Proof.
  induction os as [|o os IH]; [done|].
  rewrite !count_outcome_cons, len_cons.
  destruct o; repeat case_decide; try done; lia.
Qed.

(** The trial loop: the counters grow by the verdicts of the
    specification, and the store grows by fresh lists only. *)
Lemma trials_run pl kl n bdl (idxs : list Z) pc kc bd :
  ∀ s (H : list (list card)) wins ties total,
  H !! pl = Some pc → H !! kl = Some kc → H !! bdl = Some bd →
  ∃ os s' ext,
    trials_spec (length idxs) pl kl n bdl (Store s H)
    = (Ok os, Store s' (H ++ ext)) ∧
    length os = length idxs ∧
    fold_M (λ _ counters, trial pl kl n bdl counters) idxs (wins, ties, total)
      (Store s H)
    = (Ok (wins + count_outcome Win os, ties + count_outcome Tie os,
           total + len os), Store s' (H ++ ext)).
Proof.
  induction idxs as [|i idxs IH]; intros s H wins ties total Hp Hk Hb.
  - exists [], s, []. rewrite app_nil_r. split_and!; [done|done|].
    simpl. unfold count_outcome, len. simpl. by rewrite !Z.add_0_r.
  - destruct (trial_run pl kl n bdl s H pc kc bd Hp Hk Hb)
      as (o & s1 & x & Hspec & Hcode).
    destruct (bump o (wins, ties, total)) as [[w1 t1] n1] eqn:Ebump.
    destruct (IH s1 (H ++ [x]) w1 t1 n1) as (os & s' & ext & Hspecs & Hlen & Hfold);
      [by apply lookup_app_l_Some ..|].
    exists (o :: os), s', (x :: ext).
    replace (H ++ x :: ext) with ((H ++ [x]) ++ ext) by (by rewrite <- app_assoc).
    split_and!.
    + cbn [length trials_spec]. rewrite (bind_run _ _ _ _ _ Hspec).
      by rewrite (bind_run _ _ _ _ _ Hspecs).
    + simpl. by rewrite Hlen.
    + cbn [fold_M]. rewrite (bind_run _ _ _ _ _ (Hcode _)). rewrite Ebump, Hfold.
      do 2 f_equal. rewrite !count_outcome_cons, len_cons.
      assert (∀ a b c a' b' c' : Z,
        a = a' → b = b' → c = c' → (a, b, c) = (a', b', c')) as Ht
        by (by intros; subst).
      destruct o; simpl in Ebump; injection Ebump as <- <- <-;
        repeat case_decide; try done; apply Ht; lia.
Qed.

Lemma simulate_run pl kl n dl sims s (H : list (list card)) pc kc dk :
  H !! pl = Some pc → H !! kl = Some kc → H !! dl = Some dk →
  ∃ os s' ext,
    (base_deck ← reduced_deck pl kl dl;
     trials_spec (Z.to_nat sims) pl kl n base_deck) (Store s H)
    = (Ok os, Store s' (H ++ ext)) ∧
    length os = Z.to_nat sims ∧
    simulate_win_probability pl kl n dl sims (Store s H)
    = (if len os =? 0 then Raise ZeroDivisionError
       else Ok (Qmake (count_outcome Win os + count_outcome Tie os)
                      (Z.to_pos (len os))),
       Store s' (H ++ ext)) ∧
    (base_deck ← reduced_deck pl kl dl; run_trials pl kl n base_deck sims)
      (Store s H)
    = (Ok (count_outcome Win os, count_outcome Tie os, len os),
       Store s' (H ++ ext)).
Proof.
  intros Hp Hk Hd.
  pose proof (reduced_deck_run pl kl dl s H pc kc dk Hp Hk Hd) as Hred.
  set (uc := pc ++ kc) in *.
  set (bd := filter (λ c, negb (py_in c uc)) dk) in *.
  assert (length (range 0 sims) = Z.to_nat sims) as Hlen.
  { unfold range. rewrite length_seqZ. f_equal. lia. }
  destruct (trials_run pl kl n (S (length H)) (range 0 sims) pc kc bd
              s (H ++ [uc; bd]) 0 0 0) as (os & s' & ext & Hspec & Hl & Hfold).
  { by apply lookup_app_l_Some. }
  { by apply lookup_app_l_Some. }
  { replace (H ++ [uc; bd]) with ((H ++ [uc]) ++ [bd]) by (by rewrite <- app_assoc).
    replace (S (length H)) with (length (H ++ [uc]))
      by (rewrite length_app; simpl; lia).
    apply lookup_last. }
  rewrite Hlen in Hspec, Hl.
  exists os, s', ([uc; bd] ++ ext). rewrite (app_assoc H). split_and!.
  - by rewrite (bind_run _ _ _ _ _ Hred).
  - done.
  - unfold simulate_win_probability, run_trials. rewrite (bind_run _ _ _ _ _ Hred).
    rewrite (bind_run _ _ _ _ _ Hfold). rewrite !Z.add_0_l.
    by destruct (len os =? 0).
  - unfold run_trials. rewrite (bind_run _ _ _ _ _ Hred).
    by rewrite Hfold, !Z.add_0_l.
Qed.

(** C2: with a positive trial count, [simulate_win_probability] returns
    [(wins + ties) / sims], where a trial counts as a loss when some
    opponent's [rank_7cards] exceeds the hero's, as a tie when none
    exceeds and one equals it, and as a win otherwise; the value lies in
    [[0, 1]].  The trials are the ones the code deals ([trials_spec]
    runs the same deals and classifies them by [classify_trial_spec]),
    and the counters of the code's loop, [run_trials], end as the number
    of wins, the number of ties and the number of trials of that
    classification. *)
Theorem simulate_win_probability_spec (player_cards known_community : loc)
    (num_opponents : Z) (deck : loc) (sims : Z) (st : store)
    (pc kc dk : list card) :
  lists st !! player_cards = Some pc →
  lists st !! known_community = Some kc →
  lists st !! deck = Some dk →
  0 < sims →
  ∃ outcomes st',
    (base_deck ← reduced_deck player_cards known_community deck;
     trials_spec (Z.to_nat sims) player_cards known_community num_opponents
       base_deck) st
    = (Ok outcomes, st') ∧
    len outcomes = sims ∧
    let wins := count_outcome Win outcomes in
    let ties := count_outcome Tie outcomes in
    (base_deck ← reduced_deck player_cards known_community deck;
     run_trials player_cards known_community num_opponents base_deck sims) st
    = (Ok (wins, ties, sims), st') ∧
    simulate_win_probability player_cards known_community num_opponents deck
      sims st
    = (Ok (Qmake (wins + ties) (Z.to_pos sims)), st') ∧
    Qle 0 (Qmake (wins + ties) (Z.to_pos sims)) ∧
    Qle (Qmake (wins + ties) (Z.to_pos sims)) 1.
Proof.
  destruct st as [s H]. simpl. intros Hp Hk Hd Hsims.
  destruct (simulate_run player_cards known_community num_opponents deck sims
              s H pc kc dk Hp Hk Hd)
    as (os & s' & ext & Hspec & Hlen & Hcode & Hcount).
  assert (len os = sims) as Hl by (unfold len; lia).
  exists os, (Store s' (H ++ ext)). split_and!; [done|done| | | |].
  - by rewrite Hcount, Hl.
  - rewrite Hcode, Hl.
    by replace (sims =? 0) with false by (symmetry; apply Z.eqb_neq; lia).
  - pose proof (count_outcome_bounds os). unfold Qle. simpl. lia.
  - pose proof (count_outcome_bounds os). unfold Qle. simpl.
    rewrite Z2Pos.id by done. lia.
Qed.

Lemma simulate_win_probability_spec_witness :
  let st := Store 1 [[(12, 0); (3, 1)];
                     [(14, 0); (14, 1); (14, 2); (13, 0)]; full_deck] in
  (∃ outcomes st',
    (base_deck ← reduced_deck 0%nat 1%nat 2%nat;
     trials_spec (Z.to_nat 4) 0%nat 1%nat 1 base_deck) st
    = (Ok outcomes, st') ∧
    len outcomes = 4 ∧
    let wins := count_outcome Win outcomes in
    let ties := count_outcome Tie outcomes in
    (base_deck ← reduced_deck 0%nat 1%nat 2%nat;
     run_trials 0%nat 1%nat 1 base_deck 4) st
    = (Ok (wins, ties, 4), st') ∧
    simulate_win_probability 0%nat 1%nat 1 2%nat 4 st
    = (Ok (Qmake (wins + ties) (Z.to_pos 4)), st') ∧
    Qle 0 (Qmake (wins + ties) (Z.to_pos 4)) ∧
    Qle (Qmake (wins + ties) (Z.to_pos 4)) 1) ∧
  ((base_deck ← reduced_deck 0%nat 1%nat 2%nat;
    trials_spec (Z.to_nat 4) 0%nat 1%nat 1 base_deck) st).1
  = Ok [Tie; Win; Win; Loss] ∧
  ((base_deck ← reduced_deck 0%nat 1%nat 2%nat;
    run_trials 0%nat 1%nat 1 base_deck 4) st).1 = Ok (2, 1, 4).
Proof.
  intros st. split_and!.
  - apply (simulate_win_probability_spec 0%nat 1%nat 1 2%nat 4 st
             [(12, 0); (3, 1)] [(14, 0); (14, 1); (14, 2); (13, 0)] full_deck);
      [reflexivity|reflexivity|reflexivity|lia].
  - vm_compute. reflexivity.
  - vm_compute. reflexivity.
Defined.

(** C10: [simulate_win_probability] leaves every list object of the
    caller as it was: the deck, the hole cards and the known community
    cards in particular, whether or not the three arguments alias.  The
    store after the call is the store before it followed by the lists
    allocated by the call. *)
Theorem simulate_win_probability_frame (player_cards known_community : loc)
    (num_opponents : Z) (deck : loc) (sims : Z) (st : store)
    (pc kc dk : list card) :
  lists st !! player_cards = Some pc →
  lists st !! known_community = Some kc →
  lists st !! deck = Some dk →
  let st' := (simulate_win_probability player_cards known_community
                num_opponents deck sims st).2 in
  lists st' !! player_cards = Some pc ∧
  lists st' !! known_community = Some kc ∧
  lists st' !! deck = Some dk ∧
  (∀ r l, lists st !! r = Some l → lists st' !! r = Some l) ∧
  (∃ fresh, lists st' = lists st ++ fresh).
Proof.
  destruct st as [s H]. simpl. intros Hp Hk Hd.
  destruct (simulate_run player_cards known_community num_opponents deck sims
              s H pc kc dk Hp Hk Hd) as (os & s' & ext & _ & _ & -> & _).
  simpl. split_and!; [by apply lookup_app_l_Some ..| |by exists ext].
  intros r l Hr. by apply lookup_app_l_Some.
Qed.

Lemma simulate_win_probability_frame_witness :
  let st := Store 5674832 [[(14, 0); (13, 0)]; []; full_deck] in
  let st' := (simulate_win_probability 0%nat 1%nat 2 2%nat 3 st).2 in
  lists st' !! 0%nat = Some [(14, 0); (13, 0)] ∧
  lists st' !! 1%nat = Some [] ∧
  lists st' !! 2%nat = Some full_deck ∧
  (∀ r l, lists st !! r = Some l → lists st' !! r = Some l) ∧
  (∃ fresh, lists st' = lists st ++ fresh).
Proof.
  intros st.
  apply (simulate_win_probability_frame 0%nat 1%nat 2 2%nat 3 st
           [(14, 0); (13, 0)] [] full_deck); reflexivity.
Defined.

(** C5, as the code has it: no cardinality or duplicate check exists.
    [rank_7cards] returns on every list (the sentinel (0,) below five
    cards), [rank_5cards] returns on every five-element list, duplicates
    included, and with a positive trial count [simulate_win_probability]
    returns whatever the size of the deck. *)
Theorem evaluators_do_not_validate :
  (∀ cards, is_ok (rank_7cards cards)) ∧
  (∀ cards, len cards < 5 → rank_7cards cards = Ok [0]) ∧
  (∀ cards5, length cards5 = 5%nat → is_ok (rank_5cards cards5)) ∧
  (∀ player_cards known_community num_opponents deck sims st pc kc dk,
     lists st !! player_cards = Some pc →
     lists st !! known_community = Some kc →
     lists st !! deck = Some dk →
     0 < sims →
     is_ok (simulate_win_probability player_cards known_community
              num_opponents deck sims st).1).
Proof.
  split_and!.
  - apply rank_7cards_ok.
  - apply rank_7cards_short.
  - intros cards5 Hlen.
    destruct (rank_5cards_ok cards5 Hlen) as (c & t & -> & _). by eexists.
  - intros pl kl n dl sims [s H] pc kc dk Hp Hk Hd Hsims. simpl in *.
    destruct (simulate_run pl kl n dl sims s H pc kc dk Hp Hk Hd)
      as (os & s' & ext & _ & Hlen & -> & _).
    simpl. replace (len os =? 0) with false; [by eexists|].
    symmetry. apply Z.eqb_neq. unfold len. lia.
Qed.

(** C5 as stated fails: five copies of one card, six cards, three cards,
    no card at all, and an empty deck all return a value. *)
Lemma contract_violations_return :
  rank_5cards [(2, 0); (2, 0); (2, 0); (2, 0); (2, 0)] = Ok [6; 2; 2; 2; 2; 2] ∧
  rank_5cards [(2, 0); (4, 1); (6, 2); (8, 3); (10, 0); (12, 1)]
    = Ok [1; 12; 10; 8; 6; 4] ∧
  rank_5cards [(5, 0); (5, 1); (5, 2)] = Ok [4; 5] ∧
  rank_7cards [] = Ok [0] ∧
  rank_7cards [(14, 0); (14, 0); (14, 0); (14, 0); (14, 0); (14, 0); (14, 0)]
    = Ok [6; 14; 14; 14; 14; 14] ∧
  (simulate_win_probability 0%nat 1%nat 1 2%nat 1
     (Store 5674832 [[(14, 0); (13, 0)]; []; []])).1 = Ok (Qmake 1 1).
Proof. split_and!; vm_compute; reflexivity. Qed.

(** * Further properties of the 5-card evaluator *)

Lemma sorted_rev_Z_id (l : list Z) : Sorted desc l → sorted_rev Z.ltb l = l.
Proof.
  intros Hs. apply (Sorted_unique desc); [apply sorted_rev_sorted|done|].
  apply sorted_rev_perm.
Qed.

Lemma list_count_all x (s : list Z) :
  Forall (λ y, y = x) s → list_count x s = len s.
Proof.
  unfold list_count, len. induction 1 as [|y s -> _ IH]; [done|].
  rewrite filter_cons. destruct (decide (x = x)); [|done]. simpl length. lia.
Qed.

Lemma flush_bit_spec (h : list card) :
  length h = 5%nat → flush_bit h = true ↔ all_same_suit h.
Proof.
  intros Hlen. unfold flush_bit.
  assert (length h.*2 = 5%nat) as Hl by (by rewrite length_fmap).
  assert (all_same_suit h ↔ ∀ x y, x ∈ h.*2 → y ∈ h.*2 → x = y) as ->.
  { unfold all_same_suit. split.
    - intros Hs x y [c [-> Hc]]%list_elem_of_fmap [c' [-> Hc']]%list_elem_of_fmap.
      by apply Hs.
    - intros Hs c c' Hc Hc'. apply Hs; by apply list_elem_of_fmap_2. }
  revert Hl. generalize (h.*2). intros s Hl.
  destruct s as [|s0 s]; [done|]. rewrite Z.eqb_eq. split.
  - intros H5.
    assert (Forall (λ y, y = s0) (s0 :: s)) as Hall.
    { apply list_count_full. unfold len. lia. }
    rewrite Forall_forall in Hall. intros x y Hx Hy.
    by rewrite (Hall x Hx), (Hall y Hy).
  - intros Hsame. rewrite list_count_all.
    + unfold len. lia.
    + apply Forall_forall. intros y Hy. apply Hsame; [done|by left].
Qed.

(** The evaluator is [eval_ranks] on the sorted ranks and the flush test. *)
Lemma rank_5cards_eval (h : list card) :
  length h = 5%nat →
  rank_5cards h = eval_ranks (sorted_rev Z.ltb h.*1) (flush_bit h).
Proof.
  intros Hlen. unfold rank_5cards, eval_ranks. cbv zeta. rewrite sorted_ranks.
  destruct (count_ranks _) as [d|]; [|done]. rsimpl.
  assert ((sorted_rev rank_ltb h).*2 ≡ₚ h.*2) as Hs by (by rewrite sorted_rev_perm).
  assert (length h.*2 = 5%nat) as Hl by (by rewrite length_fmap).
  unfold flush_bit. revert Hs Hl.
  generalize (sorted_rev rank_ltb h).*2 (h.*2). intros s s' Hs Hl.
  assert (length s = 5%nat) as Hl' by (by rewrite Hs).
  destruct s as [|x s]; [done|]. destruct s' as [|y s']; [done|].
  rewrite getitem_0. rsimpl.
  rewrite (flush_bit_perm (x :: s) (y :: s') x y Hs Hl'); [done| |]; by left.
Qed.

(** ** The rank counts and the distinct ranks of a list given by runs *)

Lemma dict_mem_false d r : dict_mem d r = false ↔ r ∉ d.*1.
Proof. unfold dict_mem, py_in. by rewrite bool_decide_eq_false. Qed.

Lemma count_rank_new d r :
  dict_mem d r = false → count_rank r d = Ok (d ++ [(r, 1)]).
Proof.
  unfold count_rank. intros Hm. rewrite Hm. revert Hm.
  induction d as [|[k v] d IH]; intros Hm.
  - simpl. by rewrite Z.eqb_refl.
  - rewrite dict_mem_cons in Hm. apply orb_false_elim in Hm as [Hk Hm].
    specialize (IH Hm). simpl. rewrite !Hk. simpl. rewrite Hk.
    destruct (dict_get (dict_set d r 0) r) as [v0|]; [|done].
    simpl in *. by injection IH as ->.
Qed.

Lemma count_rank_last d r v :
  dict_mem d r = false → count_rank r (d ++ [(r, v)]) = Ok (d ++ [(r, v + 1)]).
Proof.
  unfold count_rank. intros Hm.
  assert (dict_mem (d ++ [(r, v)]) r = true) as ->.
  { apply bool_decide_eq_true. rewrite fmap_app. apply elem_of_app. right. by left. }
  induction d as [|[k w] d IH].
  - simpl. rewrite !Z.eqb_refl. simpl. by rewrite ?Z.eqb_refl.
  - rewrite dict_mem_cons in Hm. apply orb_false_elim in Hm as [Hk Hm].
    specialize (IH Hm). simpl. rewrite !Hk.
    destruct (dict_get (d ++ [(r, v)]) r) as [v0|]; [|done].
    simpl in *. rewrite ?Hk. by injection IH as ->.
Qed.

Lemma count_rank_run d r (n : nat) v :
  dict_mem d r = false →
  fold_result count_rank (replicate n r) (d ++ [(r, v)])
  = Ok (d ++ [(r, v + Z.of_nat n)]).
Proof.
  intros Hm. revert v. induction n as [|n IH]; intros v.
  - simpl. by rewrite Z.add_0_r.
  - cbn [replicate fold_result]. rewrite (count_rank_last _ _ _ Hm). rsimpl.
    rewrite IH. do 4 f_equal. lia.
Qed.

Lemma count_ranks_groups_from (gs : list (Z * nat)) (d : dict) :
  NoDup (d.*1 ++ gs.*1) → Forall (λ g, (0 < g.2)%nat) gs →
  fold_result count_rank (expand_groups gs) d
  = Ok (d ++ ((λ '(r, n), (r, Z.of_nat n)) <$> gs)).
Proof.
  revert d. induction gs as [|[r n] gs IH]; intros d Hnd Hpos.
  - simpl. by rewrite app_nil_r.
  - apply Forall_cons in Hpos as [Hn Hpos]. simpl in Hn.
    unfold expand_groups in *. rewrite bind_cons, fold_result_app.
    assert (dict_mem d r = false) as Hm.
    { apply dict_mem_false. rewrite fmap_cons in Hnd.
      apply NoDup_app in Hnd as (_ & Hd & _). intros Hr. apply (Hd r Hr). by left. }
    destruct n as [|n]; [lia|]. cbn [replicate fold_result].
    rewrite (count_rank_new _ _ Hm). rsimpl.
    rewrite (count_rank_run _ _ _ _ Hm). rsimpl.
    rewrite IH; [|by rewrite fmap_app, <- app_assoc|done].
    rewrite fmap_cons, <- app_assoc. simpl. do 4 f_equal. lia.
Qed.

(** The counting loop on a list made of runs of pairwise distinct ranks:
    one entry per run, in order, holding the length of the run. *)
Lemma count_ranks_groups (gs : list (Z * nat)) :
  NoDup gs.*1 → Forall (λ g, (0 < g.2)%nat) gs →
  count_ranks (expand_groups gs) = Ok ((λ '(r, n), (r, Z.of_nat n)) <$> gs).
Proof. intros. by apply (count_ranks_groups_from gs []). Qed.

Lemma py_in_true (x : Z) l : py_in x l = true ↔ x ∈ l.
Proof. unfold py_in. by rewrite bool_decide_eq_true. Qed.

Lemma py_in_false (x : Z) l : py_in x l = false ↔ x ∉ l.
Proof. unfold py_in. by rewrite bool_decide_eq_false. Qed.

Lemma distinct_groups_from (gs : list (Z * nat)) (acc : list Z) :
  NoDup (acc ++ gs.*1) → Forall (λ g, (0 < g.2)%nat) gs →
  fold_left (λ acc r, if py_in r acc then acc else acc ++ [r])
    (expand_groups gs) acc
  = acc ++ gs.*1.
Proof.
  revert acc. induction gs as [|[r n] gs IH]; intros acc Hnd Hpos.
  - simpl. by rewrite app_nil_r.
  - apply Forall_cons in Hpos as [Hn Hpos]. simpl in Hn.
    unfold expand_groups in *. rewrite bind_cons, fold_left_app.
    assert (r ∉ acc) as Hr.
    { rewrite fmap_cons in Hnd. apply NoDup_app in Hnd as (_ & Hd & _).
      intros Hr. apply (Hd r Hr). by left. }
    assert (∀ m, fold_left (λ acc r, if py_in r acc then acc else acc ++ [r])
                   (replicate m r) (acc ++ [r]) = acc ++ [r]) as Hrun.
    { induction m as [|m IHm]; [done|]. cbn [replicate fold_left].
      rewrite (proj2 (py_in_true r (acc ++ [r]))); [done|].
      apply elem_of_app. right. by left. }
    destruct n as [|n]; [lia|]. cbn [replicate fold_left].
    rewrite (proj2 (py_in_false r acc) Hr), Hrun.
    rewrite IH; [|by rewrite <- app_assoc|done].
    by rewrite fmap_cons, <- app_assoc.
Qed.

Lemma distinct_groups (gs : list (Z * nat)) :
  NoDup gs.*1 → Forall (λ g, (0 < g.2)%nat) gs →
  distinct (expand_groups gs) = gs.*1.
Proof. intros. by apply (distinct_groups_from gs []). Qed.

(** ** The categories *)

Lemma rank_5cards_of_sorted (h : list card) (R : list Z) :
  h.*1 ≡ₚ R → Sorted desc R → length R = 5%nat →
  rank_5cards h = eval_ranks R (flush_bit h).
Proof.
  intros Hp Hs Hl.
  assert (length h = 5%nat) as Hlen.
  { pose proof (Permutation_length Hp) as H. rewrite length_fmap in H.
    exact (eq_trans H Hl). }
  rewrite (rank_5cards_eval h Hlen), (sorted_rev_Z_perm _ _ Hp).
  by rewrite sorted_rev_Z_id.
Qed.

Lemma detect_straight_short d :
  (length d < 5)%nat → detect_straight d = Ok (false, 0).
Proof.
  intros Hl. unfold detect_straight.
  by replace (5 <=? len d) with false
    by (symmetry; apply Z.leb_gt; unfold len; lia).
Qed.

Ltac nodup_Z :=
  repeat (apply NoDup_cons_2;
          [rewrite ?elem_of_cons, ?elem_of_nil; intuition lia|]);
  apply NoDup_nil_2.

Ltac sorted_desc :=
  repeat (apply Sorted_cons; [|first [apply HdRel_nil
                                     |apply HdRel_cons; unfold desc; lia]]);
  apply Sorted_nil.

Lemma eval_ranks_groups (gs : list (Z * nat)) f :
  NoDup gs.*1 → Forall (λ g, (0 < g.2)%nat) gs →
  eval_ranks (expand_groups gs) f
  = ('(is_straight, top) ← detect_straight gs.*1;
     classify_hand (expand_groups gs) ((λ '(r, n), (r, Z.of_nat n)) <$> gs)
       f is_straight top).
Proof.
  intros Hnd Hpos. unfold eval_ranks.
  by rewrite count_ranks_groups, distinct_groups.
Qed.

Ltac zcmp :=
  repeat match goal with
  | |- context [?x <? ?y] =>
      first [ replace (x <? y) with true by (symmetry; apply Z.ltb_lt; lia)
            | replace (x <? y) with false by (symmetry; apply Z.ltb_ge; lia) ]
  | |- context [?x =? ?y] =>
      first [ replace (x =? y) with true by (symmetry; apply Z.eqb_eq; lia)
            | replace (x =? y) with false by (symmetry; apply Z.eqb_neq; lia) ]
  end.

Ltac hand_eval :=
  unfold classify_hand, first_five;
  repeat (progress (cbn; zcmp;
    repeat match goal with
    | |- context [Z.to_nat ?n] =>
        let v := eval vm_compute in (Z.to_nat n) in change (Z.to_nat n) with v
    end;
    rewrite ?getitem_0, ?getitem_1, ?getitem_2, ?getitem_3, ?getitem_4,
      ?gather_kickers_spec, ?second_count_is_2_cons, ?andb_false_r));
  try reflexivity.

Ltac by_groups gs :=
  change (eval_ranks _ ?f) with (eval_ranks (expand_groups gs) f);
  rewrite eval_ranks_groups; [|simpl; nodup_Z|repeat constructor; simpl; lia];
  cbn [fmap list_fmap fst snd];
  repeat match goal with
  | |- context [Z.of_nat ?n] =>
      let v := eval vm_compute in (Z.of_nat n) in change (Z.of_nat n) with v
  end;
  rewrite ?detect_straight_short by (simpl; lia); rsimpl.

(** One case of a category theorem: the sorted ranks [R], their runs [gs]. *)
Ltac hand_case Hp R gs :=
  rewrite (rank_5cards_of_sorted _ R);
    [|etrans; [exact Hp|solve_Permutation]|sorted_desc|done];
  by_groups gs; hand_eval.

(** X1: four cards of rank [a] and one of rank [b] make (8, a, b),
    whatever the order of the cards and their suits. *)
Theorem rank_5cards_four_of_a_kind (h : list card) (a b : Z) :
  h.*1 ≡ₚ [a; a; a; a; b] → a ≠ b → rank_5cards h = Ok [8; a; b].
Proof.
  intros Hp Hab. destruct (Z.lt_total a b) as [Hlt|[->|Hlt]]; [|done|].
  - hand_case Hp [b; a; a; a; a] [(b, 1%nat); (a, 4%nat)].
  - hand_case Hp [a; a; a; a; b] [(a, 4%nat); (b, 1%nat)].
Qed.

Lemma rank_5cards_four_of_a_kind_witness :
  rank_5cards [(9, 0); (9, 1); (3, 2); (9, 2); (9, 3)] = Ok [8; 9; 3].
Proof.
  apply rank_5cards_four_of_a_kind; [|lia].
  apply (bool_decide_unpack _). vm_compute. exact I.
Defined.

(** X2: three cards of rank [a] and two of rank [b] make (7, a, b). *)
Theorem rank_5cards_full_house (h : list card) (a b : Z) :
  h.*1 ≡ₚ [a; a; a; b; b] → a ≠ b → rank_5cards h = Ok [7; a; b].
Proof.
  intros Hp Hab. destruct (Z.lt_total a b) as [Hlt|[->|Hlt]]; [|done|].
  - hand_case Hp [b; b; a; a; a] [(b, 2%nat); (a, 3%nat)].
  - hand_case Hp [a; a; a; b; b] [(a, 3%nat); (b, 2%nat)].
Qed.

Lemma rank_5cards_full_house_witness :
  rank_5cards [(3, 0); (13, 0); (3, 1); (3, 2); (13, 1)] = Ok [7; 3; 13].
Proof.
  apply rank_5cards_full_house; [|lia].
  apply (bool_decide_unpack _). vm_compute. exact I.
Defined.

(** X3: three cards of rank [a] and two kickers [b > c] of other ranks
    make (4, a, b, c): the kickers come in descending order. *)
Theorem rank_5cards_three_of_a_kind (h : list card) (a b c : Z) :
  h.*1 ≡ₚ [a; a; a; b; c] → a ≠ b → a ≠ c → c < b →
  rank_5cards h = Ok [4; a; b; c].
Proof.
  intros Hp Hab Hac Hcb.
  destruct (Z.lt_total a c) as [Hlt|[->|Hlt]]; [|done|].
  - hand_case Hp [b; c; a; a; a] [(b, 1%nat); (c, 1%nat); (a, 3%nat)].
  - destruct (Z.lt_total a b) as [Hlt'|[->|Hlt']]; [|done|].
    + hand_case Hp [b; a; a; a; c] [(b, 1%nat); (a, 3%nat); (c, 1%nat)].
    + hand_case Hp [a; a; a; b; c] [(a, 3%nat); (b, 1%nat); (c, 1%nat)].
Qed.

Lemma rank_5cards_three_of_a_kind_witness :
  rank_5cards [(3, 0); (13, 0); (3, 1); (3, 2); (10, 0)] = Ok [4; 3; 13; 10].
Proof.
  apply rank_5cards_three_of_a_kind; [|lia..].
  apply (bool_decide_unpack _). vm_compute. exact I.
Defined.

(** X4: two pairs of ranks [a > b] and a kicker [c] make (3, a, b, c): the
    higher pair comes first. *)
Theorem rank_5cards_two_pair (h : list card) (a b c : Z) :
  h.*1 ≡ₚ [a; a; b; b; c] → b < a → c ≠ a → c ≠ b →
  rank_5cards h = Ok [3; a; b; c].
Proof.
  intros Hp Hba Hca Hcb.
  destruct (Z.lt_total c b) as [Hlt|[->|Hlt]]; [|done|].
  - hand_case Hp [a; a; b; b; c] [(a, 2%nat); (b, 2%nat); (c, 1%nat)].
  - destruct (Z.lt_total c a) as [Hlt'|[->|Hlt']]; [|done|].
    + hand_case Hp [a; a; c; b; b] [(a, 2%nat); (c, 1%nat); (b, 2%nat)].
    + hand_case Hp [c; a; a; b; b] [(c, 1%nat); (a, 2%nat); (b, 2%nat)].
Qed.

Lemma rank_5cards_two_pair_witness :
  rank_5cards [(3, 0); (13, 0); (3, 1); (13, 2); (10, 0)] = Ok [3; 13; 3; 10].
Proof.
  apply rank_5cards_two_pair; [|lia..].
  apply (bool_decide_unpack _). vm_compute. exact I.
Defined.

(** X5: a pair of rank [a] and three kickers [b > c > d] of other ranks
    make (2, a, b, c, d). *)
Theorem rank_5cards_one_pair (h : list card) (a b c d : Z) :
  h.*1 ≡ₚ [a; a; b; c; d] → c < b → d < c → a ≠ b → a ≠ c → a ≠ d →
  rank_5cards h = Ok [2; a; b; c; d].
Proof.
  intros Hp Hcb Hdc Hab Hac Had.
  destruct (Z.lt_total a d) as [Hlt|[->|Hlt]]; [|done|].
  - hand_case Hp [b; c; d; a; a]
      [(b, 1%nat); (c, 1%nat); (d, 1%nat); (a, 2%nat)].
  - destruct (Z.lt_total a c) as [Hlt'|[->|Hlt']]; [|done|].
    + hand_case Hp [b; c; a; a; d]
        [(b, 1%nat); (c, 1%nat); (a, 2%nat); (d, 1%nat)].
    + destruct (Z.lt_total a b) as [Hlt''|[->|Hlt'']]; [|done|].
      * hand_case Hp [b; a; a; c; d]
          [(b, 1%nat); (a, 2%nat); (c, 1%nat); (d, 1%nat)].
      * hand_case Hp [a; a; b; c; d]
          [(a, 2%nat); (b, 1%nat); (c, 1%nat); (d, 1%nat)].
Qed.

Lemma rank_5cards_one_pair_witness :
  rank_5cards [(3, 0); (13, 0); (3, 1); (12, 2); (10, 0)] = Ok [2; 3; 13; 12; 10].
Proof.
  apply rank_5cards_one_pair; [|lia..].
  apply (bool_decide_unpack _). vm_compute. exact I.
Defined.

Lemma py_in_cons (x y : Z) l : py_in x (y :: l) = (y =? x) || py_in x l.
Proof.
  unfold py_in. destruct (Z.eqb_spec y x) as [->|Hne]; simpl.
  - apply bool_decide_eq_true. by left.
  - apply bool_decide_ext. rewrite elem_of_cons.
    split; [intros [?|?]; [congruence|done]|by right].
Qed.

Lemma py_in_nil (x : Z) : py_in x [] = false.
Proof. apply bool_decide_eq_false. apply not_elem_of_nil. Qed.

(** Five distinct ranks in descending order: the window test compares the
    two ends, the wheel test recognises 14, 5, 4, 3, 2. *)
Lemma detect_straight_five r0 r1 r2 r3 r4 :
  r1 < r0 → r2 < r1 → r3 < r2 → r4 < r3 →
  detect_straight [r0; r1; r2; r3; r4]
  = Ok (if r0 - r4 =? 4 then (true, r0)
        else if bool_decide ([r0; r1; r2; r3; r4] = [14; 5; 4; 3; 2])
             then (true, 5) else (false, 0)).
Proof.
  intros H1 H2 H3 H4. unfold detect_straight.
  change (5 <=? len [r0; r1; r2; r3; r4]) with true. cbv iota.
  change (range 0 (len [r0; r1; r2; r3; r4] - 4)) with [0].
  cbn [find_window].
  change (slice [r0; r1; r2; r3; r4] 0 (0 + 5)) with [r0; r1; r2; r3; r4].
  rewrite getitem_0, getitem_4. rsimpl.
  destruct (r0 - r4 =? 4); rsimpl; [done|]. cbn [negb].
  set (R := [r0; r1; r2; r3; r4]).
  case_bool_decide as Hw.
  - rewrite Hw. done.
  - match goal with |- (if ?c then _ else _) = _ => destruct c eqn:E end; [|done].
    exfalso. apply Hw.
    apply andb_prop in E as [E E2]. apply andb_prop in E as [E E3].
    apply andb_prop in E as [E E4]. apply andb_prop in E as [E14 E5].
    apply py_in_true in E14, E5, E4, E3, E2.
    symmetry. apply (Sorted_unique desc); [sorted_desc|unfold R; sorted_desc|].
    apply submseteq_length_Permutation; [|done].
    apply NoDup_submseteq; [nodup_Z|].
    intros x Hx. repeat (apply elem_of_cons in Hx as [->|Hx]; [done|]).
    by apply elem_of_nil in Hx.
Qed.

(** X6: five cards of pairwise distinct ranks [r0 > r1 > r2 > r3 > r4].
    They make a straight when [r0 - r4 = 4] (top [r0]) or when the ranks
    are 14, 5, 4, 3, 2 (top 5); with all suits equal the hand is then
    (9, top), otherwise (5, top).  Without a straight it is 6 or 1
    followed by the five ranks in descending order, 6 when all suits are
    equal. *)
Theorem rank_5cards_no_pair (h : list card) (r0 r1 r2 r3 r4 : Z) :
  h.*1 ≡ₚ [r0; r1; r2; r3; r4] → r1 < r0 → r2 < r1 → r3 < r2 → r4 < r3 →
  (flush_bit h = true ↔ all_same_suit h) ∧
  rank_5cards h
  = Ok (let straight_top :=
          if r0 - r4 =? 4 then Some r0
          else if bool_decide ([r0; r1; r2; r3; r4] = [14; 5; 4; 3; 2])
               then Some 5 else None in
        match straight_top, flush_bit h with
        | Some top, true => [9; top]
        | Some top, false => [5; top]
        | None, true => [6; r0; r1; r2; r3; r4]
        | None, false => [1; r0; r1; r2; r3; r4]
        end).
Proof.
  intros Hp H1 H2 H3 H4. split.
  { apply flush_bit_spec.
    pose proof (Permutation_length Hp) as H. by rewrite length_fmap in H. }
  rewrite (rank_5cards_of_sorted _ [r0; r1; r2; r3; r4]);
    [|done|sorted_desc|done].
  change (eval_ranks _ ?f) with
    (eval_ranks (expand_groups
       [(r0, 1%nat); (r1, 1%nat); (r2, 1%nat); (r3, 1%nat); (r4, 1%nat)]) f).
  rewrite eval_ranks_groups; [|simpl; nodup_Z|repeat constructor; simpl; lia].
  cbn [fmap list_fmap fst snd].
  change (Z.of_nat 1) with 1.
  rewrite detect_straight_five by done.
  cbv zeta.
  destruct (r0 - r4 =? 4); [|case_bool_decide]; rsimpl;
    destruct (flush_bit h); hand_eval.
Qed.

Lemma rank_5cards_no_pair_witness :
  (flush_bit [(14, 0); (3, 1); (4, 2); (5, 2); (2, 3)] = true
   ↔ all_same_suit [(14, 0); (3, 1); (4, 2); (5, 2); (2, 3)]) ∧
  rank_5cards [(14, 0); (3, 1); (4, 2); (5, 2); (2, 3)]
  = Ok (let straight_top :=
          if 14 - 2 =? 4 then Some 14
          else if bool_decide ([14; 5; 4; 3; 2] = [14; 5; 4; 3; 2])
               then Some 5 else None in
        match straight_top, flush_bit [(14, 0); (3, 1); (4, 2); (5, 2); (2, 3)] with
        | Some top, true => [9; top]
        | Some top, false => [5; top]
        | None, true => [6; 14; 5; 4; 3; 2]
        | None, false => [1; 14; 5; 4; 3; 2]
        end).
Proof.
  apply (rank_5cards_no_pair [(14, 0); (3, 1); (4, 2); (5, 2); (2, 3)] 14 5 4 3 2);
    [|lia..].
  apply (bool_decide_unpack _). vm_compute. exact I.
Defined.

(** * Further properties of the generator and the shuffle *)

Lemma insert_swap_head (t : list card) j a b :
  t !! j = Some a → a :: <[j := b]> t ≡ₚ b :: t.
Proof.
  revert j. induction t as [|x t IH]; intros [|j] Hj; try done.
  - simpl in Hj. injection Hj as ->. simpl. apply Permutation_swap.
  - simpl in *. rewrite (Permutation_swap x a), (IH j Hj).
    apply Permutation_swap.
Qed.

Lemma insert_insert_swap (l : list card) i j a b :
  l !! i = Some b → l !! j = Some a → <[j := b]> (<[i := a]> l) ≡ₚ l.
Proof.
  revert i j. induction l as [|x l IH]; intros [|i] [|j] Hi Hj; try done;
    simpl in *.
  - by injection Hi as ->.
  - injection Hi as ->. by apply insert_swap_head.
  - injection Hj as ->. by apply insert_swap_head.
  - f_equiv. by apply IH.
Qed.

Lemma swap_at_perm l i j : swap_at l i j ≡ₚ l.
Proof.
  unfold swap_at.
  destruct (l !! Z.to_nat j) eqn:Hj, (l !! Z.to_nat i) eqn:Hi; try done.
  by apply insert_insert_swap.
Qed.

Lemma shuffle_steps_perm idxs l s : (shuffle_steps idxs l s).1 ≡ₚ l.
Proof.
  unfold shuffle_steps. revert l s.
  induction idxs as [|i idxs IH]; intros l s; [done|].
  cbn [fold_left]. by rewrite IH, swap_at_perm.
Qed.

Lemma shuffle_steps_iter idxs l s :
  (shuffle_steps idxs l s).2 = Nat.iter (length idxs) lcg s.
Proof.
  unfold shuffle_steps. revert l s.
  induction idxs as [|i idxs IH]; intros l s; [done|].
  cbn [fold_left length]. rewrite IH. by rewrite Nat.iter_succ_r.
Qed.

(** X7: [shuffle_in_place] never raises; it replaces the list by a
    permutation of itself, leaves every other list alone, and advances
    the seed once per position but the first, so that lists of length 0
    or 1 are left as they are with the seed untouched. *)
Theorem shuffle_in_place_permutes (lst : loc) (st : store) (l : list card) :
  lists st !! lst = Some l →
  ∃ l',
    shuffle_in_place lst st
    = (Ok (), Store (Nat.iter (length l - 1) lcg (_seed st))
                    (<[lst := l']> (lists st))) ∧
    l' ≡ₚ l ∧
    ((length l ≤ 1)%nat → l' = l).
Proof.
  destruct st as [s H]. simpl. intros Hl.
  exists (shuffled l s).1. split_and!.
  - rewrite (shuffle_in_place_run _ _ _ _ Hl). do 2 f_equal.
    unfold shuffled. rewrite shuffle_steps_iter. f_equal.
    unfold range_down. rewrite length_fmap, length_seqZ. unfold len. lia.
  - apply shuffle_steps_perm.
  - intros Hle. unfold shuffled, range_down.
    rewrite seqZ_nil by (unfold len; lia). done.
Qed.

Lemma shuffle_in_place_permutes_witness :
  ∃ l',
    shuffle_in_place 0%nat (Store 5674832 [royal7])
    = (Ok (), Store (Nat.iter (length royal7 - 1) lcg 5674832)
                    (<[0%nat := l']> [royal7])) ∧
    l' ≡ₚ royal7 ∧
    ((length royal7 ≤ 1)%nat → l' = royal7).
Proof.
  apply (shuffle_in_place_permutes 0%nat (Store 5674832 [royal7]) royal7).
  reflexivity.
Defined.

(** * Further properties of the deck helpers *)

(** X8: [make_deck] never raises; it allocates one new list and changes
    nothing else.  The list holds 52 pairwise distinct cards: exactly the
    pairs of a rank in 2..14 and a suit in 0..3, ordered by rank and then
    by suit. *)
Theorem make_deck_spec (st : store) :
  ∃ deck,
    make_deck st = (Ok (length (lists st)), Store (_seed st) (lists st ++ [deck])) ∧
    length deck = 52%nat ∧
    NoDup deck ∧
    (∀ rank suit, (rank, suit) ∈ deck ↔ 2 ≤ rank ≤ 14 ∧ 0 ≤ suit ≤ 3) ∧
    (∀ rank suit, 2 ≤ rank ≤ 14 → 0 ≤ suit ≤ 3 →
       deck !! Z.to_nat (4 * (rank - 2) + suit) = Some (rank, suit)).
Proof.
  destruct st as [s H]. exists full_deck. split_and!.
  - apply make_deck_run.
  - done.
  - apply full_deck_NoDup.
  - intros rank suit. unfold full_deck, range. rewrite list_elem_of_bind. split.
    + intros (r & Hin & Hr). apply list_elem_of_fmap in Hin as (su & Heq & Hsu).
      injection Heq as -> ->. apply elem_of_seqZ in Hr, Hsu. lia.
    + intros [Hr Hs]. exists rank. split.
      * apply list_elem_of_fmap. exists suit. split; [done|].
        apply elem_of_seqZ. lia.
      * apply elem_of_seqZ. lia.
  - intros rank suit Hr Hs.
    assert (∃ i j : nat, rank = 2 + Z.of_nat i ∧ suit = Z.of_nat j ∧
              (i < 13)%nat ∧ (j < 4)%nat) as (i & j & -> & -> & Hi & Hj).
    { exists (Z.to_nat (rank - 2)), (Z.to_nat suit). lia. }
    do 13 (destruct i as [|i]; [do 4 (destruct j as [|j]; [reflexivity|]); lia|]).
    lia.
Qed.

(** * Further properties of the 7-card evaluator *)

Lemma tuple_gtb_sentinel c t : 1 ≤ c → tuple_gtb (c :: t) [0] = true.
Proof.
  intros Hc. unfold tuple_gtb. cbn [tuple_ltb].
  replace (0 =? c) with false by (symmetry; apply Z.eqb_neq; lia).
  apply Z.ltb_lt. lia.
Qed.

(** X9: on exactly five cards [rank_7cards] is [rank_5cards]: the single
    combination always beats the sentinel (0,). *)
Theorem rank_7cards_five (cards : list card) :
  length cards = 5%nat → rank_7cards cards = rank_5cards cards.
Proof.
  intros Hlen.
  destruct (rank_5cards_ok cards Hlen) as (c & t & Hr & Hc).
  destruct cards as [|a [|b [|c0 [|d [|e [|]]]]]]; try done.
  rewrite rank_7cards_flat.
  change (idx5 (len [a; b; c0; d; e])) with [(0, 1, 2, 3, 4)].
  cbn [fold_result visit]. rewrite getitem_0, getitem_1, getitem_2, getitem_3, getitem_4.
  rsimpl. rewrite Hr. rsimpl. rewrite tuple_gtb_sentinel by lia. done.
Qed.

Lemma rank_7cards_five_witness :
  rank_7cards [(14, 0); (3, 1); (4, 2); (5, 2); (2, 3)]
  = rank_5cards [(14, 0); (3, 1); (4, 2); (5, 2); (2, 3)].
Proof. apply rank_7cards_five. reflexivity. Defined.

(** The maximum over the sub-multisets of seven cards. *)
Lemma rank_7cards_seven_max (cards7 : list card) :
  length cards7 = 7%nat →
  ∃ best, rank_7cards cards7 = Ok best ∧
    (∀ s, s ⊆+ cards7 → length s = 5%nat →
       ∃ r, rank_5cards s = Ok r ∧ tuple_leb r best = true) ∧
    (∃ s, s ⊆+ cards7 ∧ length s = 5%nat ∧ rank_5cards s = Ok best).
Proof.
  intros Hlen.
  destruct cards7 as [|a [|b [|c [|d [|e [|f [|g [|]]]]]]]]; try done.
  rewrite rank_7cards_seven.
  set (cards7 := [a; b; c; d; e; f; g]) in *.
  destruct (best_of_spec (combinations 5 cards7) [0])
    as (best & Hbest & _ & Hub & Hwit).
  { apply Forall_forall. by intros s [_ ?]%elem_of_combinations. }
  exists best. split_and!; [done| |].
  - intros s Hsub Hl5.
    apply submseteq_sublist_r in Hsub as (s' & Hp & Hs).
    destruct (Hub s') as (r & Hr & Hle).
    { apply elem_of_combinations. split; [done|]. by rewrite <- Hp. }
    exists r. split; [|done]. by rewrite (rank_5cards_perm _ _ Hl5 Hp).
  - destruct Hwit as [->|(s & Hs & Hr)].
    + destruct (Hub [a; b; c; d; e]) as (r & Hr & Hle).
      { apply elem_of_combinations. split; [|done].
        do 5 apply sublist_skip. apply sublist_nil_l. }
      destruct (rank_5cards_ok [a; b; c; d; e]) as (cat & t & Hr' & Hcat); [done|].
      rewrite Hr in Hr'. injection Hr' as ->. simpl in Hle.
      destruct (Z.eqb_spec cat 0); [lia|]. apply Z.ltb_lt in Hle. lia.
    + apply elem_of_combinations in Hs as [Hs Hl].
      exists s. split_and!; [by apply sublist_submseteq|done|done].
Qed.

(** X10: on seven cards the result of [rank_7cards] does not depend on
    the order of the cards, so that hole cards and board may be
    concatenated either way. *)
Theorem rank_7cards_permutation_invariant (cards7 cards7' : list card) :
  length cards7 = 7%nat → cards7 ≡ₚ cards7' →
  ∃ r, rank_7cards cards7 = Ok r ∧ rank_7cards cards7' = Ok r.
Proof.
  intros Hlen Hp.
  assert (length cards7' = 7%nat) as Hlen' by (by rewrite <- Hp).
  destruct (rank_7cards_seven_max cards7 Hlen)
    as (best & Hb & Hub & s & Hs & Hl & Hr).
  destruct (rank_7cards_seven_max cards7' Hlen')
    as (best' & Hb' & Hub' & s' & Hs' & Hl' & Hr').
  exists best. split; [done|]. rewrite Hb'. f_equal.
  apply tuple_leb_antisym.
  - destruct (Hub s') as (r & Hr2 & Hle); [by rewrite Hp|done|].
    rewrite Hr' in Hr2. by injection Hr2 as ->.
  - destruct (Hub' s) as (r & Hr2 & Hle); [by rewrite <- Hp|done|].
    rewrite Hr in Hr2. by injection Hr2 as ->.
Qed.

Lemma rank_7cards_permutation_invariant_witness :
  ∃ r, rank_7cards royal7 = Ok r ∧ rank_7cards (reverse royal7) = Ok r.
Proof.
  apply rank_7cards_permutation_invariant; [reflexivity|].
  apply (bool_decide_unpack _). vm_compute. exact I.
Defined.

(** * When the 5-card evaluator raises *)

Lemma getitem_out_of_range {A} (l : list A) i :
  len l ≤ i → getitem l i = Raise IndexError.
Proof.
  intros Hi. pose proof (len_nonneg l). unfold getitem, norm_index.
  replace (i <? len l) with false by (symmetry; apply Z.ltb_ge; lia).
  replace (i <? 0) with false by (symmetry; apply Z.ltb_ge; lia).
  by rewrite !andb_false_r.
Qed.

Ltac getitem_eval :=
  repeat (first [ rewrite getitem_0 | rewrite getitem_1 | rewrite getitem_2
                | rewrite getitem_3 | rewrite getitem_4
                | rewrite getitem_out_of_range by (unfold len; simpl; lia) ];
          rsimpl).

Lemma first_five_short (ranks : list Z) :
  (length ranks < 5)%nat → first_five ranks = Raise IndexError.
Proof.
  intros Hlen. unfold first_five.
  destruct ranks as [|x0 [|x1 [|x2 [|x3 [|x4 ?]]]]]; simpl in Hlen; try lia;
    by getitem_eval.
Qed.

Lemma first_five_long (ranks : list Z) :
  (5 ≤ length ranks)%nat → is_ok (first_five ranks).
Proof.
  intros Hlen. unfold first_five.
  destruct ranks as [|x0 [|x1 [|x2 [|x3 [|x4 ?]]]]]; simpl in Hlen; try lia.
  getitem_eval. by eexists.
Qed.

Lemma sum_fst_pos_nil t : Forall (λ p, 1 ≤ p.1) t → sum_fst t ≤ 0 → t = [].
Proof.
  destruct 1 as [|p t Hp Ht]; [done|]. simpl.
  pose proof (sum_fst_nonneg t Ht). lia.
Qed.

Lemma distinct_length (ranks : list Z) : (length (distinct ranks) ≤ length ranks)%nat.
Proof.
  unfold distinct.
  cut (∀ acc, (length (fold_left (λ acc r, if py_in r acc then acc else acc ++ [r])
                         ranks acc) ≤ length acc + length ranks)%nat).
  { intros H. apply (H []). }
  induction ranks as [|r ranks IH]; intros acc; simpl; [lia|].
  etrans; [apply IH|]. destruct (py_in r acc); rewrite ?length_app; simpl; lia.
Qed.

Lemma classify_hand_short ranks (d : dict) :
  (length ranks < 5)%nat → sum_counts d = len ranks → Forall (λ kv, 1 ≤ kv.2) d →
  classify_hand ranks d false false 0 = Raise IndexError ∨
  ∃ trip kickers, classify_hand ranks d false false 0 = Ok (4 :: trip :: kickers).
Proof.
  intros Hlen Hsum Hpos. unfold classify_hand. cbn [andb]. cbv zeta.
  set (crp := sorted_rev pair_ltb _).
  assert (sum_fst crp < 5) as Hs.
  { unfold crp. rewrite (sum_fst_perm _ _ (sorted_rev_perm _ _)).
    rewrite sum_fst_swap, Hsum. unfold len. lia. }
  assert (Forall (λ p, 1 ≤ p.1) crp) as Hp.
  { unfold crp. rewrite sorted_rev_perm. apply Forall_fmap.
    eapply Forall_impl; [exact Hpos|]. by intros [??]. }
  clearbody crp.
  destruct crp as [|[c0 r0] rest]; [left; by getitem_eval|].
  apply Forall_cons in Hp as [Hc0 Hp]. simpl in Hc0, Hs.
  pose proof (sum_fst_nonneg rest Hp) as Hrest.
  rewrite fmap_cons. getitem_eval.
  destruct (Z.eqb_spec c0 4) as [->|_].
  { rewrite (sum_fst_pos_nil rest Hp) by lia. left. by getitem_eval. }
  destruct (Z.eqb_spec c0 3) as [->|_].
  { right. rewrite gather_kickers_spec. rsimpl.
    destruct rest as [|[c1 r1] rest].
    - by eexists _, _.
    - rewrite fmap_cons, second_count_is_2_cons.
      apply Forall_cons in Hp as [Hc1 Hp]. simpl in Hc1, Hs, Hrest.
      pose proof (sum_fst_nonneg rest Hp). rsimpl.
      replace (c1 =? 2) with false by (symmetry; apply Z.eqb_neq; lia).
      rsimpl. by eexists _, _. }
  destruct (Z.eqb_spec c0 2) as [->|_].
  { left. rewrite gather_kickers_spec. rsimpl.
    change (drop 1 ((2, r0) :: rest)) with rest.
    assert ((length (sorted_rev Z.ltb (kick_list rest)) < 3)%nat) as Hk3.
    { rewrite sorted_rev_length.
      pose proof (kick_list_length rest Hp) as Hk. unfold len in Hk. lia. }
    destruct rest as [|[c1 r1] rest].
    - by getitem_eval.
    - rewrite fmap_cons, second_count_is_2_cons. rsimpl.
      apply Forall_cons in Hp as [Hc1 Hp]. simpl in Hc1, Hs, Hrest.
      destruct (Z.eqb_spec c1 2) as [->|_].
      + rewrite (sum_fst_pos_nil rest Hp) by lia. by getitem_eval.
      + destruct (sorted_rev Z.ltb (kick_list ((c1, r1) :: rest)))
          as [|k0 [|k1 [|k2 ?]]]; simpl in Hk3; try lia; by getitem_eval. }
  left. by rewrite first_five_short.
Qed.

Lemma rank_5cards_short (cards : list card) :
  (length cards < 5)%nat →
  rank_5cards cards = Raise IndexError ∨
  ∃ trip kickers, rank_5cards cards = Ok (4 :: trip :: kickers).
Proof.
  intros Hlen. unfold rank_5cards. cbv zeta.
  pose proof (sorted_rev_length rank_ltb cards) as Hs.
  revert Hs. generalize (sorted_rev rank_ltb cards). intros sorted_cards Hs.
  assert ((length sorted_cards < 5)%nat) as Hl by (rewrite Hs; exact Hlen).
  destruct (count_ranks_spec sorted_cards.*1) as (d & -> & Hsum & Hpos). rsimpl.
  destruct sorted_cards as [|[r0 s0] rest] eqn:E; [left; by getitem_eval|].
  rewrite <- E in *.
  assert (getitem sorted_cards.*2 0 = Ok s0) as -> by (rewrite E; apply getitem_0).
  rsimpl.
  replace (list_count s0 sorted_cards.*2 =? 5) with false.
  2:{ symmetry. apply Z.eqb_neq. unfold list_count, len.
      pose proof (length_filter (λ y, y = s0) sorted_cards.*2) as Hf.
      assert ((length sorted_cards.*2 < 5)%nat) as Hl2
        by (rewrite length_fmap; exact Hl).
      lia. }
  rewrite detect_straight_short.
  2:{ eapply Nat.le_lt_trans; [apply distinct_length|]. by rewrite length_fmap. }
  rsimpl. apply classify_hand_short; [by rewrite length_fmap|done|done].
Qed.

Lemma classify_hand_long ranks (d : dict) is_flush is_straight top :
  (5 ≤ length ranks)%nat → sum_counts d = len ranks →
  Forall (λ kv, 1 ≤ kv.2) d →
  is_ok (classify_hand ranks d is_flush is_straight top).
Proof.
  intros Hlen Hsum Hpos. unfold classify_hand.
  destruct (is_flush && is_straight); [by eexists|].
  cbv zeta.
  set (crp := sorted_rev pair_ltb _).
  assert (5 ≤ sum_fst crp) as Hs.
  { unfold crp. rewrite (sum_fst_perm _ _ (sorted_rev_perm _ _)).
    rewrite sum_fst_swap, Hsum. unfold len. lia. }
  assert (Forall (λ p, 1 ≤ p.1) crp) as Hp.
  { unfold crp. rewrite sorted_rev_perm. apply Forall_fmap.
    eapply Forall_impl; [exact Hpos|]. by intros [??]. }
  clearbody crp.
  destruct (first_five_long ranks Hlen) as [r5 Hr5].
  destruct crp as [|[c0 r0] rest]; [simpl in Hs; lia|].
  apply Forall_cons in Hp as [Hc0 Hp]. simpl in Hc0, Hs.
  rewrite fmap_cons, !getitem_0. rsimpl.
  destruct (Z.eqb_spec c0 4) as [->|_].
  { destruct rest as [|[c1 r1] rest]; [simpl in Hs; lia|].
    rewrite getitem_1. rsimpl. by eexists. }
  destruct (Z.eqb_spec c0 3) as [->|_].
  { rewrite gather_kickers_spec. rsimpl.
    change (drop 1 ((3, r0) :: rest)) with rest.
    generalize (sorted_rev Z.ltb (kick_list rest)). intros kickers.
    destruct rest as [|[c1 r1] rest].
    - by eexists.
    - rewrite fmap_cons, second_count_is_2_cons, getitem_1. rsimpl.
      destruct (c1 =? 2); by eexists. }
  destruct (Z.eqb_spec c0 2) as [->|_].
  { rewrite gather_kickers_spec. rsimpl.
    change (drop 1 ((2, r0) :: rest)) with rest.
    assert ((3 ≤ length (sorted_rev Z.ltb (kick_list rest)))%nat) as Hk3.
    { rewrite sorted_rev_length.
      pose proof (kick_list_length rest Hp) as Hk. unfold len in Hk. lia. }
    destruct (sorted_rev Z.ltb (kick_list rest)) as [|k0 [|k1 [|k2 ?]]];
      simpl in Hk3; try lia.
    destruct rest as [|[c1 r1] rest]; [simpl in Hs; lia|].
    rewrite fmap_cons, second_count_is_2_cons, getitem_1. rsimpl.
    destruct (Z.eqb_spec c1 2) as [->|_].
    - apply Forall_cons in Hp as [_ Hp]. pose proof (sum_fst_nonneg _ Hp).
      destruct rest as [|[c2 r2] rest]; [simpl in Hs; lia|].
      rewrite getitem_2. rsimpl. destruct (r0 <? r1); by eexists.
    - rewrite getitem_0, getitem_1, getitem_2. rsimpl. by eexists. }
  rewrite Hr5. rsimpl. destruct is_flush; [|destruct is_straight]; by eexists.
Qed.

Lemma rank_5cards_long (cards : list card) :
  (5 ≤ length cards)%nat → is_ok (rank_5cards cards).
Proof.
  intros Hlen. unfold rank_5cards. cbv zeta.
  pose proof (sorted_rev_length rank_ltb cards) as Hs.
  revert Hs. generalize (sorted_rev rank_ltb cards). intros sorted_cards Hs.
  assert ((5 ≤ length sorted_cards)%nat) as Hl by (rewrite Hs; exact Hlen).
  destruct (count_ranks_spec sorted_cards.*1) as (d & -> & Hsum & Hpos). rsimpl.
  destruct sorted_cards as [|[r0 s0] rest] eqn:E; [simpl in Hl; lia|].
  rewrite <- E in *.
  assert (getitem sorted_cards.*2 0 = Ok s0) as -> by (rewrite E; apply getitem_0).
  rsimpl.
  destruct (detect_straight_ok (distinct sorted_cards.*1)) as (b & t & ->). rsimpl.
  apply classify_hand_long; [by rewrite length_fmap|done|done].
Qed.

(** X11: [rank_5cards] raises nothing but [IndexError], and only when
    given fewer than five cards.  It raises on the empty list; on one to
    four cards it raises unless it finds a group of three, in which case
    it returns a category-4 tuple. *)
Theorem rank_5cards_raises_only_on_short_input :
  (∀ cards e, rank_5cards cards = Raise e →
     e = IndexError ∧ (length cards < 5)%nat) ∧
  rank_5cards [] = Raise IndexError ∧
  (∀ cards r, (length cards < 5)%nat → rank_5cards cards = Ok r →
     ∃ trip kickers, r = 4 :: trip :: kickers).
Proof.
  split_and!.
  - intros cards e He.
    destruct (Nat.lt_ge_cases (length cards) 5) as [Hlt|Hge].
    + destruct (rank_5cards_short cards Hlt) as [Hr|(trip & k & Hr)];
        rewrite Hr in He; [|done]. by injection He as <-.
    + destruct (rank_5cards_long cards Hge) as [r Hr]. by rewrite Hr in He.
  - done.
  - intros cards r Hlt Hr.
    destruct (rank_5cards_short cards Hlt) as [Hr'|(trip & k & Hr')];
      rewrite Hr' in Hr; [done|]. injection Hr as <-. by exists trip, k.
Qed.

(** * Further properties of the Monte Carlo estimator *)

Lemma trial_spec_run pl kl n bdl s (H : list (list card)) pc kc bd :
  H !! pl = Some pc → H !! kl = Some kc → H !! bdl = Some bd →
  trial_spec pl kl n bdl (Store s H)
  = (trial_verdict pc (deal_of kc (shuffled bd s).1 n),
     Store (shuffled bd s).2 (H ++ [(shuffled bd s).1])).
Proof.
  intros Hp Hk Hb. unfold trial_spec, trial_verdict.
  rewrite (bind_run _ _ _ _ _ (deal_trial_run kl bdl n s H kc bd Hk Hb)).
  destruct (deal_of kc (shuffled bd s).1 n) as [full opp_holes]. cbn [fst snd].
  rewrite (bind_run _ _ _ _ _
    (read_run pl _ _ pc (lookup_app_l_Some _ _ _ _ Hp))).
  unfold lift, mbind at 1 2, M_bind.
  destruct (rank_7cards (pc ++ full)) as [hero|]; [|done]. rsimpl.
  by destruct (map_result _ opp_holes).
Qed.

(** One trial: the seed after the shuffle and the private copy left in
    the store. *)
Lemma trial_run_explicit pl kl n bdl s (H : list (list card)) pc kc bd :
  H !! pl = Some pc → H !! kl = Some kc → H !! bdl = Some bd →
  ∃ o,
    trial_verdict pc (deal_of kc (shuffled bd s).1 n) = Ok o ∧
    ∀ counters,
      trial pl kl n bdl counters (Store s H)
      = (Ok (bump o counters),
         Store (shuffled bd s).2 (H ++ [(shuffled bd s).1])).
Proof.
  intros Hp Hk Hb.
  destruct (trial_run pl kl n bdl s H pc kc bd Hp Hk Hb)
    as (o & s' & x & Hspec & Hcode).
  rewrite (trial_spec_run pl kl n bdl s H pc kc bd Hp Hk Hb) in Hspec.
  injection Hspec as Ho Hs Hx. apply app_inv_head in Hx. injection Hx as Hx.
  exists o. split; [done|]. intros counters. by rewrite Hcode, Hs, Hx.
Qed.

Lemma shuffled_iter l s : (shuffled l s).2 = Nat.iter (length l - 1) lcg s.
Proof.
  unfold shuffled. rewrite shuffle_steps_iter. f_equal.
  unfold range_down. rewrite length_fmap, length_seqZ. unfold len. lia.
Qed.

Lemma trials_store pl kl n bdl (idxs : list Z) pc kc bd :
  ∀ s (H : list (list card)) counters,
  H !! pl = Some pc → H !! kl = Some kc → H !! bdl = Some bd →
  ∃ counters' copies,
    fold_M (λ _ counters, trial pl kl n bdl counters) idxs counters (Store s H)
    = (Ok counters',
       Store (Nat.iter (length idxs * (length bd - 1)) lcg s) (H ++ copies)) ∧
    length copies = length idxs ∧
    Forall (λ x, x ≡ₚ bd) copies.
Proof.
  induction idxs as [|i idxs IH]; intros s H counters Hp Hk Hb.
  - exists counters, []. by rewrite app_nil_r.
  - destruct (trial_run_explicit pl kl n bdl s H pc kc bd Hp Hk Hb)
      as (o & _ & Hcode).
    destruct (IH (shuffled bd s).2 (H ++ [(shuffled bd s).1]) (bump o counters))
      as (c' & copies & Hfold & Hlen & Hall); [by apply lookup_app_l_Some ..|].
    exists c', ((shuffled bd s).1 :: copies). split_and!.
    + cbn [fold_M]. rewrite (bind_run _ _ _ _ _ (Hcode _)), Hfold.
      rewrite <- app_assoc. do 2 f_equal.
      rewrite shuffled_iter, <- Nat.iter_add. f_equal. simpl. lia.
    + simpl. by rewrite Hlen.
    + constructor; [apply shuffle_steps_perm|done].
Qed.

Lemma filter_py_in (uc dk : list card) :
  filter (λ c, negb (py_in c uc)) dk = filter (λ c, c ∉ uc) dk.
Proof.
  apply list_filter_iff. intros c. unfold py_in.
  rewrite negb_True, bool_decide_spec. done.
Qed.

Lemma simulate_unfold pl kl n dl sims s (H : list (list card)) pc kc dk :
  H !! pl = Some pc → H !! kl = Some kc → H !! dl = Some dk →
  let bd := filter (λ c, c ∉ pc ++ kc) dk in
  ∃ wins ties total copies,
    simulate_win_probability pl kl n dl sims (Store s H)
    = (if total =? 0 then Raise ZeroDivisionError
       else Ok (Qmake (wins + ties) (Z.to_pos total)),
       Store (Nat.iter (Z.to_nat sims * (length bd - 1)) lcg s)
             (H ++ [pc ++ kc; bd] ++ copies)) ∧
    length copies = Z.to_nat sims ∧
    Forall (λ x, x ≡ₚ bd) copies.
Proof.
  intros Hp Hk Hd bd.
  pose proof (reduced_deck_run pl kl dl s H pc kc dk Hp Hk Hd) as Hred.
  rewrite filter_py_in in Hred. fold bd in Hred.
  assert (length (range 0 sims) = Z.to_nat sims) as Hlen.
  { unfold range. rewrite length_seqZ. f_equal. lia. }
  destruct (trials_store pl kl n (S (length H)) (range 0 sims) pc kc bd
              s (H ++ [pc ++ kc; bd]) (0, 0, 0))
    as ([[wins ties] total] & copies & Hfold & Hl & Hall).
  { by apply lookup_app_l_Some. }
  { by apply lookup_app_l_Some. }
  { replace (H ++ [pc ++ kc; bd]) with ((H ++ [pc ++ kc]) ++ [bd])
      by (by rewrite <- app_assoc).
    replace (S (length H)) with (length (H ++ [pc ++ kc]))
      by (rewrite length_app; simpl; lia).
    apply lookup_last. }
  rewrite Hlen in Hfold, Hl.
  exists wins, ties, total, copies. split_and!; [|done|done].
  unfold simulate_win_probability, run_trials. rewrite (bind_run _ _ _ _ _ Hred).
  rewrite (bind_run _ _ _ _ _ Hfold). rewrite <- app_assoc.
  by destruct (total =? 0).
Qed.

(** X12: what a call of [simulate_win_probability] leaves behind.  The
    store grows by the list of used cards, by the reduced deck (the deck
    without the hero's and the known community cards, in deck order) and
    by one shuffled copy of the reduced deck per trial; the seed advances
    once per trial and per position of the reduced deck but the first. *)
Theorem simulate_win_probability_effects (player_cards known_community : loc)
    (num_opponents : Z) (deck : loc) (sims : Z) (st : store)
    (pc kc dk : list card) :
  lists st !! player_cards = Some pc →
  lists st !! known_community = Some kc →
  lists st !! deck = Some dk →
  let base_deck := filter (λ c, c ∉ pc ++ kc) dk in
  let st' := (simulate_win_probability player_cards known_community
                num_opponents deck sims st).2 in
  ∃ copies,
    lists st' = lists st ++ [pc ++ kc; base_deck] ++ copies ∧
    length copies = Z.to_nat sims ∧
    Forall (λ x, x ≡ₚ base_deck) copies ∧
    _seed st' = Nat.iter (Z.to_nat sims * (length base_deck - 1)) lcg (_seed st).
Proof.
  destruct st as [s H]. simpl. intros Hp Hk Hd.
  destruct (simulate_unfold player_cards known_community num_opponents deck sims
              s H pc kc dk Hp Hk Hd) as (w & t & n & copies & -> & Hl & Hall).
  by exists copies.
Qed.

Lemma simulate_win_probability_effects_witness :
  let st := Store 5674832 [[(14, 0); (13, 0)]; []; full_deck] in
  let base_deck := filter (λ c, c ∉ [(14, 0); (13, 0)] ++ []) full_deck in
  let st' := (simulate_win_probability 0%nat 1%nat 2 2%nat 3 st).2 in
  ∃ copies,
    lists st' = lists st ++ [[(14, 0); (13, 0)] ++ []; base_deck] ++ copies ∧
    length copies = Z.to_nat 3 ∧
    Forall (λ x, x ≡ₚ base_deck) copies ∧
    _seed st' = Nat.iter (Z.to_nat 3 * (length base_deck - 1)) lcg (_seed st).
Proof.
  intros st.
  apply (simulate_win_probability_effects 0%nat 1%nat 2 2%nat 3 st
           [(14, 0); (13, 0)] [] full_deck); reflexivity.
Defined.

(** X13: with a trial count of zero or less no trial is run and the final
    division raises [ZeroDivisionError]; the used cards and the reduced
    deck have been built by then, the seed is untouched. *)
Theorem simulate_win_probability_no_trials (player_cards known_community : loc)
    (num_opponents : Z) (deck : loc) (sims : Z) (st : store)
    (pc kc dk : list card) :
  lists st !! player_cards = Some pc →
  lists st !! known_community = Some kc →
  lists st !! deck = Some dk →
  sims ≤ 0 →
  simulate_win_probability player_cards known_community num_opponents deck
    sims st
  = (Raise ZeroDivisionError,
     Store (_seed st)
       (lists st ++ [pc ++ kc; filter (λ c, c ∉ pc ++ kc) dk])).
Proof.
  destruct st as [s H]. simpl. intros Hp Hk Hd Hsims.
  pose proof (reduced_deck_run player_cards known_community deck s H pc kc dk
                Hp Hk Hd) as Hred.
  rewrite filter_py_in in Hred.
  unfold simulate_win_probability, run_trials. rewrite (bind_run _ _ _ _ _ Hred).
  unfold range. rewrite seqZ_nil by lia. done.
Qed.

Lemma simulate_win_probability_no_trials_witness :
  simulate_win_probability 0%nat 1%nat 2 2%nat 0
    (Store 5674832 [[(14, 0); (13, 0)]; []; full_deck])
  = (Raise ZeroDivisionError,
     Store 5674832
       ([[(14, 0); (13, 0)]; []; full_deck] ++
        [[(14, 0); (13, 0)] ++ [];
         filter (λ c, c ∉ [(14, 0); (13, 0)] ++ []) full_deck])).
Proof.
  apply (simulate_win_probability_no_trials 0%nat 1%nat 2 2%nat 0
           (Store 5674832 [[(14, 0); (13, 0)]; []; full_deck])
           [(14, 0); (13, 0)] [] full_deck); [reflexivity..|lia].
Defined.

(** X14: the deck reduction inlined in [simulate_win_probability] builds
    the list that [remove_cards_from_deck] builds for the hero's cards
    followed by the known community cards; on a deck without duplicates
    that holds these cards once each, it is shorter than the deck by
    their number. *)
Theorem reduced_deck_is_remove_cards (player_cards known_community deck : loc)
    (st : store) (pc kc dk : list card) :
  lists st !! player_cards = Some pc →
  lists st !! known_community = Some kc →
  lists st !! deck = Some dk →
  ∃ kept,
    reduced_deck player_cards known_community deck st
    = (Ok (S (length (lists st))),
       Store (_seed st) (lists st ++ [pc ++ kc; kept])) ∧
    remove_cards_from_deck deck (pc ++ kc) st
    = (Ok (length (lists st)), Store (_seed st) (lists st ++ [kept])) ∧
    (NoDup dk → NoDup (pc ++ kc) → pc ++ kc ⊆ dk →
     (length kept + length pc + length kc = length dk)%nat).
Proof.
  destruct st as [s H]. simpl. intros Hp Hk Hd.
  exists (filter (λ c, c ∉ pc ++ kc) dk). split_and!.
  - rewrite (reduced_deck_run _ _ _ _ _ pc kc dk) by done.
    by rewrite filter_py_in.
  - by apply remove_cards_from_deck_run.
  - intros Hnd Hnu Hsub.
    pose proof (filter_not_in_length (pc ++ kc) dk Hnd Hnu Hsub) as Hl.
    rewrite length_app in Hl. lia.
Qed.

Lemma reduced_deck_is_remove_cards_witness :
  let st := Store 5674832 [[(14, 0); (13, 0)]; [(2, 1)]; full_deck] in
  ∃ kept,
    reduced_deck 0%nat 1%nat 2%nat st
    = (Ok (S (length (lists st))),
       Store (_seed st) (lists st ++ [[(14, 0); (13, 0)] ++ [(2, 1)]; kept])) ∧
    remove_cards_from_deck 2%nat ([(14, 0); (13, 0)] ++ [(2, 1)]) st
    = (Ok (length (lists st)), Store (_seed st) (lists st ++ [kept])) ∧
    (NoDup full_deck → NoDup ([(14, 0); (13, 0)] ++ [(2, 1)]) →
     [(14, 0); (13, 0)] ++ [(2, 1)] ⊆ full_deck →
     (length kept + length [(14, 0); (13, 0)] + length [(2, 1)]
      = length full_deck)%nat).
Proof.
  intros st.
  apply (reduced_deck_is_remove_cards 0%nat 1%nat 2%nat st
           [(14, 0); (13, 0)] [(2, 1)] full_deck); reflexivity.
Defined.

Lemma slice_to_nonneg {A} (l : list A) k :
  0 ≤ k → slice_to l k = take (Z.to_nat k) l.
Proof.
  intros Hk. unfold slice_to, slice, clamp_index. pose proof (len_nonneg l).
  replace (0 <? 0) with false by done.
  replace (k <? 0) with false by (symmetry; apply Z.ltb_ge; lia).
  replace (Z.to_nat (Z.min (len l) (Z.max 0 0))) with 0%nat by lia.
  rewrite Nat.sub_0_r, drop_0.
  destruct (Z.le_gt_cases k (len l)).
  - f_equal. lia.
  - rewrite !take_ge; [done|unfold len in *; lia..].
Qed.

Lemma slice_from_nonneg {A} (l : list A) k :
  0 ≤ k → slice_from l k = drop (Z.to_nat k) l.
Proof.
  intros Hk. unfold slice_from, clamp_index. pose proof (len_nonneg l).
  replace (k <? 0) with false by (symmetry; apply Z.ltb_ge; lia).
  destruct (Z.le_gt_cases k (len l)).
  - f_equal. lia.
  - rewrite !drop_ge; [done|unfold len in *; lia..].
Qed.

Lemma deal_holes_chunks (idxs : list Z) acc (sd : list card) :
  fold_left (λ '(opp_holes, sim_deck) _opp,
    let hole := slice_to sim_deck 2 in
    let sim_deck := slice_from sim_deck 2 in
    (opp_holes ++ [hole], sim_deck)) idxs (acc, sd)
  = (acc ++ chunks (length idxs) sd, drop (2 * length idxs) sd).
Proof.
  revert acc sd. induction idxs as [|i idxs IH]; intros acc sd.
  - simpl. by rewrite app_nil_r.
  - cbn [fold_left length chunks]. rewrite IH.
    rewrite slice_to_nonneg, slice_from_nonneg by lia.
    change (Z.to_nat 2) with 2%nat.
    rewrite <- app_assoc, drop_drop. do 2 f_equal. lia.
Qed.

Lemma chunks_concat k (sd : list card) : concat (chunks k sd) = take (2 * k) sd.
Proof.
  revert sd. induction k as [|k IH]; intros sd; [done|].
  cbn [chunks concat]. rewrite IH, take_take_drop. f_equal. lia.
Qed.

Lemma chunks_length k (sd : list card) : length (chunks k sd) = k.
Proof. revert sd. induction k as [|k IH]; intros sd; simpl; [done|by rewrite IH]. Qed.

Lemma chunks_pairs k (sd : list card) :
  (2 * k ≤ length sd)%nat → Forall (λ h, length h = 2%nat) (chunks k sd).
Proof.
  revert sd. induction k as [|k IH]; intros sd Hl; [constructor|].
  cbn [chunks]. constructor.
  - rewrite length_take. lia.
  - apply IH. rewrite length_drop. lia.
Qed.

(** X15: the deal of one trial.  [deal_trial] shuffles a private copy of
    the reduced deck and deals from its front: first the missing
    community cards, then two cards for each opponent in turn.  The
    cards dealt are the first [5 - len kc + 2 * num_opponents] cards of
    the shuffled copy, in order; when the reduced deck holds that many
    cards the board has five cards and every opponent two. *)
Theorem deal_trial_deals_from_the_front (known_community base_deck : loc)
    (num_opponents : Z) (st : store) (kc bd : list card) :
  lists st !! known_community = Some kc →
  lists st !! base_deck = Some bd →
  len kc ≤ 5 → 0 ≤ num_opponents →
  ∃ sd rest holes,
    deal_trial known_community base_deck num_opponents st
    = (Ok (kc ++ rest, holes),
       Store (Nat.iter (length bd - 1) lcg (_seed st)) (lists st ++ [sd])) ∧
    sd ≡ₚ bd ∧
    rest ++ concat holes = take (Z.to_nat (5 - len kc + 2 * num_opponents)) sd ∧
    length holes = Z.to_nat num_opponents ∧
    (5 - len kc + 2 * num_opponents ≤ len bd →
     length (kc ++ rest) = 5%nat ∧ Forall (λ h, length h = 2%nat) holes).
Proof.
  destruct st as [s H]. simpl. intros Hk Hb Hkc Hn.
  set (sd := (shuffled bd s).1).
  assert (sd ≡ₚ bd) as Hperm by apply shuffle_steps_perm.
  assert (length (range 0 num_opponents) = Z.to_nat num_opponents) as Hlen.
  { unfold range. rewrite length_seqZ. f_equal. lia. }
  exists sd, (take (Z.to_nat (5 - len kc)) sd),
    (chunks (Z.to_nat num_opponents) (drop (Z.to_nat (5 - len kc)) sd)).
  split_and!.
  - rewrite (deal_trial_run _ _ _ _ _ kc bd) by done.
    rewrite shuffled_iter. fold sd. do 2 f_equal.
    unfold deal_of, deal_holes. rewrite deal_holes_chunks. cbn [fst app].
    rewrite slice_to_nonneg, slice_from_nonneg, Hlen by lia. done.
  - done.
  - rewrite chunks_concat, take_take_drop. f_equal. lia.
  - apply chunks_length.
  - intros Henough.
    assert (length sd = length bd) as Hl by (by rewrite Hperm).
    unfold len in *. split.
    + rewrite length_app, length_take. lia.
    + apply chunks_pairs. rewrite length_drop. lia.
Qed.

Lemma deal_trial_deals_from_the_front_witness :
  let st := Store 5674832 [[(2, 1); (3, 1); (4, 1)]; full_deck] in
  ∃ sd rest holes,
    deal_trial 0%nat 1%nat 2 st
    = (Ok ([(2, 1); (3, 1); (4, 1)] ++ rest, holes),
       Store (Nat.iter (length full_deck - 1) lcg (_seed st)) (lists st ++ [sd])) ∧
    sd ≡ₚ full_deck ∧
    rest ++ concat holes
    = take (Z.to_nat (5 - len [(2, 1); (3, 1); (4, 1)] + 2 * 2)) sd ∧
    length holes = Z.to_nat 2 ∧
    (5 - len [(2, 1); (3, 1); (4, 1)] + 2 * 2 ≤ len full_deck →
     length ([(2, 1); (3, 1); (4, 1)] ++ rest) = 5%nat ∧
     Forall (λ h, length h = 2%nat) holes).
Proof.
  intros st.
  apply (deal_trial_deals_from_the_front 0%nat 1%nat 2 st
           [(2, 1); (3, 1); (4, 1)] full_deck);
    [reflexivity|reflexivity|vm_compute; discriminate|lia].
Defined.

Lemma trial_verdict_no_opponents pc kc sd n :
  n ≤ 0 → trial_verdict pc (deal_of kc sd n) = Ok Win.
Proof.
  intros Hn. unfold trial_verdict, deal_of, deal_holes, range.
  rewrite seqZ_nil by lia. cbn [fold_left fst snd map_result].
  destruct (rank_7cards_ok (pc ++ kc ++ slice_to sd (5 - len kc))) as [hero ->].
  done.
Qed.

Lemma trials_all_win pl kl n bdl (idxs : list Z) pc kc bd :
  n ≤ 0 →
  ∀ s (H : list (list card)) wins ties total,
  H !! pl = Some pc → H !! kl = Some kc → H !! bdl = Some bd →
  ∃ st',
    fold_M (λ _ counters, trial pl kl n bdl counters) idxs (wins, ties, total)
      (Store s H)
    = (Ok (wins + len idxs, ties, total + len idxs), st').
Proof.
  intros Hn. induction idxs as [|i idxs IH]; intros s H wins ties total Hp Hk Hb.
  - eexists. simpl. unfold len. simpl. by rewrite !Z.add_0_r.
  - destruct (trial_run_explicit pl kl n bdl s H pc kc bd Hp Hk Hb)
      as (o & Ho & Hcode).
    rewrite trial_verdict_no_opponents in Ho by done. injection Ho as <-.
    destruct (IH (shuffled bd s).2 (H ++ [(shuffled bd s).1])
                (wins + 1) ties (total + 1))
      as (st' & Hfold); [by apply lookup_app_l_Some ..|].
    exists st'. cbn [fold_M]. rewrite (bind_run _ _ _ _ _ (Hcode _)).
    change (bump Win (wins, ties, total)) with (wins + 1, ties, total + 1).
    rewrite Hfold.
    replace (wins + len (i :: idxs)) with (wins + 1 + len idxs)
      by (rewrite len_cons; lia).
    by replace (total + len (i :: idxs)) with (total + 1 + len idxs)
      by (rewrite len_cons; lia).
Qed.

(** X16: without opponents every trial is an outright win: for a
    positive trial count the loop ends with [wins = total = sims] and
    [ties = 0], and the estimate is [sims / sims], that is 1. *)
Theorem simulate_win_probability_no_opponents
    (player_cards known_community : loc) (num_opponents : Z) (deck : loc)
    (sims : Z) (st : store) (pc kc dk : list card) :
  lists st !! player_cards = Some pc →
  lists st !! known_community = Some kc →
  lists st !! deck = Some dk →
  0 < sims → num_opponents ≤ 0 →
  ((base_deck ← reduced_deck player_cards known_community deck;
    run_trials player_cards known_community num_opponents base_deck sims)
     st).1 = Ok (sims, 0, sims) ∧
  (simulate_win_probability player_cards known_community num_opponents deck
     sims st).1 = Ok (Qmake sims (Z.to_pos sims)) ∧
  Qeq (Qmake sims (Z.to_pos sims)) 1.
Proof.
  destruct st as [s H]. simpl. intros Hp Hk Hd Hsims Hn.
  pose proof (reduced_deck_run player_cards known_community deck s H pc kc dk
                Hp Hk Hd) as Hred.
  set (uc := pc ++ kc) in *.
  set (bd := filter (λ c, negb (py_in c uc)) dk) in *.
  destruct (trials_all_win player_cards known_community num_opponents
              (S (length H)) (range 0 sims) pc kc bd Hn
              s (H ++ [uc; bd]) 0 0 0) as (st' & Hfold).
  { by apply lookup_app_l_Some. }
  { by apply lookup_app_l_Some. }
  { replace (H ++ [uc; bd]) with ((H ++ [uc]) ++ [bd])
      by (by rewrite <- app_assoc).
    replace (S (length H)) with (length (H ++ [uc]))
      by (rewrite length_app; simpl; lia).
    apply lookup_last. }
  assert (len (range 0 sims) = sims) as Hlen.
  { unfold len, range. rewrite length_seqZ. lia. }
  rewrite Hlen, !Z.add_0_l in Hfold.
  split_and!.
  - unfold run_trials. rewrite (bind_run _ _ _ _ _ Hred). by rewrite Hfold.
  - unfold simulate_win_probability, run_trials.
    rewrite (bind_run _ _ _ _ _ Hred), (bind_run _ _ _ _ _ Hfold).
    replace (sims =? 0) with false by (symmetry; apply Z.eqb_neq; lia).
    by rewrite Z.add_0_r.
  - unfold Qeq. simpl. rewrite Z2Pos.id by done. lia.
Qed.

Lemma simulate_win_probability_no_opponents_witness :
  let st := Store 5674832 [[(14, 0); (13, 0)]; []; full_deck] in
  ((base_deck ← reduced_deck 0%nat 1%nat 2%nat;
    run_trials 0%nat 1%nat 0 base_deck 3) st).1 = Ok (3, 0, 3) ∧
  (simulate_win_probability 0%nat 1%nat 0 2%nat 3 st).1
  = Ok (Qmake 3 (Z.to_pos 3)) ∧
  Qeq (Qmake 3 (Z.to_pos 3)) 1.
Proof.
  intros st.
  apply (simulate_win_probability_no_opponents 0%nat 1%nat 0 2%nat 3 st
           [(14, 0); (13, 0)] [] full_deck); [reflexivity..|lia|lia].
Defined.

(** * The display form of a card *)

Lemma rank_map_lookup (rank : Z) :
  10 < rank →
  subscript ({[ 11 := "J"; 12 := "Q"; 13 := "K"; 14 := "A" ]}%string) rank =
    if rank =? 11 then Ok "J"%string
    else if rank =? 12 then Ok "Q"%string
    else if rank =? 13 then Ok "K"%string
    else if rank =? 14 then Ok "A"%string
    else Raise KeyError.
Proof.
  intros Hr. unfold subscript.
  destruct (Z.eqb_spec rank 11) as [->|?]; [done|].
  destruct (Z.eqb_spec rank 12) as [->|?]; [done|].
  destruct (Z.eqb_spec rank 13) as [->|?]; [done|].
  destruct (Z.eqb_spec rank 14) as [->|?]; [done|].
  rewrite !lookup_insert_ne by lia. by rewrite lookup_singleton_ne by lia.
Qed.

Lemma suit_map_lookup (suit : Z) :
  subscript ({[ 0 := "H"; 1 := "D"; 2 := "C"; 3 := "S" ]}%string) suit =
    suit_glyph suit.
Proof.
  unfold subscript, suit_glyph.
  destruct (Z.eqb_spec suit 0) as [-> | ?]; [done|].
  destruct (Z.eqb_spec suit 1) as [-> | ?]; [done|].
  destruct (Z.eqb_spec suit 2) as [-> | ?]; [done|].
  destruct (Z.eqb_spec suit 3) as [-> | ?]; [done|].
  rewrite !lookup_insert_ne by lia. by rewrite lookup_singleton_ne by lia.
Qed.

Lemma card_str_unfold rank suit :
  card_str (rank, suit) =
    r ← rank_glyph rank; s ← suit_glyph suit; Ok (r +:+ s).
Proof.
  unfold card_str, rank_glyph, suit_glyph. rewrite suit_map_lookup.
  destruct (Z.leb_spec rank 9); [done|].
  destruct (Z.eqb_spec rank 10); [done|].
  by rewrite rank_map_lookup by lia.
Qed.

Lemma suit_glyph_ok suit :
  0 ≤ suit ≤ 3 →
  ∃ a, String.get (Z.to_nat suit) "HDCS" = Some a ∧
       suit_glyph suit = Ok (String a "").
Proof.
  intros Hs.
  assert (suit = 0 ∨ suit = 1 ∨ suit = 2 ∨ suit = 3) as Hc by lia.
  destruct Hc as [-> | [-> | [-> |  ->]]]; by eexists.
Qed.

Lemma suit_glyph_raise suit :
  suit < 0 ∨ 3 < suit → suit_glyph suit = Raise KeyError.
Proof.
  intros Hs. unfold suit_glyph.
  destruct (Z.eqb_spec suit 0); [lia|]. destruct (Z.eqb_spec suit 1); [lia|].
  destruct (Z.eqb_spec suit 2); [lia|]. destruct (Z.eqb_spec suit 3); [lia|].
  done.
Qed.

Lemma suit_glyph_inj suit suit' x :
  suit_glyph suit = Ok x → suit_glyph suit' = Ok x → suit = suit'.
Proof.
  unfold suit_glyph.
  destruct (Z.eqb_spec suit 0) as [-> | ?]; [|
  destruct (Z.eqb_spec suit 1) as [-> | ?]; [|
  destruct (Z.eqb_spec suit 2) as [-> | ?]; [|
  destruct (Z.eqb_spec suit 3) as [-> | ?]; [|done]]]];
  intros [= <-];
  (destruct (Z.eqb_spec suit' 0) as [-> | ?]; [|
   destruct (Z.eqb_spec suit' 1) as [-> | ?]; [|
   destruct (Z.eqb_spec suit' 2) as [-> | ?]; [|
   destruct (Z.eqb_spec suit' 3) as [-> | ?]; [|done]]]]); done.
Qed.

Lemma str_bound_big : 14 < 10 ^ int_max_str_digits.
Proof.
  apply Z.lt_le_trans with (10 ^ 2); [done|].
  apply Z.pow_le_mono_r; unfold int_max_str_digits; lia.
Qed.

Lemma py_str_ok n :
  - 10 ^ int_max_str_digits < n < 10 ^ int_max_str_digits →
  py_str n = Ok (pretty n).
Proof.
  intros Hn. unfold py_str.
  destruct (Z.leb_spec (10 ^ int_max_str_digits) (Z.abs n)); [lia|done].
Qed.

Lemma py_str_raise n :
  n ≤ - 10 ^ int_max_str_digits ∨ 10 ^ int_max_str_digits ≤ n →
  py_str n = Raise ValueError.
Proof.
  intros Hn. unfold py_str.
  destruct (Z.leb_spec (10 ^ int_max_str_digits) (Z.abs n)); [done|lia].
Qed.

Lemma rank_glyph_low rank :
  - 10 ^ int_max_str_digits < rank ≤ 9 → rank_glyph rank = Ok (pretty rank).
Proof.
  intros Hr. pose proof str_bound_big. unfold rank_glyph.
  destruct (Z.leb_spec rank 9); [|lia]. apply py_str_ok. lia.
Qed.

Lemma rank_glyph_huge rank :
  rank ≤ - 10 ^ int_max_str_digits → rank_glyph rank = Raise ValueError.
Proof.
  intros Hr. pose proof str_bound_big. unfold rank_glyph.
  destruct (Z.leb_spec rank 9); [|lia]. apply py_str_raise. lia.
Qed.

Lemma rank_glyph_low_inv rank x :
  rank ≤ 9 → rank_glyph rank = Ok x →
  - 10 ^ int_max_str_digits < rank ∧ x = pretty rank.
Proof.
  intros Hr H.
  destruct (Z_le_gt_dec rank (- 10 ^ int_max_str_digits)).
  - by rewrite rank_glyph_huge in H.
  - rewrite rank_glyph_low in H by lia. injection H as <-. split; [lia|done].
Qed.

Lemma rank_glyph_face rank :
  10 ≤ rank ≤ 14 →
  ∃ a, String.get (Z.to_nat (rank - 10)) "TJQKA" = Some a ∧
       rank_glyph rank = Ok (String a "").
Proof.
  intros Hr.
  assert (rank = 10 ∨ rank = 11 ∨ rank = 12 ∨ rank = 13 ∨ rank = 14) as Hc by lia.
  destruct Hc as [-> | [-> | [-> | [-> |  ->]]]]; by eexists.
Qed.

Lemma rank_glyph_raise rank : 14 < rank → rank_glyph rank = Raise KeyError.
Proof.
  intros Hr. unfold rank_glyph.
  destruct (Z.leb_spec rank 9); [lia|].
  destruct (Z.eqb_spec rank 10); [lia|]. destruct (Z.eqb_spec rank 11); [lia|].
  destruct (Z.eqb_spec rank 12); [lia|]. destruct (Z.eqb_spec rank 13); [lia|].
  destruct (Z.eqb_spec rank 14); [lia|]. done.
Qed.

(** A numeral is none of the letters. *)
Lemma pretty_low_not_face (rank : Z) :
  rank ≤ 9 → pretty rank ∉ ["T"; "J"; "Q"; "K"; "A"]%string.
Proof.
  intros Hr Hin. destruct rank as [|p|p].
  - repeat (apply elem_of_cons in Hin as [Hin|Hin]; [discriminate|]).
    by apply elem_of_nil in Hin.
  - assert (p = 1 ∨ p = 2 ∨ p = 3 ∨ p = 4 ∨ p = 5 ∨ p = 6 ∨ p = 7 ∨ p = 8 ∨ p = 9)%positive
      as Hc by lia.
    destruct Hc as [-> | [-> | [-> | [-> | [-> | [-> | [-> | [-> | ->]]]]]]]];
      (repeat (apply elem_of_cons in Hin as [Hin|Hin]; [discriminate|]);
       by apply elem_of_nil in Hin).
  - change (pretty (Z.neg p)) with ("-" +:+ pretty p) in Hin. simpl in Hin.
    repeat (apply elem_of_cons in Hin as [Hin|Hin]; [discriminate|]).
    by apply elem_of_nil in Hin.
Qed.

Lemma rank_glyph_face_letter rank x :
  9 < rank → rank_glyph rank = Ok x → x ∈ ["T"; "J"; "Q"; "K"; "A"]%string.
Proof.
  intros Hr H.
  destruct (Z_le_gt_dec rank 14); [|by rewrite rank_glyph_raise in H by lia].
  assert (rank = 10 ∨ rank = 11 ∨ rank = 12 ∨ rank = 13 ∨ rank = 14) as Hc by lia.
  destruct Hc as [-> | [-> | [-> | [-> | ->]]]]; injection H as <-;
    repeat constructor.
Qed.

Lemma rank_glyph_inj rank rank' x :
  rank_glyph rank = Ok x → rank_glyph rank' = Ok x → rank = rank'.
Proof.
  intros H H'.
  destruct (Z_le_gt_dec rank 9) as [Hl|Hl], (Z_le_gt_dec rank' 9) as [Hl'|Hl'].
  - apply rank_glyph_low_inv in H as [_ ->]; [|done].
    apply rank_glyph_low_inv in H' as [_ H']; [|done].
    by apply (inj pretty).
  - apply rank_glyph_low_inv in H as [_ ->]; [|done].
    destruct (pretty_low_not_face rank Hl).
    apply (rank_glyph_face_letter rank'); [lia|done].
  - apply rank_glyph_low_inv in H' as [_ ->]; [|done].
    destruct (pretty_low_not_face rank' Hl').
    apply (rank_glyph_face_letter rank); [lia|done].
  - destruct (Z_le_gt_dec rank 14); [|by rewrite rank_glyph_raise in H by lia].
    destruct (Z_le_gt_dec rank' 14); [|by rewrite rank_glyph_raise in H' by lia].
    assert (rank = 10 ∨ rank = 11 ∨ rank = 12 ∨ rank = 13 ∨ rank = 14) as Hc by lia.
    assert (rank' = 10 ∨ rank' = 11 ∨ rank' = 12 ∨ rank' = 13 ∨ rank' = 14) as Hc' by lia.
    destruct Hc as [-> | [-> | [-> | [-> | ->]]]]; injection H as <-;
      destruct Hc' as [-> | [-> | [-> | [-> | ->]]]]; done.
Qed.

Lemma app_single_inj (x y : string) (a b : Ascii.ascii) :
  x +:+ String a "" = y +:+ String b "" → x = y ∧ a = b.
Proof.
  revert y. induction x as [|c x IH]; intros [|d y] H; simpl in H.
  - by injection H as ->.
  - injection H as -> H. by destruct y.
  - injection H as -> H. by destruct x.
  - injection H as -> H. apply IH in H as [-> ->]. done.
Qed.

Lemma card_str_ok_inv rank suit s :
  card_str (rank, suit) = Ok s →
  ∃ r a, rank_glyph rank = Ok r ∧ suit_glyph suit = Ok (String a "") ∧
         0 ≤ suit ≤ 3 ∧ s = r +:+ String a "".
Proof.
  rewrite card_str_unfold. intros H.
  destruct (rank_glyph rank) as [r|e] eqn:Hr; [|done].
  destruct (Z_lt_ge_dec suit 0); [by rewrite suit_glyph_raise in H by lia|].
  destruct (Z_le_gt_dec suit 3); [|by rewrite suit_glyph_raise in H by lia].
  destruct (suit_glyph_ok suit) as (a & _ & Ha); [lia|].
  rewrite Ha in H. injection H as <-. exists r, a. split_and!; [done..|lia|lia|done].
Qed.

(** X17: a card of the deck (rank 2..14, suit 0..3) is displayed as two
    characters: the rank's character in 23456789TJQKA followed by the
    suit's character in HDCS. *)
Theorem card_str_of_deck_card (rank suit : Z) :
  2 ≤ rank ≤ 14 → 0 ≤ suit ≤ 3 →
  ∃ r s : Ascii.ascii,
    String.get (Z.to_nat (rank - 2)) "23456789TJQKA" = Some r ∧
    String.get (Z.to_nat suit) "HDCS" = Some s ∧
    card_str (rank, suit) = Ok (String r (String s "")).
Proof.
  intros Hr Hs. pose proof str_bound_big as HB.
  rewrite card_str_unfold.
  destruct (suit_glyph_ok suit Hs) as (a & Ha & ->).
  assert (∃ r, String.get (Z.to_nat (rank - 2)) "23456789TJQKA" = Some r ∧
               rank_glyph rank = Ok (String r "")) as (r & Hg & ->).
  { destruct (Z_le_gt_dec rank 9).
    - rewrite rank_glyph_low by lia.
      assert (rank = 2 ∨ rank = 3 ∨ rank = 4 ∨ rank = 5 ∨ rank = 6 ∨
              rank = 7 ∨ rank = 8 ∨ rank = 9) as Hc by lia.
      destruct Hc as [-> | [-> | [-> | [-> | [-> | [-> | [-> | ->]]]]]]];
        by eexists.
    - assert (rank = 10 ∨ rank = 11 ∨ rank = 12 ∨ rank = 13 ∨ rank = 14)
        as Hc by lia.
      destruct Hc as [-> | [-> | [-> | [-> | ->]]]]; by eexists. }
  by exists r, a.
Qed.

Lemma card_str_of_deck_card_witness :
  ∃ r s : Ascii.ascii,
    String.get (Z.to_nat (14 - 2)) "23456789TJQKA" = Some r ∧
    String.get (Z.to_nat 0) "HDCS" = Some s ∧
    card_str (14, 0) = Ok (String r (String s "")).
Proof. apply card_str_of_deck_card; lia. Defined.

(** X18: [card_str] never displays two different cards as the same string,
    on or off the deck. *)
Theorem card_str_injective (c c' : card) (s : string) :
  card_str c = Ok s → card_str c' = Ok s → c = c'.
Proof.
  destruct c as [rank suit], c' as [rank' suit']. intros H H'.
  apply card_str_ok_inv in H as (r & a & Hr & Ha & _ & ->).
  apply card_str_ok_inv in H' as (r' & a' & Hr' & Ha' & _ & Heq).
  apply app_single_inj in Heq as [-> ->].
  f_equal; [by eapply rank_glyph_inj | by eapply suit_glyph_inj].
Qed.

Lemma card_str_injective_witness : ((10, 3) : card) = (10, 3).
Proof. by apply (card_str_injective (10, 3) (10, 3) "TS"). Defined.

(** X19: the domain of [card_str].  It returns exactly when the rank is
    at most 14, its numeral has at most 4300 digits and the suit is in
    0..3.  A rank of 9 or less is never looked up: it is displayed as its
    decimal numeral, also below 2, unless it is [- 10 ^ 4300] or less, in
    which case [str] raises ValueError before the suit is looked at.  A
    rank above 14 raises KeyError whatever the suit, and so does a suit
    outside 0..3 with any other rank.  Nothing else is raised. *)
Theorem card_str_domain (rank suit : Z) :
  (∀ e, card_str (rank, suit) = Raise e → e = KeyError ∨ e = ValueError) ∧
  (card_str (rank, suit) = Raise ValueError ↔
     rank ≤ - 10 ^ int_max_str_digits) ∧
  (card_str (rank, suit) = Raise KeyError ↔
     14 < rank ∨
     (- 10 ^ int_max_str_digits < rank ∧ (suit < 0 ∨ 3 < suit))) ∧
  (is_ok (card_str (rank, suit)) ↔
     - 10 ^ int_max_str_digits < rank ≤ 14 ∧ 0 ≤ suit ≤ 3) ∧
  (- 10 ^ int_max_str_digits < rank ≤ 9 → 0 ≤ suit ≤ 3 →
     ∃ a, String.get (Z.to_nat suit) "HDCS" = Some a ∧
          card_str (rank, suit) = Ok (pretty rank +:+ String a "")).
Proof.
  pose proof str_bound_big as HB.
  assert (rank ≤ - 10 ^ int_max_str_digits ∧
            card_str (rank, suit) = Raise ValueError
          ∨ 14 < rank ∧ card_str (rank, suit) = Raise KeyError
          ∨ (- 10 ^ int_max_str_digits < rank ≤ 14 ∧ (suit < 0 ∨ 3 < suit)) ∧
            card_str (rank, suit) = Raise KeyError
          ∨ (- 10 ^ int_max_str_digits < rank ≤ 14 ∧ 0 ≤ suit ≤ 3) ∧
            is_ok (card_str (rank, suit))) as Hcases.
  { rewrite card_str_unfold.
    destruct (Z_le_gt_dec rank (- 10 ^ int_max_str_digits)) as [Hh|Hh].
    { left. split; [done|]. by rewrite rank_glyph_huge. }
    destruct (Z_le_gt_dec rank 14) as [H14|H14];
      [|right; left; split; [lia|]; by rewrite rank_glyph_raise by lia].
    assert (∃ r, rank_glyph rank = Ok r) as [r ->].
    { destruct (Z_le_gt_dec rank 9).
      - rewrite rank_glyph_low by lia. by eexists.
      - destruct (rank_glyph_face rank) as (b & _ & ->); [lia|]. by eexists. }
    rsimpl.
    destruct (Z_lt_ge_dec suit 0) as [Hs0|Hs0];
      [right; right; left; split; [lia|]; by rewrite suit_glyph_raise by lia|].
    destruct (Z_le_gt_dec suit 3) as [Hs3|Hs3];
      [|right; right; left; split; [lia|]; by rewrite suit_glyph_raise by lia].
    right; right; right. split; [lia|].
    destruct (suit_glyph_ok suit) as (a & _ & ->); [lia|]. by eexists. }
  split_and!.
  - intros e He.
    destruct Hcases as [[_ H]|[[_ H]|[[_ H]|[_ [x H]]]]]; rewrite H in He;
      [right|left|left|done]; by injection He.
  - split.
    + intros He.
      by destruct Hcases as [[? H]|[[_ H]|[[_ H]|[_ [x H]]]]]; rewrite H in He.
    + intros Hr.
      destruct Hcases as [[_ H]|[[? _]|[[? _]|[? _]]]]; [done|lia..].
  - split.
    + intros He.
      destruct Hcases as [[_ H]|[[? H]|[[? H]|[_ [x H]]]]];
        [by rewrite H in He|left; lia|right; lia|by rewrite H in He].
    + intros Hr.
      destruct Hcases as [[? _]|[[_ H]|[[_ H]|[? _]]]]; [lia|done|done|lia].
  - split.
    + intros [x He].
      destruct Hcases as [[_ H]|[[_ H]|[[_ H]|[? _]]]];
        [by rewrite H in He..|lia].
    + intros Hr.
      destruct Hcases as [[? _]|[[? _]|[[? _]|[_ H]]]]; [lia..|done].
  - intros Hr Hs. rewrite card_str_unfold.
    destruct (suit_glyph_ok suit Hs) as (a & Hg & ->).
    rewrite rank_glyph_low by done. by exists a.
Qed.

(** * Removing cards in two steps *)

Lemma remove_twice_run deck cs1 cs2 s (H : list (list card)) d :
  H !! deck = Some d →
  (d1 ← remove_cards_from_deck deck cs1; remove_cards_from_deck d1 cs2) (Store s H)
  = (Ok (S (length H)),
     Store s (H ++ [filter (λ c, c ∉ cs1) d; filter (λ c, c ∉ cs1 ++ cs2) d])).
Proof.
  intros Hd.
  rewrite (bind_run _ _ _ _ _ (remove_cards_from_deck_run _ cs1 s H d Hd)).
  rewrite (remove_cards_from_deck_run _ cs2 _ _ (filter (λ c, c ∉ cs1) d))
    by apply lookup_last.
  rewrite length_app, Nat.add_1_r, <-app_assoc. cbn [app].
  rewrite list_filter_filter. do 5 f_equal.
  apply list_filter_iff. intros c. rewrite elem_of_app. tauto.
Qed.

(** X20: removing [cs1] and then [cs2] from the result, in either order,
    builds the same final list as removing [cs1 ++ cs2] at once; removing
    the same cards a second time changes nothing.  Each call allocates
    its own list and leaves the earlier ones alone. *)
Theorem remove_cards_from_deck_in_two_steps (deck : loc) (cs1 cs2 d : list card)
    (st : store) :
  lists st !! deck = Some d →
  let kept := filter (λ c, c ∉ cs1 ++ cs2) d in
  remove_cards_from_deck deck (cs1 ++ cs2) st
  = (Ok (length (lists st)), Store (_seed st) (lists st ++ [kept])) ∧
  (d1 ← remove_cards_from_deck deck cs1; remove_cards_from_deck d1 cs2) st
  = (Ok (S (length (lists st))),
     Store (_seed st) (lists st ++ [filter (λ c, c ∉ cs1) d; kept])) ∧
  (d2 ← remove_cards_from_deck deck cs2; remove_cards_from_deck d2 cs1) st
  = (Ok (S (length (lists st))),
     Store (_seed st) (lists st ++ [filter (λ c, c ∉ cs2) d; kept])) ∧
  (d1 ← remove_cards_from_deck deck cs1; remove_cards_from_deck d1 cs1) st
  = (Ok (S (length (lists st))),
     Store (_seed st)
       (lists st ++ [filter (λ c, c ∉ cs1) d; filter (λ c, c ∉ cs1) d])).
Proof.
  destruct st as [s H]. cbn [lists _seed]. intros Hd. split_and!.
  - by apply remove_cards_from_deck_run.
  - by apply remove_twice_run.
  - rewrite (remove_twice_run _ _ _ _ _ d Hd). do 5 f_equal.
    apply list_filter_iff. intros c. rewrite !elem_of_app. tauto.
  - rewrite (remove_twice_run _ _ _ _ _ d Hd). do 5 f_equal.
    apply list_filter_iff. intros c. rewrite !elem_of_app. tauto.
Qed.

Lemma remove_cards_from_deck_in_two_steps_witness :
  let st := Store 1 [[(14, 0); (13, 1); (2, 2); (13, 1)]] in
  let cs1 := [(13, 1)] in
  let cs2 := [(2, 2); (5, 0)] in
  (d1 ← remove_cards_from_deck 0%nat cs1; remove_cards_from_deck d1 cs2) st
  = (Ok 2%nat,
     Store 1 [[(14, 0); (13, 1); (2, 2); (13, 1)]; [(14, 0); (2, 2)]; [(14, 0)]]).
Proof.
  intros st cs1 cs2.
  exact (proj1 (proj2
    (remove_cards_from_deck_in_two_steps 0%nat cs1 cs2 _ st eq_refl))).
Defined.
